(** * hpc-access-cli: reconciliation of cluster state against the registry

    A shallow embedding of the reconciliation pipeline of [hpc_access_cli]:
    the target state builder and the state comparison of [states.py], the
    executors of [ldap.py] and [fs.py], and the [state-sync] and
    [storage-usage-sync] commands of [main.py].

    Conventions of the embedding.
    - Python [int] is [Z]; [float] is an IEEE 754 binary64 value, taken from
      [SpecFloat] with [prec = 53] and [emax = 1024]; [str] is [string];
      [Optional[T]] is [option T].
    - A Python [dict] with [str] (or UUID) keys is an insertion-ordered
      association list ([dict.t]): iteration order is observable in the
      builder (identifier allocation, member lists), so it is kept.
    - A Python [set] of strings is a [gset string]; a [for] loop over it
      runs over [elements], one fixed enumeration of the set.
    - A raised exception is the left injection of [outcome]; loops are
      [for_in], which threads the loop state and stops at the first raise.
    - Calls that leave the process ([check_call], the LDAP connection, the
      REST client) are recorded or threaded explicitly; writes to the
      console are not part of the model. *)

From Stdlib Require Import ZArith Ascii Floats.SpecFloat.
From stdpp Require Import gmap strings list fin_maps pretty.

Local Open Scope Z_scope.

(** ** Exceptions and the error monad *)

Inductive exn : Type :=
| KeyError (key : string)
| ValueError (msg : string)
| AttributeError (msg : string)
| TypeError (msg : string)
| OverflowError (msg : string)
| UnboundLocalError (name : string)
| Exception (msg : string).

Abbreviation outcome := (sum exn).

Definition raise {A : Type} (e : exn) : outcome A := inl e.

Global Instance result_ret : MRet outcome := λ A x, inr x.

Global Instance result_bind : MBind outcome := λ A B f m,
  match m with
  | inl e => inl e
  | inr x => f x
  end.

Global Instance result_fmap : FMap outcome := λ A B f m,
  match m with
  | inl e => inl e
  | inr x => inr (f x)
  end.

(** [for x in xs: body], with the variables the body assigns as loop state. *)
Fixpoint for_in {A S : Type} (xs : list A) (body : A → S → outcome S) (s : S)
  : outcome S :=
  match xs with
  | [] => inr s
  | x :: xs' => s' ← body x s; for_in xs' body s'
  end.

(** ** Strings *)

Module Str.

Definition startswith (s p : string) : bool := String.prefix p s.

Definition endswith (s p : string) : bool :=
  String.prefix (String.rev p) (String.rev s).

(** [s[n:]] *)
Fixpoint drop (n : nat) (s : string) : string :=
  match n, s with
  | O, _ => s
  | S n', String _ s' => drop n' s'
  | S _, EmptyString => EmptyString
  end.

(** [s[:n]] *)
Fixpoint take (n : nat) (s : string) : string :=
  match n, s with
  | S n', String c s' => String c (take n' s')
  | _, _ => EmptyString
  end.

(** [s[i:j]] for [0 <= i <= j] *)
Definition slice (i j : nat) (s : string) : string := take (j - i) (drop i s).

(** [needle in s] *)
Fixpoint contains (needle s : string) : bool :=
  String.prefix needle s ||
  match s with
  | EmptyString => false
  | String _ s' => contains needle s'
  end.

(** [c in s] for a single character *)
Fixpoint has_char (c : ascii) (s : string) : bool :=
  match s with
  | EmptyString => false
  | String a s' => bool_decide (a = c) || has_char c s'
  end.

(** [s.replace(c, r)] for a single character [c] *)
Fixpoint replace (c : ascii) (r : string) (s : string) : string :=
  match s with
  | EmptyString => EmptyString
  | String a s' =>
      if decide (a = c) then r +:+ replace c r s' else String a (replace c r s')
  end.

(** [s.split(c)], never empty *)
Fixpoint split (c : ascii) (s : string) : list string :=
  match s with
  | EmptyString => [EmptyString]
  | String a s' =>
      if decide (a = c) then EmptyString :: split c s'
      else match split c s' with
           | w :: ws => String a w :: ws
           | [] => [String a EmptyString]
           end
  end.

(** The text before the first [c] and, when there is one, the text after it. *)
Fixpoint cut (c : ascii) (s : string) : string * option string :=
  match s with
  | EmptyString => (EmptyString, None)
  | String a s' =>
      if decide (a = c) then (EmptyString, Some s')
      else let '(w, r) := cut c s' in (String a w, r)
  end.

(** [s.split(c, maxsplit)]: at most [maxsplit] cuts, from the left. *)
Fixpoint splitn (c : ascii) (maxsplit : nat) (s : string) : list string :=
  match maxsplit with
  | O => [s]
  | S n =>
      match cut c s with
      | (w, Some r) => w :: splitn c n r
      | (w, None) => [w]
      end
  end.

(** [sep.join(parts)] *)
Fixpoint join (sep : string) (parts : list string) : string :=
  match parts with
  | [] => EmptyString
  | [p] => p
  | p :: ps => p +:+ sep +:+ join sep ps
  end.

(** truth value of a string *)
Definition truthy (s : string) : bool := negb (bool_decide (s = EmptyString)).

End Str.

(** ** Insertion-ordered dictionaries with string keys *)

Module dict.

Definition t (V : Type) : Type := list (string * V).

Definition empty {V : Type} : t V := [].

(** [d.get(k)] *)
Fixpoint get {V : Type} (d : t V) (k : string) : option V :=
  match d with
  | [] => None
  | (k', v) :: d' => if decide (k' = k) then Some v else get d' k
  end.

(** [d[k]] *)
Definition getitem {V : Type} (d : t V) (k : string) : outcome V :=
  match get d k with
  | Some v => inr v
  | None => raise (KeyError k)
  end.

(** [d[k] = v]: an existing key keeps its position, a new one goes last. *)
Fixpoint set {V : Type} (d : t V) (k : string) (v : V) : t V :=
  match d with
  | [] => [(k, v)]
  | (k', v') :: d' =>
      if decide (k' = k) then (k, v) :: d' else (k', v') :: set d' k v
  end.

Definition keys {V : Type} (d : t V) : list string := d.*1.

Definition values {V : Type} (d : t V) : list V := d.*2.

(** [k in d] *)
Definition mem {V : Type} (d : t V) (k : string) : bool :=
  bool_decide (is_Some (get d k)).

(** [set(d.keys())] *)
Definition key_set {V : Type} (d : t V) : gset string := list_to_set (keys d).

(** [d1 == d2]: the same keys with equal values, in any order. *)
Definition eqb {V : Type} `{EqDecision V} (d1 d2 : t V) : bool :=
  forallb (λ k, bool_decide (get d1 k = get d2 k)) (keys d1 ++ keys d2).

(** [{key(x): x for x in xs}] *)
Definition of_list {A V : Type} (key : A → string) (val : A → V) (xs : list A)
  : t V :=
  fold_left (λ d x, set d (key x) (val x)) xs empty.

End dict.

(** ** Floating point (binary64) *)

Abbreviation float := spec_float.

Module Float.

Definition prec : Z := 53.
Definition emax : Z := 1024.

(** [float(n)] for an integer [n], correctly rounded. *)
Definition of_Z (n : Z) : float := binary_normalize prec emax n 0 false.

Definition mul (x y : float) : float := SFmul prec emax x y.

(** [not x] is true for both zeros only. *)
Definition truthy (x : float) : bool :=
  match x with
  | S754_zero _ => false
  | _ => true
  end.

(** [int(x)]: truncation towards zero; raises on infinities and NaN. *)
Definition to_int (x : float) : outcome Z :=
  match x with
  | S754_zero _ => inr 0
  | S754_finite s m e =>
      let a := match e with
               | Zneg p => Z.pos m ≫ Z.pos p
               | _ => Z.pos m ≪ e
               end in
      inr (if s then - a else a)
  | S754_infinity _ => raise (OverflowError "cannot convert float infinity to integer")
  | S754_nan => raise (ValueError "cannot convert float NaN to integer")
  end.

(** [n / 1024**p] for integers: the exact quotient, correctly rounded. *)
Definition div_pow1024 (n : Z) (p : Z) : float :=
  binary_normalize prec emax n (- (10 * p)) false.

End Float.

(** ** Constants ([constants.py]) *)

Definition POSIX_AG_PREFIX : string := "hpc-ag-".
Definition POSIX_PROJECT_PREFIX : string := "hpc-prj-".
Definition BASE_PATH_TIER1 : string := "/data/cephfs-1".
Definition BASE_PATH_TIER2 : string := "/data/cephfs-2".
Definition BASE_DN_GROUPS : string := "ou=Teams,ou=Groups,dc=hpc,dc=bihealth,dc=org".
Definition BASE_DN_PROJECTS : string := "ou=Projects,ou=Groups,dc=hpc,dc=bihealth,dc=org".
Definition BASE_DN_CHARITE : string := "ou=Charite,ou=Users,dc=hpc,dc=bihealth,dc=org".
Definition BASE_DN_MDC : string := "ou=MDC,ou=Users,dc=hpc,dc=bihealth,dc=org".
Definition QUOTA_HOME_BYTES : Z := 1024 * 1024 * 1024.
Definition HPC_ALUMNIS_GROUP : string := "hpc-alumnis".
Definition HPC_ALUMNIS_GID : Z := 1030001.
Definition HPC_USERS_GID : Z := 1005269.
Definition ENTITY_USERS : string := "users".
Definition ENTITY_GROUPS : string := "groups".
Definition ENTITY_PROJECTS : string := "projects".
Definition ENTITIES : list string := [ENTITY_USERS; ENTITY_GROUPS; ENTITY_PROJECTS].
Definition TIER_USER_HOME : string := "tier1_home".
Definition TIER_WORK : string := "tier1_work".
Definition TIER_SCRATCH : string := "tier1_scratch".
Definition TIER_UNMIRRORED : string := "tier2_unmirrored".
Definition TIER_MIRRORED : string := "tier2_mirrored".
Definition FOLDER_HOME : string := "home".
Definition FOLDER_WORK : string := "work".
Definition FOLDER_SCRATCH : string := "scratch".
Definition FOLDER_UNMIRRORED : string := "unmirrored".
Definition FOLDER_MIRRORED : string := "mirrored".
Definition FOLDER_CEPHFS1 : string := "cephfs-1".
Definition FOLDER_CEPHFS2 : string := "cephfs-2".

(** The table is keyed by a triple; [CEPHFS_TIER_MAPPING.get] is a scan. *)
Definition CEPHFS_TIER_MAPPING : list ((string * string * string) * string) :=
  [ ((FOLDER_CEPHFS1, FOLDER_HOME, ENTITY_USERS), TIER_USER_HOME);
    ((FOLDER_CEPHFS1, FOLDER_WORK, ENTITY_PROJECTS), TIER_WORK);
    ((FOLDER_CEPHFS1, FOLDER_WORK, ENTITY_GROUPS), TIER_WORK);
    ((FOLDER_CEPHFS1, FOLDER_SCRATCH, ENTITY_PROJECTS), TIER_SCRATCH);
    ((FOLDER_CEPHFS1, FOLDER_SCRATCH, ENTITY_GROUPS), TIER_SCRATCH);
    ((FOLDER_CEPHFS2, FOLDER_UNMIRRORED, ENTITY_PROJECTS), TIER_UNMIRRORED);
    ((FOLDER_CEPHFS2, FOLDER_UNMIRRORED, ENTITY_GROUPS), TIER_UNMIRRORED);
    ((FOLDER_CEPHFS2, FOLDER_MIRRORED, ENTITY_PROJECTS), TIER_MIRRORED);
    ((FOLDER_CEPHFS2, FOLDER_MIRRORED, ENTITY_GROUPS), TIER_MIRRORED) ].

Definition PREFIX_MAPPING : dict.t string :=
  [ ("projects", POSIX_PROJECT_PREFIX); ("groups", POSIX_AG_PREFIX) ].

(** ** Records ([models.py]) *)

Definition LOGIN_SHELL_DISABLED : string := "/usr/sbin/nologin".

(** A value of the dynamic union that [model_dump] and the diffs range over:
    [None], an [int], a [str], a list of [str], or the dump of a [Gecos]. *)
Inductive Value : Type :=
| VNone
| VInt (z : Z)
| VStr (s : string)
| VList (l : list string)
| VDict (d : list (string * option string)).

Global Instance Value_eq_dec : EqDecision Value.
Proof. solve_decision. Defined.

Definition VOptInt (o : option Z) : Value := from_option VInt VNone o.
Definition VOptStr (o : option string) : Value := from_option VStr VNone o.

(** [d.get(key)] on a dump: a missing key reads as [None]. *)
Definition dump_get (d : dict.t Value) (key : string) : Value :=
  default VNone (dict.get d key).

Module FsDirectory.

Record t : Type := mk {
  path : string;
  owner_name : string;
  owner_uid : Z;
  group_name : string;
  group_gid : Z;
  perms : string;
  rbytes : option Z;
  rfiles : option Z;
  quota_bytes : option Z;
  quota_files : option Z
}.

Global Instance eq_dec : EqDecision t.
Proof. solve_decision. Defined.

Definition model_dump (d : t) : dict.t Value :=
  [ ("path", VStr (path d));
    ("owner_name", VStr (owner_name d));
    ("owner_uid", VInt (owner_uid d));
    ("group_name", VStr (group_name d));
    ("group_gid", VInt (group_gid d));
    ("perms", VStr (perms d));
    ("rbytes", VOptInt (rbytes d));
    ("rfiles", VOptInt (rfiles d));
    ("quota_bytes", VOptInt (quota_bytes d));
    ("quota_files", VOptInt (quota_files d)) ].

End FsDirectory.

Module Gecos.

Record t : Type := mk {
  full_name : option string;
  office_location : option string;
  office_phone : option string;
  home_phone : option string;
  other : option string
}.

Global Instance eq_dec : EqDecision t.
Proof. solve_decision. Defined.

(** [Gecos()] *)
Definition default : t := mk None None None None None.

Definition model_dump (g : t) : Value :=
  VDict [ ("full_name", full_name g);
          ("office_location", office_location g);
          ("office_phone", office_phone g);
          ("home_phone", home_phone g);
          ("other", other g) ].

(** [x if x else ""] *)
Definition or_empty (o : option string) : string := from_option id "" o.

Definition to_string (g : t) : string :=
  Str.join "," [ or_empty (full_name g); or_empty (office_location g);
                 or_empty (office_phone g); or_empty (home_phone g);
                 or_empty (other g) ].

(** [part if part != "None" else None] *)
Definition field_of (part : string) : option string :=
  if decide (part ≠ "None") then Some part else None.

(** [parts] is brought to five elements before it is indexed, so that the
    five reads are in range. *)
Definition from_string (gecos : string) : t :=
  let parts := Str.splitn "," 4 gecos in
  let parts :=
    if bool_decide (length parts < 5)%nat
    then parts ++ replicate (5 - length parts) ""
    else parts in
  mk (field_of (nth 0 parts "")) (field_of (nth 1 parts ""))
     (field_of (nth 2 parts "")) (field_of (nth 3 parts ""))
     (field_of (nth 4 parts "")).

End Gecos.

Module LdapUser.

Record t : Type := mk {
  cn : string;
  dn : string;
  uid : string;
  mail : option string;
  sn : option string;
  given_name : option string;
  uid_number : Z;
  gid_number : option Z;
  home_directory : string;
  login_shell : string;
  gecos : option Gecos.t;
  ssh_public_key : list string
}.

Global Instance eq_dec : EqDecision t.
Proof. solve_decision. Defined.

Definition model_dump (u : t) : dict.t Value :=
  [ ("cn", VStr (cn u));
    ("dn", VStr (dn u));
    ("uid", VStr (uid u));
    ("mail", VOptStr (mail u));
    ("sn", VOptStr (sn u));
    ("given_name", VOptStr (given_name u));
    ("uid_number", VInt (uid_number u));
    ("gid_number", VOptInt (gid_number u));
    ("home_directory", VStr (home_directory u));
    ("login_shell", VStr (login_shell u));
    ("gecos", from_option Gecos.model_dump VNone (gecos u));
    ("ssh_public_key", VList (ssh_public_key u)) ].

End LdapUser.

Module LdapGroup.

Record t : Type := mk {
  cn : string;
  dn : string;
  gid_number : Z;
  description : option string;
  owner_dn : option string;
  delegate_dns : list string;
  member_uids : list string
}.

Global Instance eq_dec : EqDecision t.
Proof. solve_decision. Defined.

Definition model_dump (g : t) : dict.t Value :=
  [ ("cn", VStr (cn g));
    ("dn", VStr (dn g));
    ("gid_number", VInt (gid_number g));
    ("description", VOptStr (description g));
    ("owner_dn", VOptStr (owner_dn g));
    ("delegate_dns", VList (delegate_dns g));
    ("member_uids", VList (member_uids g)) ].

End LdapGroup.

Module ResourceData.

Record t : Type := mk {
  tier1_work : float;
  tier1_scratch : float;
  tier2_mirrored : float;
  tier2_unmirrored : float
}.

(** [ResourceData()] *)
Definition default : t :=
  mk (S754_zero false) (S754_zero false) (S754_zero false) (S754_zero false).

Definition model_dump (r : t) : dict.t float :=
  [ ("tier1_work", tier1_work r);
    ("tier1_scratch", tier1_scratch r);
    ("tier2_mirrored", tier2_mirrored r);
    ("tier2_unmirrored", tier2_unmirrored r) ].

End ResourceData.

Module ResourceDataUser.

Record t : Type := mk { tier1_home : float }.

(** [ResourceDataUser()] *)
Definition default : t := mk (S754_zero false).

Definition model_dump (r : t) : dict.t float := [ ("tier1_home", tier1_home r) ].

End ResourceDataUser.

Module GroupFolders.

Record t : Type := mk {
  tier1_work : string;
  tier1_scratch : string;
  tier2_mirrored : string;
  tier2_unmirrored : string
}.

End GroupFolders.

Inductive Status : Type := INITIAL | ACTIVE | DELETED | EXPIRED.

(** The content of a [resources_used] attribute.  It is declared as an
    optional model; the usage synchronisation assigns a plain [dict] to it,
    which an unvalidated attribute assignment accepts. *)
Inductive Used (M : Type) : Type :=
| UsedNone
| UsedModel (m : M)
| UsedDict (d : dict.t float).

Arguments UsedNone {M}.
Arguments UsedModel {M} m.
Arguments UsedDict {M} d.

Abbreviation UUID := string (only parsing).

Module HpcUser.

Record t : Type := mk {
  uuid : UUID;
  primary_group : option UUID;
  description : option string;
  email : option string;
  full_name : string;
  first_name : option string;
  last_name : option string;
  phone_number : option string;
  resources_requested : option ResourceDataUser.t;
  resources_used : Used ResourceDataUser.t;
  status : Status;
  uid : Z;
  username : string;
  expiration : Z;
  home_directory : string;
  login_shell : string;
  current_version : Z
}.

Definition set_resources_used (ru : Used ResourceDataUser.t) (u : t) : t :=
  mk (uuid u) (primary_group u) (description u) (email u) (full_name u)
     (first_name u) (last_name u) (phone_number u) (resources_requested u) ru
     (status u) (uid u) (username u) (expiration u) (home_directory u)
     (login_shell u) (current_version u).

End HpcUser.

Module HpcGroup.

Record t : Type := mk {
  uuid : UUID;
  owner : UUID;
  description : option string;
  delegate : option UUID;
  resources_requested : option ResourceData.t;
  resources_used : Used ResourceData.t;
  status : Status;
  gid : option Z;
  name : string;
  folders : GroupFolders.t;
  expiration : Z;
  current_version : Z
}.

Definition set_gid (g : option Z) (x : t) : t :=
  mk (uuid x) (owner x) (description x) (delegate x) (resources_requested x)
     (resources_used x) (status x) g (name x) (folders x) (expiration x)
     (current_version x).

Definition set_resources_used (ru : Used ResourceData.t) (x : t) : t :=
  mk (uuid x) (owner x) (description x) (delegate x) (resources_requested x)
     ru (status x) (gid x) (name x) (folders x) (expiration x)
     (current_version x).

End HpcGroup.

Module HpcProject.

Record t : Type := mk {
  uuid : UUID;
  group : option UUID;
  description : option string;
  delegate : option UUID;
  resources_requested : option ResourceData.t;
  resources_used : Used ResourceData.t;
  status : Status;
  gid : option Z;
  name : string;
  folders : GroupFolders.t;
  expiration : Z;
  current_version : Z;
  members : list UUID
}.

Definition set_gid (g : option Z) (x : t) : t :=
  mk (uuid x) (group x) (description x) (delegate x) (resources_requested x)
     (resources_used x) (status x) g (name x) (folders x) (expiration x)
     (current_version x) (members x).

Definition set_resources_used (ru : Used ResourceData.t) (x : t) : t :=
  mk (uuid x) (group x) (description x) (delegate x) (resources_requested x)
     ru (status x) (gid x) (name x) (folders x) (expiration x)
     (current_version x) (members x).

End HpcProject.

Module SystemState.

Record t : Type := mk {
  ldap_users : dict.t LdapUser.t;
  ldap_groups : dict.t LdapGroup.t;
  fs_directories : dict.t FsDirectory.t
}.

End SystemState.

Module HpcaccessState.

Record t : Type := mk {
  hpc_users : dict.t HpcUser.t;
  hpc_groups : dict.t HpcGroup.t;
  hpc_projects : dict.t HpcProject.t
}.

End HpcaccessState.

Inductive StateOperation : Type := CREATE | UPDATE | DISABLE.

Global Instance StateOperation_eq_dec : EqDecision StateOperation.
Proof. solve_decision. Defined.

(** [list(StateOperation)] *)
Definition all_StateOperation : list StateOperation := [CREATE; UPDATE; DISABLE].

Module FsDirectoryOp.

Record t : Type := mk {
  operation : StateOperation;
  directory : FsDirectory.t;
  diff : dict.t Value
}.

Global Instance eq_dec : EqDecision t.
Proof. solve_decision. Defined.

End FsDirectoryOp.

Module LdapUserOp.

Record t : Type := mk {
  operation : StateOperation;
  user : LdapUser.t;
  diff : dict.t Value
}.

Global Instance eq_dec : EqDecision t.
Proof. solve_decision. Defined.

End LdapUserOp.

Module LdapGroupOp.

Record t : Type := mk {
  operation : StateOperation;
  group : LdapGroup.t;
  diff : dict.t Value
}.

Global Instance eq_dec : EqDecision t.
Proof. solve_decision. Defined.

End LdapGroupOp.

Module OperationsContainer.

Record t : Type := mk {
  ldap_user_ops : list LdapUserOp.t;
  ldap_group_ops : list LdapGroupOp.t;
  fs_ops : list FsDirectoryOp.t
}.

End OperationsContainer.

(** ** State comparison ([states.py], [TargetStateComparison]) *)

(** The inner loop [for key in keys: if src.get(key) != dst.get(key):
    diff[key] = dst.get(key)], starting from [diff = {}]. *)
Definition diff_loop (keys : list string) (src_dict dst_dict : dict.t Value)
  : dict.t Value :=
  fold_left
    (λ diff key,
       if decide (dump_get src_dict key ≠ dump_get dst_dict key)
       then dict.set diff key (dump_get dst_dict key)
       else diff)
    keys dict.empty.

(** The keys that [_compare_fs_directories] looks at, in its order. *)
Definition fs_diff_keys : list string :=
  ["owner_uid"; "owner_gid"; "perms"; "quota_bytes"; "quota_files"].

Module TargetStateComparison.

(** The [settings] attribute is stored and never read; it is left out. *)
Record t : Type := mk {
  src : SystemState.t;
  dst : SystemState.t
}.

Definition _compare_ldap_users (self : t) : outcome (list LdapUserOp.t) :=
  let src_users := SystemState.ldap_users (src self) in
  let dst_users := SystemState.ldap_users (dst self) in
  let result := [] in
  let extra_usernames := dict.key_set src_users ∖ dict.key_set dst_users in
  let missing_usernames := dict.key_set dst_users ∖ dict.key_set src_users in
  let common_usernames := dict.key_set src_users ∩ dict.key_set dst_users in
  result ← for_in (elements extra_usernames) (λ username result,
    user ← dict.getitem src_users username;
    mret (result ++ [LdapUserOp.mk DISABLE user dict.empty])) result;
  result ← for_in (elements missing_usernames) (λ username result,
    user ← dict.getitem src_users username;
    mret (result ++ [LdapUserOp.mk CREATE user dict.empty])) result;
  result ← for_in (elements common_usernames) (λ username result,
    src_user ← dict.getitem src_users username;
    dst_user ← dict.getitem dst_users username;
    let src_user_dict := LdapUser.model_dump src_user in
    let dst_user_dict := LdapUser.model_dump dst_user in
    let all_keys := dict.key_set src_user_dict ∪ dict.key_set dst_user_dict in
    if negb (dict.eqb src_user_dict dst_user_dict) then
      let diff := diff_loop (elements all_keys) src_user_dict dst_user_dict in
      mret (result ++ [LdapUserOp.mk UPDATE src_user diff])
    else mret result) result;
  mret result.

Definition _compare_ldap_groups (self : t) : outcome (list LdapGroupOp.t) :=
  let src_groups := SystemState.ldap_groups (src self) in
  let dst_groups := SystemState.ldap_groups (dst self) in
  let result := [] in
  let extra_group_names := dict.key_set src_groups ∖ dict.key_set dst_groups in
  let missing_group_names := dict.key_set dst_groups ∖ dict.key_set src_groups in
  let common_group_names := dict.key_set src_groups ∩ dict.key_set dst_groups in
  result ← for_in (elements extra_group_names) (λ name result,
    group ← dict.getitem src_groups name;
    mret (result ++ [LdapGroupOp.mk DISABLE group dict.empty])) result;
  result ← for_in (elements missing_group_names) (λ name result,
    group ← dict.getitem dst_groups name;
    mret (result ++ [LdapGroupOp.mk CREATE group dict.empty])) result;
  result ← for_in (elements common_group_names) (λ name result,
    src_group ← dict.getitem src_groups name;
    dst_group ← dict.getitem dst_groups name;
    let src_group_dict := LdapGroup.model_dump src_group in
    let dst_group_dict := LdapGroup.model_dump dst_group in
    let all_keys := dict.key_set src_group_dict ∪ dict.key_set dst_group_dict in
    if negb (dict.eqb src_group_dict dst_group_dict) then
      let diff := diff_loop (elements all_keys) src_group_dict dst_group_dict in
      mret (result ++ [LdapGroupOp.mk UPDATE src_group diff])
    else mret result) result;
  mret result.

Definition _compare_fs_directories (self : t) : outcome (list FsDirectoryOp.t) :=
  let src_dirs := SystemState.fs_directories (src self) in
  let dst_dirs := SystemState.fs_directories (dst self) in
  let result := [] in
  let extra_paths := dict.key_set src_dirs ∖ dict.key_set dst_dirs in
  let missing_paths := dict.key_set dst_dirs ∖ dict.key_set src_dirs in
  let common_paths := dict.key_set src_dirs ∩ dict.key_set dst_dirs in
  result ← for_in (elements extra_paths) (λ path result,
    directory ← dict.getitem src_dirs path;
    mret (result ++ [FsDirectoryOp.mk DISABLE directory dict.empty])) result;
  result ← for_in (elements missing_paths) (λ path result,
    directory ← dict.getitem dst_dirs path;
    mret (result ++ [FsDirectoryOp.mk CREATE directory dict.empty])) result;
  result ← for_in (elements common_paths) (λ path result,
    src_directory ← dict.getitem src_dirs path;
    dst_directory ← dict.getitem dst_dirs path;
    let src_directory_dict := FsDirectory.model_dump src_directory in
    let dst_directory_dict := FsDirectory.model_dump dst_directory in
    if negb (dict.eqb src_directory_dict dst_directory_dict) then
      let diff := diff_loop fs_diff_keys src_directory_dict dst_directory_dict in
      mret (result ++ [FsDirectoryOp.mk UPDATE src_directory diff])
    else mret result) result;
  mret result.

Definition run (self : t) : outcome OperationsContainer.t :=
  ldap_user_ops ← _compare_ldap_users self;
  ldap_group_ops ← _compare_ldap_groups self;
  fs_ops ← _compare_fs_directories self;
  mret (OperationsContainer.mk ldap_user_ops ldap_group_ops fs_ops).

End TargetStateComparison.

(** ** Helpers of [states.py] *)

Definition strip_prefix (name : string) (prefix : option string) : string :=
  if from_option Str.truthy false prefix then
    let prefix := default "" prefix in
    if Str.startswith name prefix
    then Str.drop (String.length prefix) name
    else name
  else
    if Str.startswith name POSIX_AG_PREFIX
    then Str.drop (String.length POSIX_AG_PREFIX) name
    else if Str.startswith name POSIX_PROJECT_PREFIX
    then Str.drop (String.length POSIX_PROJECT_PREFIX) name
    else name.

Definition user_dn (user : HpcUser.t) : string :=
  if Str.endswith (HpcUser.username user) "_m"
  then "cn=" +:+ HpcUser.full_name user +:+ "," +:+ BASE_DN_MDC
  else "cn=" +:+ HpcUser.full_name user +:+ "," +:+ BASE_DN_CHARITE.

(** Truth value of an [Optional[int]]: [None] and [0] are false. *)
Definition gid_truthy (gid : option Z) : bool :=
  match gid with
  | Some z => negb (bool_decide (z = 0))
  | None => false
  end.

(** [gid or HPC_ALUMNIS_GID] *)
Definition gid_or_alumnis (gid : option Z) : Z :=
  if gid_truthy gid then default 0 gid else HPC_ALUMNIS_GID.

(** [max(xs)] for a non-empty list [x :: xs]. *)
Definition max_of (x : Z) (xs : list Z) : Z := foldr Z.max x xs.

(** A number in a tuple that mixes [int] and [float] entries. *)
Inductive num : Type :=
| NInt (z : Z)
| NFloat (x : float).

(** [int(quota)] *)
Definition py_int (quota : num) : outcome Z :=
  match quota with
  | NInt z => inr z
  | NFloat x => Float.to_int x
  end.

(** [quota * 1024 * 1024 * 1024 * 1024] for a [float] quota. *)
Definition terabytes (quota : float) : float :=
  let k := Float.of_Z 1024 in
  Float.mul (Float.mul (Float.mul (Float.mul quota k) k) k) k.

(** [(rr or ResourceData).field]: with [rr = None] the attribute is looked
    up on the model class, which has no such attribute. *)
Definition requested (rr : option ResourceData.t) (field : ResourceData.t → float)
    (field_name : string) : outcome float :=
  match rr with
  | Some r => inr (field r)
  | None => raise (AttributeError field_name)
  end.

(** The registry as the REST client returns it. *)
Module HpcaccessClient.

Record t : Type := mk {
  load_users : list HpcUser.t;
  load_groups : list HpcGroup.t;
  load_projects : list HpcProject.t
}.

End HpcaccessClient.

Definition gather_hpcaccess_state (rest_client : HpcaccessClient.t)
  : HpcaccessState.t :=
  HpcaccessState.mk
    (dict.of_list HpcUser.uuid id (HpcaccessClient.load_users rest_client))
    (dict.of_list HpcGroup.uuid id (HpcaccessClient.load_groups rest_client))
    (dict.of_list HpcProject.uuid id (HpcaccessClient.load_projects rest_client)).

(** ** Target state builder ([states.py], [TargetStateBuilder]) *)

Module TargetStateBuilder.

(** The builder object; [next_gid] is its mutable counter.  The [settings]
    only locate the registry and are replaced by the client itself. *)
Record t : Type := mk {
  settings : HpcaccessClient.t;
  system_state : SystemState.t;
  next_gid : Z
}.

Definition _get_next_gid (system_state : SystemState.t) : Z :=
  let gids :=
    LdapGroup.gid_number <$> dict.values (SystemState.ldap_groups system_state) in
  let gids :=
    gids ++ omap (λ u, if gid_truthy (LdapUser.gid_number u)
                       then LdapUser.gid_number u else None)
                 (dict.values (SystemState.ldap_users system_state)) in
  match gids with
  | g :: gs => max_of g gs + 1
  | [] => 1000
  end.

(** [TargetStateBuilder(settings, system_state)] *)
Definition init (settings : HpcaccessClient.t) (system_state : SystemState.t) : t :=
  mk settings system_state (_get_next_gid system_state).

(** The records of the registry state are mutable objects: assigning
    [group.gid] changes the record that the state holds.  The two loops of
    [_build_ldap_groups] therefore rebuild the dictionary they run over,
    record by record, and the function returns the updated builder and
    state next to its result.  [group_step] and [project_step] are the
    bodies of the two loops; their loop state is the counter, the records
    seen so far and [result]. *)
Definition group_step (hpc_users : dict.t HpcUser.t)
    (item : string * HpcGroup.t)
    (loop : Z * dict.t HpcGroup.t * dict.t LdapGroup.t)
  : outcome (Z * dict.t HpcGroup.t * dict.t LdapGroup.t) :=
  let '(key, group) := item in
  let '(next_gid, hpc_groups, result) := loop in
  let '(group, next_gid) :=
    if negb (gid_truthy (HpcGroup.gid group))
    then (* assign new group Unix GID if necessary *)
         (HpcGroup.set_gid (Some next_gid) group, next_gid + 1)
    else (group, next_gid) in
  let group_dn :=
    "cn=" +:+ POSIX_AG_PREFIX +:+ HpcGroup.name group +:+ "," +:+ BASE_DN_GROUPS in
  owner ← dict.getitem hpc_users (HpcGroup.owner group);
  delegate ← match HpcGroup.delegate group with
             | Some d => Some <$> dict.getitem hpc_users d
             | None => mret None
             end;
  let group_name := POSIX_AG_PREFIX +:+ HpcGroup.name group in
  mret (next_gid, hpc_groups ++ [(key, group)],
        dict.set result group_name
          (LdapGroup.mk group_name group_dn
             (default 0 (HpcGroup.gid group))
             (HpcGroup.description group)
             (Some (user_dn owner))
             (from_option (λ d, [user_dn d]) [] delegate)
             [])).

Definition project_step (hpc_users : dict.t HpcUser.t) (hpc_groups : dict.t HpcGroup.t)
    (item : string * HpcProject.t)
    (loop : Z * dict.t HpcProject.t * dict.t LdapGroup.t)
  : outcome (Z * dict.t HpcProject.t * dict.t LdapGroup.t) :=
  let '(key, project) := item in
  let '(next_gid, hpc_projects, result) := loop in
  let '(project, next_gid) :=
    if negb (gid_truthy (HpcProject.gid project))
    then (* assign new project Unix GID if necessary *)
         (HpcProject.set_gid (Some next_gid) project, next_gid + 1)
    else (project, next_gid) in
  let group_dn :=
    "cn=" +:+ POSIX_PROJECT_PREFIX +:+ HpcProject.name project +:+ "," +:+ BASE_DN_PROJECTS in
  owner_dn ← match HpcProject.group project with
             | Some g =>
                 owning_group ← dict.getitem hpc_groups g;
                 owner ← dict.getitem hpc_users (HpcGroup.owner owning_group);
                 mret (Some (user_dn owner))
             | None => mret None
             end;
  delegate ← match HpcProject.delegate project with
             | Some d => Some <$> dict.getitem hpc_users d
             | None => mret None
             end;
  let project_name := POSIX_PROJECT_PREFIX +:+ HpcProject.name project in
  mret (next_gid, hpc_projects ++ [(key, project)],
        dict.set result project_name
          (LdapGroup.mk project_name group_dn
             (default 0 (HpcProject.gid project))
             (HpcProject.description project)
             owner_dn
             (from_option (λ d, [user_dn d]) [] delegate)
             [])).

Definition _build_ldap_groups (self : t) (state : HpcaccessState.t)
  : outcome (t * HpcaccessState.t * dict.t LdapGroup.t) :=
  let hpc_users := HpcaccessState.hpc_users state in
  let result : dict.t LdapGroup.t := dict.empty in
  (* build for work groups *)
  '(next_gid, hpc_groups, result) ←
    for_in (HpcaccessState.hpc_groups state) (group_step hpc_users)
      (next_gid self, [], result);
  (* build for projects *)
  '(next_gid, hpc_projects, result) ←
    for_in (HpcaccessState.hpc_projects state) (project_step hpc_users hpc_groups)
      (next_gid, [], result);
  mret (mk (settings self) (system_state self) next_gid,
        HpcaccessState.mk hpc_users hpc_groups hpc_projects,
        result).

Definition _build_ldap_users (hpcaccess_state : HpcaccessState.t)
  : outcome (dict.t LdapUser.t) :=
  for_in (dict.values (HpcaccessState.hpc_users hpcaccess_state))
    (λ user result,
       let gecos := Gecos.mk (Some (HpcUser.full_name user)) None
                             (HpcUser.phone_number user) None None in
       group_gid ← match HpcUser.primary_group user with
                   | Some g =>
                       hpc_group ← dict.getitem (HpcaccessState.hpc_groups hpcaccess_state) g;
                       mret (gid_or_alumnis (HpcGroup.gid hpc_group))
                   | None => mret HPC_ALUMNIS_GID
                   end;
       mret (dict.set result (HpcUser.username user)
               (LdapUser.mk
                  (HpcUser.full_name user)
                  (user_dn user)
                  (HpcUser.username user)
                  (HpcUser.email user)
                  (HpcUser.last_name user)
                  (HpcUser.first_name user)
                  (HpcUser.uid user)
                  (Some group_gid)
                  (BASE_PATH_TIER1 +:+ "/home/users/" +:+ HpcUser.username user)
                  "/usr/bin/bash"
                  (Some gecos)
                  [])))
    dict.empty.

(** One directory of a group or project, as both loops construct it. *)
Definition shared_directory (path owner_name : string) (owner_uid : Z)
    (group_name : string) (group_gid : Z) (quota_bytes : Z) : FsDirectory.t :=
  FsDirectory.mk path owner_name owner_uid group_name group_gid "drwxrwS---"
                 None None (Some quota_bytes) None.

(** The three tier 1 volumes with their quotas. *)
Definition tier1_volumes (quota_scratch quota_work : float) : list (string * num) :=
  [ ("home", NInt QUOTA_HOME_BYTES);
    ("scratch", NFloat (terabytes quota_scratch));
    ("work", NFloat (terabytes quota_work)) ].

(** [_build_fs_directories] has three loops, over the users, the groups and
    the projects; the three steps below are their bodies.  [kind] is the
    path component of the entity kind with what precedes the name
    (["/groups/ag-"] or ["/projects/"]). *)
Definition user_directory_step (hpc_groups : dict.t HpcGroup.t) (user : HpcUser.t)
    (result : dict.t FsDirectory.t) : outcome (dict.t FsDirectory.t) :=
  '(group_name, group_gid) ←
    match HpcUser.primary_group user with
    | Some g =>
        hpc_group ← dict.getitem hpc_groups g;
        mret (HpcGroup.name hpc_group, gid_or_alumnis (HpcGroup.gid hpc_group))
    | None => mret (HPC_ALUMNIS_GROUP, HPC_ALUMNIS_GID)
    end;
  let path := BASE_PATH_TIER1 +:+ "/home/users/" +:+ HpcUser.username user in
  mret (dict.set result path
          (FsDirectory.mk path (HpcUser.username user) (HpcUser.uid user)
             group_name group_gid "drwx--S---" None None
             (Some QUOTA_HOME_BYTES) None)).

(** The inner loop over the tier 1 volumes. *)
Definition tier1_loop (kind : string) (owner : HpcUser.t) (name : string) (gid : Z)
    (quota_scratch quota_work : float) (result : dict.t FsDirectory.t)
  : outcome (dict.t FsDirectory.t) :=
  for_in (tier1_volumes quota_scratch quota_work)
    (λ '(volume, quota) result,
       let path := BASE_PATH_TIER1 +:+ "/" +:+ volume +:+ kind +:+ name in
       quota_bytes ← py_int quota;
       mret (dict.set result path
               (shared_directory path (HpcUser.username owner) (HpcUser.uid owner)
                  name gid quota_bytes)))
    result.

(** The inner loop over the tier 2 variants. *)
Definition tier2_loop (kind : string) (owner : HpcUser.t) (name : string) (gid : Z)
    (resources_requested : option ResourceData.t) (result : dict.t FsDirectory.t)
  : outcome (dict.t FsDirectory.t) :=
  for_in ["unmirrored"; "mirrored"]
    (λ variant result,
       quota ←
         (if decide (variant = "mirrored") then
            requested resources_requested ResourceData.tier2_mirrored "tier2_mirrored"
          else if decide (variant = "unmirrored") then
            requested resources_requested ResourceData.tier2_unmirrored "tier2_unmirrored"
          else raise (ValueError "Invalid variant"));
       if negb (Float.truthy quota) then mret result else
       let path := BASE_PATH_TIER2 +:+ "/" +:+ variant +:+ kind +:+ name in
       quota_bytes ← py_int (NFloat quota);
       mret (dict.set result path
               (shared_directory path (HpcUser.username owner) (HpcUser.uid owner)
                  name gid quota_bytes)))
    result.

(** The loop state of the second loop carries, next to [result], the loop
    variable [group]: the third loop reads it after the second has ended. *)
Definition group_directories_step (hpc_users : dict.t HpcUser.t) (group : HpcGroup.t)
    (loop : dict.t FsDirectory.t * option HpcGroup.t)
  : outcome (dict.t FsDirectory.t * option HpcGroup.t) :=
  let result := fst loop in
  let continue := mret (result, Some group) in
  if negb (gid_truthy (HpcGroup.gid group)) then continue else
  owner ← dict.getitem hpc_users (HpcGroup.owner group);
  let group_name := strip_prefix (HpcGroup.name group) (Some POSIX_AG_PREFIX) in
  (* Tier 1 *)
  quota_work ← requested (HpcGroup.resources_requested group)
                  ResourceData.tier1_work "tier1_work";
  if negb (Float.truthy quota_work) then continue else
  quota_scratch ← requested (HpcGroup.resources_requested group)
                     ResourceData.tier1_scratch "tier1_scratch";
  if negb (Float.truthy quota_scratch) then continue else
  result ← tier1_loop "/groups/ag-" owner group_name (default 0 (HpcGroup.gid group))
             quota_scratch quota_work result;
  (* Tier 2 *)
  result ← tier2_loop "/groups/ag-" owner group_name (default 0 (HpcGroup.gid group))
             (HpcGroup.resources_requested group) result;
  mret (result, Some group).

Definition project_directories_step (hpc_users : dict.t HpcUser.t)
    (hpc_groups : dict.t HpcGroup.t) (last_group : option HpcGroup.t)
    (project : HpcProject.t) (result : dict.t FsDirectory.t)
  : outcome (dict.t FsDirectory.t) :=
  let continue := mret result in
  if negb (gid_truthy (HpcProject.gid project)) then continue else
  match HpcProject.group project with
  | None => continue
  | Some project_group =>
      owning_group ← dict.getitem hpc_groups project_group;
      owner ← dict.getitem hpc_users (HpcGroup.owner owning_group);
      group ← match last_group with
              | Some group => mret group
              | None => raise (UnboundLocalError "group")
              end;
      let project_name := strip_prefix (HpcGroup.name group) (Some POSIX_PROJECT_PREFIX) in
      (* Tier 1 *)
      quota_work ← requested (HpcProject.resources_requested project)
                      ResourceData.tier1_work "tier1_work";
      if negb (Float.truthy quota_work) then continue else
      quota_scratch ← requested (HpcProject.resources_requested project)
                         ResourceData.tier1_scratch "tier1_scratch";
      if negb (Float.truthy quota_scratch) then continue else
      result ← tier1_loop "/projects/" owner project_name
                 (default 0 (HpcProject.gid project)) quota_scratch quota_work result;
      (* Tier 2 *)
      tier2_loop "/projects/" owner project_name (default 0 (HpcProject.gid project))
        (HpcProject.resources_requested project) result
  end.

Definition _build_fs_directories (hpcaccess_state : HpcaccessState.t)
  : outcome (dict.t FsDirectory.t) :=
  let hpc_users := HpcaccessState.hpc_users hpcaccess_state in
  let hpc_groups := HpcaccessState.hpc_groups hpcaccess_state in
  let hpc_projects := HpcaccessState.hpc_projects hpcaccess_state in
  let result : dict.t FsDirectory.t := dict.empty in
  result ←
    for_in (dict.values hpc_users) (user_directory_step hpc_groups) result;
  '(result, group) ←
    for_in (dict.values hpc_groups) (group_directories_step hpc_users) (result, None);
  for_in (dict.values hpc_projects)
    (project_directories_step hpc_users hpc_groups group) result.

(** [_build]: the groups first, so that every record has its Unix GID when
    the users and the directories are considered. *)
Definition _build (self : t) (hpcaccess_state : HpcaccessState.t)
  : outcome (t * SystemState.t) :=
  '(self, hpcaccess_state, ldap_groups) ← _build_ldap_groups self hpcaccess_state;
  ldap_users ← _build_ldap_users hpcaccess_state;
  (* build hpc-users group *)
  let ldap_groups :=
    dict.set ldap_groups "hpc-users"
      (LdapGroup.mk "hpc-users"
         "cn=hpc-users,ou=Groups,dc=hpc,dc=bihealth,dc=org"
         HPC_USERS_GID
         (Some "users allowed to login (active+have group)")
         None
         []
         (LdapUser.uid <$>
            filter (λ u, LdapUser.gid_number u ≠ Some HPC_ALUMNIS_GID
                         ∧ Str.contains "nologin" (LdapUser.login_shell u) = false)
                   (dict.values ldap_users))) in
  fs_directories ← _build_fs_directories hpcaccess_state;
  mret (self, SystemState.mk ldap_users ldap_groups fs_directories).

Definition run (self : t) : outcome (t * SystemState.t) :=
  let hpcaccess_state := gather_hpcaccess_state (settings self) in
  _build self hpcaccess_state.

End TargetStateBuilder.

(** ** Path validation ([states.py], [fs_validation]) *)

(** [re.search(RE_PATH, path)] with
    [RE_PATH = "/(cephfs-[12])/([^/]+)/([^/]+)/([^/]+)"].  Every group of the
    pattern sits between two slashes or before the end and contains none, so
    a match is a run of four components of [path.split("/")], none of them
    the first: the tier component is [cephfs-1] or [cephfs-2] and the three
    after it are not empty.  The search returns the leftmost match. *)
Fixpoint re_search_components (parts : list string)
  : option (string * string * string * string) :=
  match parts with
  | [] => None
  | tier :: rest =>
      match rest with
      | subdir :: entity :: name :: _ =>
          if bool_decide ((tier = "cephfs-1" ∨ tier = "cephfs-2")
                          ∧ subdir ≠ "" ∧ entity ≠ "" ∧ name ≠ "")
          then Some (tier, subdir, entity, name)
          else re_search_components rest
      | _ => None
      end
  end.

Definition re_search_RE_PATH (path : string)
  : option (string * string * string * string) :=
  re_search_components (tail (Str.split "/" path)).

(** [CEPHFS_TIER_MAPPING.get((tier, subdir, entity))] *)
Definition tier_mapping_get (key : string * string * string) : option string :=
  snd <$> find (λ kv, bool_decide (fst kv = key)) CEPHFS_TIER_MAPPING.

Definition fs_validation (fs : FsDirectory.t) : outcome (string * string * string) :=
  match re_search_RE_PATH (FsDirectory.path fs) with
  | None => raise (ValueError ("no match for path " +:+ FsDirectory.path fs))
  | Some (tier, subdir, entity, folder_name) =>
      if negb (bool_decide (entity ∈ ENTITIES)) then
        raise (ValueError ("entity unknown (" +:+ Str.join "/" ENTITIES +:+ "): " +:+ entity))
      else
      entity_name ←
        (if decide (entity = "users") then mret (FsDirectory.owner_name fs)
         else
           prefix ← dict.getitem PREFIX_MAPPING entity;
           mret (strip_prefix (FsDirectory.group_name fs) (Some prefix)));
      if negb (bool_decide (entity_name = folder_name)) then
        raise (ValueError ("name mismatch: " +:+ entity_name +:+ " " +:+ FsDirectory.path fs))
      else
      match tier_mapping_get (tier, subdir, entity) with
      | Some resource =>
          if Str.truthy resource then mret (entity, folder_name, resource)
          else raise (ValueError ("path " +:+ FsDirectory.path fs +:+ " not in the tier mapping"))
      | None =>
          raise (ValueError ("path " +:+ FsDirectory.path fs +:+ " not in the tier mapping"))
      end
  end.

(** ** File system executor ([fs.py]) *)

(** A command handed to [check_call], as its argument vector. *)
Abbreviation command := (list string) (only parsing).

Definition _transform_perms (perms : string) : string :=
  let perms_user := Str.replace "-" "" (Str.slice 1 4 perms) in
  let perms_user :=
    if Str.has_char "S" perms_user then
      "u=" +:+ Str.replace "S" "" perms_user +:+ ",u+s"
    else if Str.has_char "S" perms_user then
      "u=" +:+ Str.replace "s" "x" perms_user +:+ ",u+s"
    else
      "u=" +:+ perms_user +:+ ",u-s" in
  let perms_group := Str.replace "-" "" (Str.slice 4 7 perms) in
  let perms_group :=
    if Str.has_char "S" perms_group then
      "g=" +:+ Str.replace "S" "" perms_group +:+ ",g+s"
    else if Str.has_char "s" perms_group then
      "g=" +:+ Str.replace "s" "x" perms_group +:+ ",g+s"
    else perms_group in
  let perms_other :=
    Str.replace "s" "x" (Str.replace "S" "" (Str.replace "-" "" (Str.drop 7 perms))) in
  let perms_other := "o=" +:+ perms_other +:+ ",o-s" in
  perms_user +:+ "," +:+ perms_group +:+ "," +:+ perms_other.

(** [f"{value}"].  A directory diff holds [None], [int] and [str] values
    only; the other two shapes are printed without their elements. *)
Definition format_value (value : Value) : string :=
  match value with
  | VNone => "None"
  | VInt z => pretty z
  | VStr s => s
  | VList _ => "[...]"
  | VDict _ => "{...}"
  end.

Module FsResourceManager.

(** Each function returns the commands it passes to [check_call], in order;
    under [dry_run] none is passed. *)
Definition check_call (dry_run : bool) (argv : command) : list command :=
  if dry_run then [] else [argv].

Definition _fs_op_create (directory : FsDirectory.t) (dry_run : bool)
  : outcome (list command) :=
  let perms := _transform_perms (FsDirectory.perms directory) in
  mret (check_call dry_run
          ["mkdir"; "-v"; "-m"; perms; "-p"; FsDirectory.path directory]
        ++ check_call dry_run
          ["chown"; "-c";
           FsDirectory.owner_name directory +:+ ":" +:+ FsDirectory.group_name directory;
           FsDirectory.path directory]).

Definition _fs_op_disable (directory : FsDirectory.t) (dry_run : bool)
  : outcome (list command) :=
  mret (check_call dry_run
          ["setfattr"; "-n"; "ceph-quota.max_files"; "-v"; "0";
           FsDirectory.path directory]).

Definition _fs_op_update (directory : FsDirectory.t) (diff : dict.t Value)
    (dry_run : bool) : outcome (list command) :=
  for_in diff
    (λ '(key, value) issued,
       if decide (key = "quota_bytes") then
         if decide (value = VNone) then
           mret (issued ++ check_call dry_run
                   ["setfattr"; "-x"; "ceph-quota.max_bytes"; FsDirectory.path directory])
         else
           mret (issued ++ check_call dry_run
                   ["setfattr"; "-n"; "ceph-quota.max_bytes"; "-v";
                    format_value value; FsDirectory.path directory])
       else if decide (key = "quota_files") then
         if decide (value = VNone) then
           mret (issued ++ check_call dry_run
                   ["setfattr"; "-x"; "ceph-quota.max_files"; FsDirectory.path directory])
         else
           mret (issued ++ check_call dry_run
                   ["setfattr"; "-n"; "ceph-quota.max_files"; "-v";
                    format_value value; FsDirectory.path directory])
       else if bool_decide (key ∈ ["owner_name"; "owner_uid"]) then
         mret (issued ++ check_call dry_run
                 ["chown"; "-c"; format_value value; FsDirectory.path directory])
       else if bool_decide (key ∈ ["group_name"; "group_gid"]) then
         mret (issued ++ check_call dry_run
                 ["chgrp"; "-c"; format_value value; FsDirectory.path directory])
       else if decide (key = "perms") then
         let perms := _transform_perms (FsDirectory.perms directory) in
         mret (issued ++ check_call dry_run
                 ["chmod"; "-c"; perms; FsDirectory.path directory])
       else
         raise (ValueError ("I don't know how to handle fs directory diff key '"
                            +:+ key +:+ "'")))
    [].

Definition apply_fs_op (fs_op : FsDirectoryOp.t) (dry_run : bool)
  : outcome (list command) :=
  if decide (FsDirectoryOp.operation fs_op = CREATE) then
    _fs_op_create (FsDirectoryOp.directory fs_op) dry_run
  else if decide (FsDirectoryOp.operation fs_op = DISABLE) then
    _fs_op_disable (FsDirectoryOp.directory fs_op) dry_run
  else if decide (FsDirectoryOp.operation fs_op = UPDATE) then
    _fs_op_update (FsDirectoryOp.directory fs_op) (FsDirectoryOp.diff fs_op) dry_run
  else mret [].

End FsResourceManager.

(** ** Directory service executor ([ldap.py]) *)

Definition USER_OBJ_CLASSES : list string :=
  ["inetOrgPerson"; "posixAccount"; "ldapPublicKey"; "bih-expireDates"; "top"].

Definition upper (c : ascii) : ascii :=
  let n := nat_of_ascii c in
  if bool_decide (97 ≤ n ≤ 122)%nat then ascii_of_nat (n - 32) else c.

(** [humps.camelize], as it acts on the lower snake-case field names of the
    models: an underscore is dropped and the letter after it capitalised. *)
Fixpoint camelize (s : string) : string :=
  match s with
  | EmptyString => EmptyString
  | String c s' =>
      if decide (c = "_"%char) then
        match s' with
        | String c' s'' => String (upper c') (camelize s'')
        | EmptyString => String c EmptyString
        end
      else String c (camelize s')
  end.

(** Truth value of a diff value. *)
Definition value_truthy (value : Value) : bool :=
  match value with
  | VNone => false
  | VInt z => negb (bool_decide (z = 0))
  | VStr s => Str.truthy s
  | VList l => negb (bool_decide (l = []))
  | VDict d => negb (bool_decide (d = []))
  end.

(** [value or ""] *)
Definition value_or_empty (value : Value) : Value :=
  if value_truthy value then value else VStr "".

Module LdapEntry.

Record t : Type := mk {
  entry_dn : string;
  entry_attributes : dict.t Value
}.

End LdapEntry.

(** The directory server behind an [ldap3] connection, by the three calls
    the executor makes: [connection.add], a paged search that returns the
    entries found, and [entry_commit_changes] on a writable entry, which
    sends the attributes assigned to it and reports failure by [None]. *)
Class LdapServer (S : Type) : Type := {
  ldap_add : S → string → list string → dict.t Value → S;
  ldap_paged_search : S → string → string → list LdapEntry.t;
  ldap_commit_changes : S → LdapEntry.t → dict.t Value → option S
}.

Module LdapConnection.

Section Connection.

Context {S : Type} `{LdapServer S}.

(** [config] is reduced to the search base, [connection] to the server. *)
Record t : Type := mk {
  search_base : string;
  connection : S
}.

Definition with_connection (self : t) (connection : S) : t :=
  mk (search_base self) connection.

Definition _user_op_create (self : t) (user : LdapUser.t) (dry_run : bool)
  : outcome t :=
  let user_data : dict.t Value :=
    [ ("cn", VStr (LdapUser.cn user));
      ("uid", VStr (LdapUser.uid user));
      ("uidNumber", VInt (LdapUser.uid_number user));
      ("homeDirectory", VStr (LdapUser.home_directory user)) ] in
  let user_data :=
    if from_option Str.truthy false (LdapUser.sn user)
    then dict.set user_data "sn" (VOptStr (LdapUser.sn user)) else user_data in
  let user_data :=
    if from_option Str.truthy false (LdapUser.given_name user)
    then dict.set user_data "givenName" (VOptStr (LdapUser.given_name user))
    else user_data in
  if negb dry_run then
    mret (with_connection self
            (ldap_add (connection self) (LdapUser.dn user) USER_OBJ_CLASSES user_data))
  else mret self.

Definition user_search_filter (user : LdapUser.t) : string :=
  "(&(objectClass=posixAccount)(uid=" +:+ LdapUser.uid user +:+ "))".

Definition _user_op_disable (self : t) (user : LdapUser.t) (dry_run : bool)
  : outcome t :=
  match ldap_paged_search (connection self) (search_base self) (user_search_filter user) with
  | [] => raise (Exception ("FATAL: could not find users with search base "
                            +:+ search_base self))
  | entry :: _ =>
      let writable := dict.set dict.empty "loginShell" (VStr LOGIN_SHELL_DISABLED) in
      if negb dry_run then
        match ldap_commit_changes (connection self) entry writable with
        | None => raise (Exception ("Failed to disable user " +:+ LdapUser.uid user +:+ "."))
        | Some connection => mret (with_connection self connection)
        end
      else mret self
  end.

Definition _user_op_update (self : t) (user : LdapUser.t) (diff : dict.t Value)
    (dry_run : bool) : outcome t :=
  match ldap_paged_search (connection self) (search_base self) (user_search_filter user) with
  | [] => raise (Exception ("FATAL: could not find users with search base "
                            +:+ search_base self))
  | entry :: _ =>
      let writable :=
        fold_left (λ writable '(key, value),
                     let key := camelize key in
                     dict.set writable key (value_or_empty value))
                  diff dict.empty in
      if negb dry_run then
        match ldap_commit_changes (connection self) entry writable with
        | None => raise (Exception ("Failed to disable user " +:+ LdapUser.uid user +:+ "."))
        | Some connection => mret (with_connection self connection)
        end
      else mret self
  end.

Definition apply_user_op (self : t) (op : LdapUserOp.t) (dry_run : bool)
  : outcome t :=
  if decide (LdapUserOp.operation op = CREATE) then
    _user_op_create self (LdapUserOp.user op) dry_run
  else if decide (LdapUserOp.operation op = DISABLE) then
    _user_op_disable self (LdapUserOp.user op) dry_run
  else if decide (LdapUserOp.operation op = UPDATE) then
    _user_op_update self (LdapUserOp.user op) (LdapUserOp.diff op) dry_run
  else mret self.

(** [def _group_op_create(self, group, dry_run): pass] *)
Definition _group_op_create (self : t) (group : LdapGroup.t) (dry_run : bool)
  : outcome t :=
  mret self.

Definition _group_op_disable (self : t) (group : LdapGroup.t) (dry_run : bool)
  : outcome t :=
  mret self.

Definition group_search_filter (group : LdapGroup.t) : string :=
  "(&(objectClass=gidNumber)(gidNumber=" +:+ pretty (LdapGroup.gid_number group) +:+ "))".

Definition _group_op_update (self : t) (group : LdapGroup.t) (diff : dict.t Value)
    (dry_run : bool) : outcome t :=
  match ldap_paged_search (connection self) (search_base self) (group_search_filter group) with
  | [] => raise (Exception ("FATAL: could not find group with search base "
                            +:+ search_base self))
  | entry :: _ =>
      let writable :=
        fold_left (λ writable '(key, value), dict.set writable key value)
                  diff dict.empty in
      if negb dry_run then
        match ldap_commit_changes (connection self) entry writable with
        | None => raise (Exception ("Failed to update DN: " +:+ LdapGroup.dn group +:+ "."))
        | Some connection => mret (with_connection self connection)
        end
      else mret self
  end.

(** The two sides of the comparisons in [apply_group_op]: the operation
    record itself and a member of the enumeration.  Neither class defines
    equality with the other, so [==] between them is false. *)
Inductive PyObject : Type :=
| ObjLdapGroupOp (op : LdapGroupOp.t)
| ObjStateOperation (operation : StateOperation).

Definition py_eq (a b : PyObject) : bool :=
  match a, b with
  | ObjLdapGroupOp x, ObjLdapGroupOp y => bool_decide (x = y)
  | ObjStateOperation x, ObjStateOperation y => bool_decide (x = y)
  | _, _ => false
  end.

Definition apply_group_op (self : t) (op : LdapGroupOp.t) (dry_run : bool)
  : outcome t :=
  if py_eq (ObjLdapGroupOp op) (ObjStateOperation CREATE) then
    _group_op_create self (LdapGroupOp.group op) dry_run
  else if py_eq (ObjLdapGroupOp op) (ObjStateOperation DISABLE) then
    _group_op_disable self (LdapGroupOp.group op) dry_run
  else if py_eq (ObjLdapGroupOp op) (ObjStateOperation UPDATE) then
    _group_op_update self (LdapGroupOp.group op) (LdapGroupOp.diff op) dry_run
  else mret self.

End Connection.

Arguments t S : clear implicits.

End LdapConnection.

(** ** Configuration ([config.py]) and state gathering *)

Module Settings.

(** [ldap_hpc] is reduced to its search base and [hpc_access] to the
    registry it points to; the mail settings play no part. *)
Record t : Type := mk {
  ldap_hpc : string;
  hpc_access : HpcaccessClient.t;
  ldap_user_ops : list StateOperation;
  ldap_group_ops : list StateOperation;
  fs_ops : list StateOperation;
  dry_run : bool
}.

(** The defaults of the three operation lists and of [dry_run]. *)
Definition with_defaults (ldap_hpc : string) (hpc_access : HpcaccessClient.t) : t :=
  mk ldap_hpc hpc_access [CREATE; UPDATE; DISABLE] [CREATE; UPDATE; DISABLE]
     [CREATE; UPDATE; DISABLE] false.

End Settings.

(** What the directory service and the file system report when read. *)
Module SystemReaders.

Record t : Type := mk {
  load_users : list LdapUser.t;
  load_groups : list LdapGroup.t;
  load_directories : list FsDirectory.t
}.

End SystemReaders.

Definition gather_system_state (readers : SystemReaders.t) : SystemState.t :=
  SystemState.mk
    (dict.of_list LdapUser.uid id (SystemReaders.load_users readers))
    (dict.of_list LdapGroup.cn id (SystemReaders.load_groups readers))
    (dict.of_list FsDirectory.path id (SystemReaders.load_directories readers)).

(** ** The [state-sync] command ([main.py], [sync_data]) *)

(** [ops or list(StateOperation)] *)
Definition ops_or_all (ops : list StateOperation) : list StateOperation :=
  match ops with
  | [] => all_StateOperation
  | _ => ops
  end.

(** [loaded] is what [load_settings] returns and [readers] what the two
    systems report; the result is the server after the run and the commands
    passed to [check_call]. *)
Definition sync_data {S : Type} `{LdapServer S}
    (loaded : Settings.t) (readers : SystemReaders.t) (server : S)
    (ldap_user_ops ldap_group_ops fs_ops : list StateOperation) (dry_run : bool)
  : outcome (S * list command) :=
  let settings :=
    Settings.mk (Settings.ldap_hpc loaded) (Settings.hpc_access loaded)
      (ops_or_all ldap_user_ops) (ops_or_all ldap_group_ops) (ops_or_all fs_ops)
      dry_run in
  let src_state := gather_system_state readers in
  let dst_builder := TargetStateBuilder.init (Settings.hpc_access settings) src_state in
  '(_, dst_state) ← TargetStateBuilder.run dst_builder;
  let comparison := TargetStateComparison.mk src_state dst_state in
  operations ← TargetStateComparison.run comparison;
  let connection := LdapConnection.mk (Settings.ldap_hpc settings) server in
  connection ←
    for_in (OperationsContainer.ldap_group_ops operations)
      (λ group_op connection, LdapConnection.apply_group_op connection group_op dry_run)
      connection;
  connection ←
    for_in (OperationsContainer.ldap_user_ops operations)
      (λ user_op connection, LdapConnection.apply_user_op connection user_op dry_run)
      connection;
  issued ←
    for_in (OperationsContainer.fs_ops operations)
      (λ fs_op issued,
         commands ← FsResourceManager.apply_fs_op fs_op dry_run;
         mret (issued ++ commands))
      [];
  mret (LdapConnection.connection connection, issued).

(** ** The [storage-usage-sync] command ([main.py], [sync_storage_usage]) *)

(** [rbytes / 1024**p]: true division of integers. *)
Definition usage_quotient (rbytes : option Z) (p : Z) : outcome float :=
  match rbytes with
  | None => raise (TypeError "unsupported operand type(s) for /: 'NoneType' and 'int'")
  | Some n =>
      match Float.div_pow1024 n p with
      | S754_infinity _ => raise (OverflowError "integer division result too large for a float")
      | q => mret q
      end
  end.

(** [used[resource] = value] *)
Definition used_setitem {M : Type} (used : Used M) (resource : string) (value : float)
  : outcome (Used M) :=
  match used with
  | UsedDict d => mret (UsedDict (dict.set d resource value))
  | UsedModel _ => raise (TypeError "object does not support item assignment")
  | UsedNone => raise (TypeError "'NoneType' object does not support item assignment")
  end.

(** [d[uuid].resources_used[resource] = value] on one of the three
    dictionaries of the registry state. *)
Definition store_usage {R M : Type} (resources_used : R → Used M)
    (set_resources_used : Used M → R → R)
    (d : dict.t R) (uuid resource : string) (value : float) : outcome (dict.t R) :=
  record ← dict.getitem d uuid;
  used ← used_setitem (resources_used record) resource value;
  mret (dict.set d uuid (set_resources_used used record)).

(** A request of the REST client: [PATCH url] with [{"resources_used": ...}]. *)
Inductive request : Type :=
| PATCH (url : string) (resources_used : dict.t float).

(** [record.resources_used or Model().model_dump()], then serialised. *)
Definition used_payload {M : Type} (default_dump : dict.t float) (used : Used M)
  : outcome (dict.t float) :=
  match used with
  | UsedNone => mret default_dump
  | UsedDict [] => mret default_dump
  | UsedDict d => mret d
  | UsedModel _ => raise (TypeError "Object is not JSON serializable")
  end.

Definition deploy_hpcaccess_state (state : HpcaccessState.t) : outcome (list request) :=
  sent ← for_in (dict.values (HpcaccessState.hpc_users state))
    (λ u sent,
       payload ← used_payload (ResourceDataUser.model_dump ResourceDataUser.default)
                   (HpcUser.resources_used u);
       mret (sent ++ [PATCH ("adminsec/api/hpcuser/" +:+ HpcUser.uuid u +:+ "/") payload]))
    [];
  sent ← for_in (dict.values (HpcaccessState.hpc_groups state))
    (λ g sent,
       payload ← used_payload (ResourceData.model_dump ResourceData.default)
                   (HpcGroup.resources_used g);
       mret (sent ++ [PATCH ("adminsec/api/hpcgroup/" +:+ HpcGroup.uuid g +:+ "/") payload]))
    sent;
  for_in (dict.values (HpcaccessState.hpc_projects state))
    (λ p sent,
       payload ← used_payload (ResourceData.model_dump ResourceData.default)
                   (HpcProject.resources_used p);
       mret (sent ++ [PATCH ("adminsec/api/hpcproject/" +:+ HpcProject.uuid p +:+ "/") payload]))
    sent.

(** The first loop of [sync_storage_usage]: every record gets an empty
    [resources_used] dictionary and is entered under its name.  The index
    [hpcaccess] holds the records themselves; the second loop reads only
    their [uuid] (and their truth value, which is true), so the model
    stores the [uuid]. *)
Definition reset_usage (dst_state : HpcaccessState.t)
  : HpcaccessState.t * dict.t (dict.t UUID) :=
  let hpc_users :=
    prod_map id (HpcUser.set_resources_used (UsedDict dict.empty))
      <$> HpcaccessState.hpc_users dst_state in
  let hpc_groups :=
    prod_map id (HpcGroup.set_resources_used (UsedDict dict.empty))
      <$> HpcaccessState.hpc_groups dst_state in
  let hpc_projects :=
    prod_map id (HpcProject.set_resources_used (UsedDict dict.empty))
      <$> HpcaccessState.hpc_projects dst_state in
  let hpcaccess : dict.t (dict.t UUID) :=
    [ (ENTITY_USERS,
       dict.of_list HpcUser.username HpcUser.uuid (dict.values hpc_users));
      (ENTITY_GROUPS,
       dict.of_list HpcGroup.name HpcGroup.uuid (dict.values hpc_groups));
      (ENTITY_PROJECTS,
       dict.of_list HpcProject.name HpcProject.uuid (dict.values hpc_projects)) ] in
  (HpcaccessState.mk hpc_users hpc_groups hpc_projects, hpcaccess).

(** The second loop: one directory folded into the registry state. *)
Definition fold_directory (hpcaccess : dict.t (dict.t UUID)) (fs_data : FsDirectory.t)
    (dst_state : HpcaccessState.t) : outcome HpcaccessState.t :=
  match fs_validation fs_data with
  | inl (ValueError _) => mret dst_state
  | inl e => raise e
  | inr (entity, name, resource) =>
      match dict.get (default dict.empty (dict.get hpcaccess entity)) name with
      | None => mret dst_state
      | Some uuid =>
          let p := 4 - (if decide (entity = ENTITY_USERS) then 1 else 0) in
          value ← usage_quotient (FsDirectory.rbytes fs_data) p;
          if decide (entity = "users") then
            d ← store_usage HpcUser.resources_used HpcUser.set_resources_used
                  (HpcaccessState.hpc_users dst_state) uuid resource value;
            mret (HpcaccessState.mk d (HpcaccessState.hpc_groups dst_state)
                    (HpcaccessState.hpc_projects dst_state))
          else if decide (entity = "groups") then
            d ← store_usage HpcGroup.resources_used HpcGroup.set_resources_used
                  (HpcaccessState.hpc_groups dst_state) uuid resource value;
            mret (HpcaccessState.mk (HpcaccessState.hpc_users dst_state) d
                    (HpcaccessState.hpc_projects dst_state))
          else if decide (entity = "projects") then
            d ← store_usage HpcProject.resources_used HpcProject.set_resources_used
                  (HpcaccessState.hpc_projects dst_state) uuid resource value;
            mret (HpcaccessState.mk (HpcaccessState.hpc_users dst_state)
                    (HpcaccessState.hpc_groups dst_state) d)
          else raise (AttributeError ("hpc_" +:+ entity))
      end
  end.

(** The result is the registry state after the fold and the requests sent. *)
Definition sync_storage_usage (readers : SystemReaders.t) (rest_client : HpcaccessClient.t)
    (dry_run : bool) : outcome (HpcaccessState.t * list request) :=
  let src_state := gather_system_state readers in
  let dst_state := gather_hpcaccess_state rest_client in
  let '(dst_state, hpcaccess) := reset_usage dst_state in
  dst_state ←
    for_in (dict.values (SystemState.fs_directories src_state))
      (fold_directory hpcaccess) dst_state;
  sent ← (if negb dry_run then deploy_hpcaccess_state dst_state else mret []);
  mret (dst_state, sent).

(** ** What the comparison emits for one key

    The three loops of a comparison append to [result]; these functions
    name what one iteration appends, so that the lemmas below can state the
    outcome of a whole loop. *)

Definition group_disable_op (src : dict.t LdapGroup.t) (name : string)
  : list LdapGroupOp.t :=
  match dict.get src name with
  | Some group => [LdapGroupOp.mk DISABLE group dict.empty]
  | None => []
  end.

Definition group_create_op (dst : dict.t LdapGroup.t) (name : string)
  : list LdapGroupOp.t :=
  match dict.get dst name with
  | Some group => [LdapGroupOp.mk CREATE group dict.empty]
  | None => []
  end.

Definition group_update_op (src dst : dict.t LdapGroup.t) (name : string)
  : list LdapGroupOp.t :=
  match dict.get src name, dict.get dst name with
  | Some src_group, Some dst_group =>
      let src_group_dict := LdapGroup.model_dump src_group in
      let dst_group_dict := LdapGroup.model_dump dst_group in
      if negb (dict.eqb src_group_dict dst_group_dict) then
        [LdapGroupOp.mk UPDATE src_group
           (diff_loop
              (elements (dict.key_set src_group_dict ∪ dict.key_set dst_group_dict))
              src_group_dict dst_group_dict)]
      else []
  | _, _ => []
  end.

Definition fs_disable_op (src : dict.t FsDirectory.t) (path : string)
  : list FsDirectoryOp.t :=
  match dict.get src path with
  | Some directory => [FsDirectoryOp.mk DISABLE directory dict.empty]
  | None => []
  end.

Definition fs_create_op (dst : dict.t FsDirectory.t) (path : string)
  : list FsDirectoryOp.t :=
  match dict.get dst path with
  | Some directory => [FsDirectoryOp.mk CREATE directory dict.empty]
  | None => []
  end.

Definition fs_update_op (src dst : dict.t FsDirectory.t) (path : string)
  : list FsDirectoryOp.t :=
  match dict.get src path, dict.get dst path with
  | Some src_directory, Some dst_directory =>
      let src_directory_dict := FsDirectory.model_dump src_directory in
      let dst_directory_dict := FsDirectory.model_dump dst_directory in
      if negb (dict.eqb src_directory_dict dst_directory_dict) then
        [FsDirectoryOp.mk UPDATE src_directory
           (diff_loop fs_diff_keys src_directory_dict dst_directory_dict)]
      else []
  | _, _ => []
  end.

Definition user_disable_op (src : dict.t LdapUser.t) (username : string)
  : list LdapUserOp.t :=
  match dict.get src username with
  | Some user => [LdapUserOp.mk DISABLE user dict.empty]
  | None => []
  end.

Definition user_update_op (src dst : dict.t LdapUser.t) (username : string)
  : list LdapUserOp.t :=
  match dict.get src username, dict.get dst username with
  | Some src_user, Some dst_user =>
      let src_user_dict := LdapUser.model_dump src_user in
      let dst_user_dict := LdapUser.model_dump dst_user in
      if negb (dict.eqb src_user_dict dst_user_dict) then
        [LdapUserOp.mk UPDATE src_user
           (diff_loop
              (elements (dict.key_set src_user_dict ∪ dict.key_set dst_user_dict))
              src_user_dict dst_user_dict)]
      else []
  | _, _ => []
  end.

(** ** Desired groups, for the statements

    The entry of the desired state that [_build_ldap_groups] writes for a
    group and for a project of the registry state, up to the distinguished
    names of owner and delegates. *)



(** ** Desired directories, for the statements

    What the directories that [_build_fs_directories] writes have in common:
    each is held under its own path, carries no observed usage and no file
    quota, has a byte quota, and has one of two permission strings. *)

Definition desired_directory (path : string) (d : FsDirectory.t) : Prop :=
  FsDirectory.path d = path
  ∧ FsDirectory.rbytes d = None
  ∧ FsDirectory.rfiles d = None
  ∧ FsDirectory.quota_files d = None
  ∧ is_Some (FsDirectory.quota_bytes d)
  ∧ (FsDirectory.perms d = "drwx--S---" ∨ FsDirectory.perms d = "drwxrwS---").

(** ** Requests, for the statements *)

Definition request_url (r : request) : string :=
  match r with PATCH url _ => url end.

Definition request_payload (r : request) : dict.t float :=
  match r with PATCH _ resources_used => resources_used end.

(** ** Commands, for the statements *)

(** The command that sets or removes a quota attribute. *)
Definition quota_command (attribute : string) (quota : option Z) (path : string)
  : list string :=
  match quota with
  | None => ["setfattr"; "-x"; attribute; path]
  | Some q => ["setfattr"; "-n"; attribute; "-v"; pretty q; path]
  end.

(** ** Scenarios

    Concrete states and records on which the statements below are run. *)

Module Scenario.

Definition alice : LdapUser.t :=
  LdapUser.mk "Alice Example"
    "cn=Alice Example,ou=Charite,ou=Users,dc=hpc,dc=bihealth,dc=org"
    "alice" None None None 5001 (Some 1000)
    "/data/cephfs-1/home/users/alice" "/usr/bin/bash" None [].

(** A state with nothing in it, and one whose only entity is [alice]. *)
Definition empty_state : SystemState.t := SystemState.mk [] [] [].

Definition alice_state : SystemState.t := SystemState.mk [("alice", alice)] [] [].

(** The work directory of group [foo], with the group id and the observed
    size left open. *)
Definition work_foo (group_gid : Z) (rbytes : option Z) : FsDirectory.t :=
  FsDirectory.mk "/data/cephfs-1/work/groups/ag-foo" "ada" 5000 "hpc-ag-foo"
    group_gid "drwxrwS---" rbytes None (Some (2 * 1024 ^ 4)) None.

Definition state_of_directory (d : FsDirectory.t) : SystemState.t :=
  SystemState.mk [] [] [(FsDirectory.path d, d)].

End Scenario.

(** A directory server kept in memory, to run the executors on.  An entry
    answers the filter [(&(objectClass=C)(A=V))] when [C] is among its
    object classes and its attribute [A] prints as [V]. *)
Module MemoryServer.

Definition t : Type := list LdapEntry.t.

Definition object_classes (e : LdapEntry.t) : list string :=
  match dict.get (LdapEntry.entry_attributes e) "objectClass" with
  | Some (VList classes) => classes
  | _ => []
  end.

Definition filters_answered (e : LdapEntry.t) : list string :=
  c ← object_classes e;
  '(a, v) ← LdapEntry.entry_attributes e;
  ["(&(objectClass=" +:+ c +:+ ")(" +:+ a +:+ "=" +:+ format_value v +:+ "))"].

Definition add (server : t) (dn : string) (classes : list string)
    (attributes : dict.t Value) : t :=
  server ++ [LdapEntry.mk dn (dict.set attributes "objectClass" (VList classes))].

Definition paged_search (server : t) (search_base filter : string) : list LdapEntry.t :=
  List.filter (λ e, bool_decide (filter ∈ filters_answered e)) server.

Definition write (e : LdapEntry.t) (changes : dict.t Value) : LdapEntry.t :=
  LdapEntry.mk (LdapEntry.entry_dn e)
    (fold_left (λ attributes '(a, v), dict.set attributes a v) changes
               (LdapEntry.entry_attributes e)).

Definition commit_changes (server : t) (entry : LdapEntry.t) (changes : dict.t Value)
  : option t :=
  if bool_decide (LdapEntry.entry_dn entry ∈ LdapEntry.entry_dn <$> server) then
    Some ((λ e, if decide (LdapEntry.entry_dn e = LdapEntry.entry_dn entry)
                then write e changes else e) <$> server)
  else None.

Global Instance ldap_server : LdapServer t := {
  ldap_add := add;
  ldap_paged_search := paged_search;
  ldap_commit_changes := commit_changes
}.

End MemoryServer.

Module Scenario2.

(** A file system with one directory that no registry record accounts for,
    an empty directory service and an empty registry. *)
Definition stale : FsDirectory.t :=
  FsDirectory.mk "/data/cephfs-1/work/groups/ag-old" "bob" 5002 "hpc-ag-old" 1001
    "drwxrwS---" (Some 4096) (Some 1) None None.

Definition readers : SystemReaders.t := SystemReaders.mk [] [] [stale].

Definition registry : HpcaccessClient.t := HpcaccessClient.mk [] [] [].

Definition loaded : Settings.t :=
  Settings.with_defaults "dc=hpc,dc=bihealth,dc=org" registry.

Definition server : MemoryServer.t := [].

(** An UPDATE and a CREATE operation on a group. *)
Definition team : LdapGroup.t :=
  LdapGroup.mk "hpc-ag-team" "cn=hpc-ag-team,ou=Teams,ou=Groups,dc=hpc,dc=bihealth,dc=org"
    1002 None None [] [].

Definition team_entry : LdapEntry.t :=
  LdapEntry.mk "cn=hpc-ag-team,ou=Teams,ou=Groups,dc=hpc,dc=bihealth,dc=org"
    [ ("objectClass", VList ["posixGroup"; "gidNumber"]);
      ("cn", VStr "hpc-ag-team");
      ("gidNumber", VInt 1002) ].

Definition update_team : LdapGroupOp.t :=
  LdapGroupOp.mk UPDATE team [("description", VStr "the team")].

Definition create_team : LdapGroupOp.t := LdapGroupOp.mk CREATE team dict.empty.

Definition connection (server : MemoryServer.t) : LdapConnection.t MemoryServer.t :=
  LdapConnection.mk "dc=hpc,dc=bihealth,dc=org" server.

End Scenario2.

(** ** Identifier allocation, for the statements

    [current_gids] is the list that [_get_next_gid] takes the maximum of.
    [assign_gids n gids] runs the counter over a list of [gid] attributes:
    a true one stays, a false one is replaced by the counter, which then
    moves on.  [allocated_gids before after] picks, from the attributes after
    a run, those at the positions where the attribute was false before. *)

Definition current_gids (system_state : SystemState.t) : list Z :=
  (LdapGroup.gid_number <$> dict.values (SystemState.ldap_groups system_state))
  ++ omap (λ u, if gid_truthy (LdapUser.gid_number u)
                then LdapUser.gid_number u else None)
          (dict.values (SystemState.ldap_users system_state)).

Fixpoint assign_gids (n : Z) (gids : list (option Z)) : list (option Z) :=
  match gids with
  | [] => []
  | gid :: gids' =>
      if gid_truthy gid then gid :: assign_gids n gids'
      else Some n :: assign_gids (n + 1) gids'
  end.

Definition needs_gid (gids : list (option Z)) : list (option Z) :=
  filter (λ gid, gid_truthy gid = false) gids.

Definition allocated_gids (before after : list (option Z)) : list (option Z) :=
  snd <$> filter (λ p, gid_truthy (fst p) = false) (zip before after).

(** The [gid] attributes of the groups, then of the projects, of a state. *)
Definition registry_gids (state : HpcaccessState.t) : list (option Z) :=
  (HpcGroup.gid <$> dict.values (HpcaccessState.hpc_groups state))
  ++ (HpcProject.gid <$> dict.values (HpcaccessState.hpc_projects state)).

Module Scenario3.

Definition no_folders : GroupFolders.t := GroupFolders.mk "" "" "" "".

Definition ada : HpcUser.t :=
  HpcUser.mk "u-ada" None None None "Ada Example" None None None None UsedNone
    ACTIVE 5000 "ada" 0 "/data/cephfs-1/home/users/ada" "/usr/bin/bash" 1.

(** A group owned by [ada], by identifier, name, [gid] and the requested
    tier 1 work and scratch quotas in terabytes. *)
Definition group (uuid name : string) (gid : option Z) (work scratch : Z) : HpcGroup.t :=
  HpcGroup.mk uuid "u-ada" None None
    (Some (ResourceData.mk (Float.of_Z work) (Float.of_Z scratch)
             (S754_zero false) (S754_zero false)))
    UsedNone ACTIVE gid name no_folders 0 1.

(** A project of the group [g-foo]. *)
Definition project (uuid name : string) (gid : option Z) (work scratch : Z)
  : HpcProject.t :=
  HpcProject.mk uuid (Some "g-foo") None None
    (Some (ResourceData.mk (Float.of_Z work) (Float.of_Z scratch)
             (S754_zero false) (S754_zero false)))
    UsedNone ACTIVE gid name no_folders 0 1 [].

(** The current state of the allocation example: groups with the ids 1000,
    1005 and 1006 and nothing else. *)
Definition ldap_group (cn : string) (gid_number : Z) : LdapGroup.t :=
  LdapGroup.mk cn ("cn=" +:+ cn +:+ "," +:+ BASE_DN_GROUPS) gid_number None None [] [].

Definition current : SystemState.t :=
  SystemState.mk []
    [ ("hpc-ag-a", ldap_group "hpc-ag-a" 1000);
      ("hpc-ag-b", ldap_group "hpc-ag-b" 1005);
      ("hpc-ag-c", ldap_group "hpc-ag-c" 1006) ]
    [].

(** Two new groups next to one that has its id. *)
Definition registry : HpcaccessClient.t :=
  HpcaccessClient.mk [ada]
    [ group "g-new1" "new1" None 1 1;
      group "g-a" "a" (Some 1000) 1 1;
      group "g-new2" "new2" None 1 1 ]
    [].

(** The registry state, the builder and the desired groups after the
    allocation. *)
Definition state_after : HpcaccessState.t :=
  HpcaccessState.mk [("u-ada", ada)]
    [ ("g-new1", group "g-new1" "new1" (Some 1007) 1 1);
      ("g-a", group "g-a" "a" (Some 1000) 1 1);
      ("g-new2", group "g-new2" "new2" (Some 1008) 1 1) ]
    [].

Definition builder_after : TargetStateBuilder.t :=
  TargetStateBuilder.mk registry current 1009.

Definition desired_group (name : string) (gid_number : Z) : LdapGroup.t :=
  LdapGroup.mk ("hpc-ag-" +:+ name) ("cn=hpc-ag-" +:+ name +:+ "," +:+ BASE_DN_GROUPS)
    gid_number None
    (Some "cn=Ada Example,ou=Charite,ou=Users,dc=hpc,dc=bihealth,dc=org") [] [].

Definition groups_after : dict.t LdapGroup.t :=
  [ ("hpc-ag-new1", desired_group "new1" 1007);
    ("hpc-ag-a", desired_group "a" 1000);
    ("hpc-ag-new2", desired_group "new2" 1008) ].

(** A group whose [gid] is the number zero. *)
Definition registry_zero : HpcaccessClient.t :=
  HpcaccessClient.mk [ada] [group "g-zero" "zero" (Some 0) 1 1] [].

(** The group [foo], which requests 2 TB of work and 1 TB of scratch space,
    and its project [bar]. *)
Definition foo : HpcGroup.t := group "g-foo" "foo" (Some 2000) 2 1.

Definition bar : HpcProject.t := project "p-bar" "bar" (Some 3000) 3 1.

Definition registry_foo : HpcaccessClient.t := HpcaccessClient.mk [ada] [foo] [].

Definition registry_foo_bar : HpcaccessClient.t := HpcaccessClient.mk [ada] [foo] [bar].



(** The directories that the builder derives from [registry_foo]. *)
Definition directory_foo (volume : string) (quota_bytes : Z) : string * FsDirectory.t :=
  ("/data/cephfs-1/" +:+ volume +:+ "/groups/ag-foo",
   TargetStateBuilder.shared_directory
     ("/data/cephfs-1/" +:+ volume +:+ "/groups/ag-foo") "ada" 5000 "foo" 2000
     quota_bytes).

Definition directories_foo : dict.t FsDirectory.t :=
  [ ("/data/cephfs-1/home/users/ada",
     FsDirectory.mk "/data/cephfs-1/home/users/ada" "ada" 5000 "hpc-alumnis" 1030001
       "drwx--S---" None None (Some QUOTA_HOME_BYTES) None);
    directory_foo "home" QUOTA_HOME_BYTES;
    directory_foo "scratch" (1 * 1024 ^ 4);
    directory_foo "work" (2 * 1024 ^ 4) ].

End Scenario3.

(** ** Usage figures, for the statements *)

(** One usage field of a group or project record, whatever the attribute
    holds: a field of the model, or an entry of the dictionary. *)
Definition used_get (used : Used ResourceData.t) (field : string) : option float :=
  match used with
  | UsedNone => None
  | UsedModel m => dict.get (ResourceData.model_dump m) field
  | UsedDict d => dict.get d field
  end.

(** The index of the groups by name, as the first loop of
    [sync_storage_usage] builds it from the groups of the registry state. *)
Definition groups_by_name (groups : dict.t HpcGroup.t) : dict.t UUID :=
  dict.of_list HpcGroup.name HpcGroup.uuid
    (dict.values (prod_map id (HpcGroup.set_resources_used (UsedDict dict.empty))
                    <$> groups)).

(** What the second loop maintains for a group [g] held under the key [u]:
    the record under [u] is [g] with a usage dictionary in place of its
    [resources_used]; every entry of the dictionary comes from a directory
    of [dirs] that resolves to [g]; and, once [b] is set, the scratch entry
    is [w]. *)
Definition folded (dirs : list FsDirectory.t) (u : string) (g : HpcGroup.t) (w : float)
    (b : bool) (st : HpcaccessState.t) : Prop :=
  ∃ usage,
    dict.get (HpcaccessState.hpc_groups st) u
    = Some (HpcGroup.set_resources_used (UsedDict usage) g)
    ∧ (∀ field v, dict.get usage field = Some v →
         ∃ d, d ∈ dirs
              ∧ fs_validation d = inr ("groups", HpcGroup.name g, field)
              ∧ usage_quotient (FsDirectory.rbytes d) 4 = inr v)
    ∧ (b = true → dict.get usage "tier1_scratch" = Some w).

Module Scenario4.

(** The group [ag-foo] of the registry, with one terabyte of work space
    recorded as used, and its scratch directory, which holds 5 * 1024^4
    bytes. *)
Definition ag_foo : HpcGroup.t :=
  HpcGroup.mk "g-agfoo" "u-ada" None None None
    (UsedModel (ResourceData.mk (Float.of_Z 1) (S754_zero false)
                  (S754_zero false) (S754_zero false)))
    ACTIVE (Some 2000) "ag-foo" Scenario3.no_folders 0 1.

Definition registry : HpcaccessClient.t :=
  HpcaccessClient.mk [Scenario3.ada] [ag_foo] [].

Definition scratch_ag_foo : FsDirectory.t :=
  FsDirectory.mk "/data/cephfs-1/scratch/groups/ag-foo" "ada" 5000 "hpc-ag-ag-foo" 2000
    "drwxrwS---" (Some (5 * 1024 ^ 4)) (Some 12) None None.

Definition readers : SystemReaders.t := SystemReaders.mk [] [] [scratch_ag_foo].

(** The same directory, belonging to the group [hpc-ag-foo]. *)
Definition scratch_hpc_ag_foo : FsDirectory.t :=
  FsDirectory.mk "/data/cephfs-1/scratch/groups/ag-foo" "ada" 5000 "hpc-ag-foo" 2000
    "drwxrwS---" (Some (5 * 1024 ^ 4)) (Some 12) None None.

Definition readers_hpc_ag_foo : SystemReaders.t :=
  SystemReaders.mk [] [] [scratch_hpc_ag_foo].

(** The registry state after the usage synchronisation. *)
Definition state_after : HpcaccessState.t :=
  HpcaccessState.mk
    [("u-ada", HpcUser.set_resources_used (UsedDict dict.empty) Scenario3.ada)]
    [("g-agfoo",
      HpcGroup.set_resources_used (UsedDict [("tier1_scratch", Float.of_Z 5)]) ag_foo)]
    [].

End Scenario4.

(** * Properties *)

(** ** The error monad and loops *)

Lemma bind_inr {A B : Type} (x : A) (f : A → outcome B) : (inr x ≫= f) = f x.
Proof. reflexivity. Qed.

Lemma bind_inl {A B : Type} (e : exn) (f : A → outcome B) : (inl e ≫= f) = inl e.
Proof. reflexivity. Qed.

Lemma bind_inr_inv {A B : Type} (m : outcome A) (f : A → outcome B) (y : B) :
  m ≫= f = inr y → ∃ x, m = inr x ∧ f x = inr y.
Proof. destruct m as [e|x]; [discriminate|]. intros Hf. by exists x. Qed.

(** A loop whose body leaves the state alone leaves it alone. *)
Lemma for_in_skip {A S : Type} (xs : list A) (body : A → S → outcome S) (s : S) :
  (∀ x s', x ∈ xs → body x s' = inr s') → for_in xs body s = inr s.
Proof.
  induction xs as [|x xs IH]; intros Hbody; [done|].
  simpl. rewrite Hbody by left. simpl. apply IH.
  intros y s' Hy. apply Hbody. by right.
Qed.

(** A loop whose body appends [g x] to a list appends them all in order. *)
Lemma for_in_append {A B : Type} (xs : list A) (body : A → list B → outcome (list B))
    (g : A → list B) (acc : list B) :
  (∀ x acc', x ∈ xs → body x acc' = inr (acc' ++ g x)) →
  for_in xs body acc = inr (acc ++ xs ≫= g).
Proof.
  revert acc. induction xs as [|x xs IH]; intros acc Hbody; simpl.
  - by rewrite app_nil_r.
  - rewrite Hbody by left. simpl. rewrite IH.
    + by rewrite <- app_assoc.
    + intros y acc' Hy. apply Hbody. by right.
Qed.

(** A loop that returns ran its body on every element, each time returning. *)
Lemma for_in_app {A S : Type} (xs ys : list A) (body : A → S → outcome S) (s : S) :
  for_in (xs ++ ys) body s = for_in xs body s ≫= for_in ys body.
Proof.
  revert s. induction xs as [|x xs IH]; intros s; simpl; [done|].
  destruct (body x s) as [e|s']; simpl; [done|]. apply IH.
Qed.

(** [simpl] exposes the list instance of [fmap]; this folds it back. *)
Ltac refold_fmap :=
  repeat match goal with
         | |- context [list_fmap ?A ?B ?f ?l] =>
             change (list_fmap A B f l) with (f <$> l)
         end.

(** Take a returning computation apart into its returning steps. *)
Ltac outcome_inv H :=
  repeat (let x := fresh "x" in
          let Hx := fresh "Hx" in
          apply bind_inr_inv in H as [x [Hx H]]);
  cbv [mret result_ret] in H.

(** ** Dictionaries *)

Lemma dict_get_Some_iff {V : Type} (d : dict.t V) (k : string) :
  is_Some (dict.get d k) ↔ k ∈ dict.keys d.
Proof.
  unfold dict.keys. induction d as [|[k' v] d IH]; simpl.
  - split; [by intros [? ?]|by intros ?%elem_of_nil].
  - rewrite elem_of_cons. destruct (decide (k' = k)) as [->|Hne].
    + split; eauto.
    + rewrite IH. split; [tauto|]. intros [?|?]; [congruence|done].
Qed.

Lemma dict_key_set_get {V : Type} (d : dict.t V) (k : string) :
  k ∈ dict.key_set d ↔ is_Some (dict.get d k).
Proof. unfold dict.key_set. by rewrite elem_of_list_to_set, dict_get_Some_iff. Qed.

Lemma dict_getitem_key_set {V : Type} (d : dict.t V) (k : string) :
  k ∈ dict.key_set d → ∃ v, dict.get d k = Some v ∧ dict.getitem d k = inr v.
Proof.
  intros [v Hv]%dict_key_set_get. exists v. split; [done|].
  unfold dict.getitem. by rewrite Hv.
Qed.

Lemma dict_getitem_Some {V : Type} (d : dict.t V) (k : string) (v : V) :
  dict.get d k = Some v → dict.getitem d k = inr v.
Proof. intros Hv. unfold dict.getitem. by rewrite Hv. Qed.

Lemma dict_getitem_inr {V : Type} (d : dict.t V) (k : string) (v : V) :
  dict.getitem d k = inr v → dict.get d k = Some v.
Proof. unfold dict.getitem. destruct (dict.get d k); [congruence|discriminate]. Qed.

Lemma dict_eqb_refl {V : Type} `{EqDecision V} (d : dict.t V) : dict.eqb d d = true.
Proof.
  unfold dict.eqb. apply forallb_forall. intros k _. by apply bool_decide_eq_true.
Qed.

Lemma dict_get_set_eq {V : Type} (d : dict.t V) (k : string) (v : V) :
  dict.get (dict.set d k v) k = Some v.
Proof.
  induction d as [|[k' v'] d IH]; simpl.
  - by rewrite decide_True.
  - destruct (decide (k' = k)) as [->|Hne]; simpl.
    + by rewrite decide_True.
    + by rewrite decide_False.
Qed.

Lemma dict_get_set_ne {V : Type} (d : dict.t V) (k k' : string) (v : V) :
  k ≠ k' → dict.get (dict.set d k v) k' = dict.get d k'.
Proof.
  intros Hne. induction d as [|[k0 v0] d IH]; simpl.
  - by rewrite decide_False.
  - destruct (decide (k0 = k)) as [->|Hne0]; simpl.
    + by rewrite !decide_False.
    + destruct (decide (k0 = k')); [done|apply IH].
Qed.

(** ** State comparison *)

Lemma key_set_difference_self (X : gset string) : X ∖ X = ∅.
Proof. apply (difference_diag_L X). Qed.

(** The comparison of a state with itself raises nothing and finds nothing
    to do, in each of the three classes. *)
Lemma compare_ldap_users_same (S : SystemState.t) :
  TargetStateComparison._compare_ldap_users (TargetStateComparison.mk S S) = inr [].
Proof.
  unfold TargetStateComparison._compare_ldap_users. simpl.
  rewrite key_set_difference_self, elements_empty. simpl.
  rewrite for_in_skip; [done|].
  intros k acc [v [_ Hv]]%elem_of_elements%elem_of_intersection%proj1%dict_getitem_key_set.
  rewrite Hv. simpl. by rewrite dict_eqb_refl.
Qed.

Lemma compare_ldap_groups_same (S : SystemState.t) :
  TargetStateComparison._compare_ldap_groups (TargetStateComparison.mk S S) = inr [].
Proof.
  unfold TargetStateComparison._compare_ldap_groups. simpl.
  rewrite key_set_difference_self, elements_empty. simpl.
  rewrite for_in_skip; [done|].
  intros k acc [v [_ Hv]]%elem_of_elements%elem_of_intersection%proj1%dict_getitem_key_set.
  rewrite Hv. simpl. by rewrite dict_eqb_refl.
Qed.

Lemma compare_fs_directories_same (S : SystemState.t) :
  TargetStateComparison._compare_fs_directories (TargetStateComparison.mk S S) = inr [].
Proof.
  unfold TargetStateComparison._compare_fs_directories. simpl.
  rewrite key_set_difference_self, elements_empty. simpl.
  rewrite for_in_skip; [done|].
  intros k acc [v [_ Hv]]%elem_of_elements%elem_of_intersection%proj1%dict_getitem_key_set.
  rewrite Hv. simpl. by rewrite dict_eqb_refl.
Qed.

(** C2. For every system state [S], the comparison of [S] with [S] returns an
    operations container whose account, group and directory lists are all
    empty. *)
Theorem C2_compare_same_state_is_empty (S : SystemState.t) :
  TargetStateComparison.run (TargetStateComparison.mk S S)
  = inr (OperationsContainer.mk [] [] []).
Proof.
  unfold TargetStateComparison.run.
  by rewrite compare_ldap_users_same, compare_ldap_groups_same,
             compare_fs_directories_same.
Qed.

(** The directory comparison never raises; its result is the DISABLE
    operations of the paths only in the source, then the CREATE operations
    of the paths only in the target, then the UPDATE operations of the
    common paths. *)
Lemma compare_fs_directories_eq (src dst : SystemState.t) :
  TargetStateComparison._compare_fs_directories (TargetStateComparison.mk src dst)
  = inr ((elements (dict.key_set (SystemState.fs_directories src)
                    ∖ dict.key_set (SystemState.fs_directories dst))
            ≫= fs_disable_op (SystemState.fs_directories src))
         ++ (elements (dict.key_set (SystemState.fs_directories dst)
                       ∖ dict.key_set (SystemState.fs_directories src))
               ≫= fs_create_op (SystemState.fs_directories dst))
         ++ (elements (dict.key_set (SystemState.fs_directories src)
                       ∩ dict.key_set (SystemState.fs_directories dst))
               ≫= fs_update_op (SystemState.fs_directories src)
                               (SystemState.fs_directories dst))).
Proof.
  unfold TargetStateComparison._compare_fs_directories. simpl.
  rewrite (for_in_append _ _ (fs_disable_op (SystemState.fs_directories src))).
  2:{ intros k acc [[v [Hg Hv]]%dict_getitem_key_set _]%elem_of_elements%elem_of_difference.
      rewrite Hv. unfold fs_disable_op. by rewrite Hg. }
  simpl.
  rewrite (for_in_append _ _ (fs_create_op (SystemState.fs_directories dst))).
  2:{ intros k acc [[v [Hg Hv]]%dict_getitem_key_set _]%elem_of_elements%elem_of_difference.
      rewrite Hv. unfold fs_create_op. by rewrite Hg. }
  simpl.
  rewrite (for_in_append _ _ (fs_update_op (SystemState.fs_directories src)
                                           (SystemState.fs_directories dst))).
  2:{ intros k acc [[v [Hg Hv]]%dict_getitem_key_set
                    [w [Hg' Hw]]%dict_getitem_key_set]%elem_of_elements%elem_of_intersection.
      rewrite Hv. simpl. rewrite Hw. simpl. unfold fs_update_op. rewrite Hg, Hg'. simpl.
      destruct (dict.eqb _ _); simpl; [by rewrite app_nil_r|done]. }
  simpl. by rewrite <- app_assoc.
Qed.

Lemma compare_ldap_groups_eq (src dst : SystemState.t) :
  TargetStateComparison._compare_ldap_groups (TargetStateComparison.mk src dst)
  = inr ((elements (dict.key_set (SystemState.ldap_groups src)
                    ∖ dict.key_set (SystemState.ldap_groups dst))
            ≫= group_disable_op (SystemState.ldap_groups src))
         ++ (elements (dict.key_set (SystemState.ldap_groups dst)
                       ∖ dict.key_set (SystemState.ldap_groups src))
               ≫= group_create_op (SystemState.ldap_groups dst))
         ++ (elements (dict.key_set (SystemState.ldap_groups src)
                       ∩ dict.key_set (SystemState.ldap_groups dst))
               ≫= group_update_op (SystemState.ldap_groups src)
                                  (SystemState.ldap_groups dst))).
Proof.
  unfold TargetStateComparison._compare_ldap_groups. simpl.
  rewrite (for_in_append _ _ (group_disable_op (SystemState.ldap_groups src))).
  2:{ intros k acc [[v [Hg Hv]]%dict_getitem_key_set _]%elem_of_elements%elem_of_difference.
      rewrite Hv. unfold group_disable_op. by rewrite Hg. }
  simpl.
  rewrite (for_in_append _ _ (group_create_op (SystemState.ldap_groups dst))).
  2:{ intros k acc [[v [Hg Hv]]%dict_getitem_key_set _]%elem_of_elements%elem_of_difference.
      rewrite Hv. unfold group_create_op. by rewrite Hg. }
  simpl.
  rewrite (for_in_append _ _ (group_update_op (SystemState.ldap_groups src)
                                              (SystemState.ldap_groups dst))).
  2:{ intros k acc [[v [Hg Hv]]%dict_getitem_key_set
                    [w [Hg' Hw]]%dict_getitem_key_set]%elem_of_elements%elem_of_intersection.
      rewrite Hv. simpl. rewrite Hw. simpl. unfold group_update_op. rewrite Hg, Hg'. simpl.
      destruct (dict.eqb _ _); simpl; [by rewrite app_nil_r|done]. }
  simpl. by rewrite <- app_assoc.
Qed.

(** *** Directory dumps and diffs *)

Lemma fs_dump_eqb_true (s d : FsDirectory.t) :
  dict.eqb (FsDirectory.model_dump s) (FsDirectory.model_dump d) = true ↔ s = d.
Proof.
  split; [|intros ->; apply dict_eqb_refl].
  unfold dict.eqb. rewrite forallb_forall. intros Hall.
  assert (∀ k, k ∈ dict.keys (FsDirectory.model_dump s) →
               dict.get (FsDirectory.model_dump s) k
               = dict.get (FsDirectory.model_dump d) k) as Hget.
  { intros k Hk. specialize (Hall k). rewrite bool_decide_eq_true in Hall.
    apply Hall, in_app_iff. left. by apply list_elem_of_In. }
  destruct s as [p1 on1 ou1 gn1 gg1 pe1 rb1 rf1 qb1 qf1],
           d as [p2 on2 ou2 gn2 gg2 pe2 rb2 rf2 qb2 qf2].
  pose proof (Hget "path" ltac:(set_solver)) as H1.
  change (Some (VStr p1) = Some (VStr p2)) in H1.
  pose proof (Hget "owner_name" ltac:(set_solver)) as H2.
  change (Some (VStr on1) = Some (VStr on2)) in H2.
  pose proof (Hget "owner_uid" ltac:(set_solver)) as H3.
  change (Some (VInt ou1) = Some (VInt ou2)) in H3.
  pose proof (Hget "group_name" ltac:(set_solver)) as H4.
  change (Some (VStr gn1) = Some (VStr gn2)) in H4.
  pose proof (Hget "group_gid" ltac:(set_solver)) as H5.
  change (Some (VInt gg1) = Some (VInt gg2)) in H5.
  pose proof (Hget "perms" ltac:(set_solver)) as H6.
  change (Some (VStr pe1) = Some (VStr pe2)) in H6.
  pose proof (Hget "rbytes" ltac:(set_solver)) as H7.
  change (Some (VOptInt rb1) = Some (VOptInt rb2)) in H7.
  pose proof (Hget "rfiles" ltac:(set_solver)) as H8.
  change (Some (VOptInt rf1) = Some (VOptInt rf2)) in H8.
  pose proof (Hget "quota_bytes" ltac:(set_solver)) as H9.
  change (Some (VOptInt qb1) = Some (VOptInt qb2)) in H9.
  pose proof (Hget "quota_files" ltac:(set_solver)) as H10.
  change (Some (VOptInt qf1) = Some (VOptInt qf2)) in H10.
  clear Hall Hget.
  assert (∀ a b : option Z, VOptInt a = VOptInt b → a = b) as Hopt.
  { intros [a|] [b|]; cbn; congruence. }
  simplify_eq. f_equal; by apply Hopt.
Qed.

(** The diff of two directories, in closed form: of the five keys that the
    loop looks at, ["owner_gid"] names no field and reads as [None] on both
    sides, so four fields can enter the diff. *)
Lemma fs_diff_closed_form (s d : FsDirectory.t) :
  diff_loop fs_diff_keys (FsDirectory.model_dump s) (FsDirectory.model_dump d)
  = (if decide (FsDirectory.owner_uid s = FsDirectory.owner_uid d) then []
     else [("owner_uid", VInt (FsDirectory.owner_uid d))])
    ++ (if decide (FsDirectory.perms s = FsDirectory.perms d) then []
        else [("perms", VStr (FsDirectory.perms d))])
    ++ (if decide (FsDirectory.quota_bytes s = FsDirectory.quota_bytes d) then []
        else [("quota_bytes", VOptInt (FsDirectory.quota_bytes d))])
    ++ (if decide (FsDirectory.quota_files s = FsDirectory.quota_files d) then []
        else [("quota_files", VOptInt (FsDirectory.quota_files d))]).
Proof.
  assert (∀ a b : option Z, VOptInt a = VOptInt b → a = b) as Hopt.
  { intros [a|] [b|]; cbn; congruence. }
  unfold diff_loop, fs_diff_keys. cbn [fold_left].
  change (dump_get (FsDirectory.model_dump s) "owner_uid") with (VInt (FsDirectory.owner_uid s)).
  change (dump_get (FsDirectory.model_dump d) "owner_uid") with (VInt (FsDirectory.owner_uid d)).
  change (dump_get (FsDirectory.model_dump s) "owner_gid") with VNone.
  change (dump_get (FsDirectory.model_dump d) "owner_gid") with VNone.
  change (dump_get (FsDirectory.model_dump s) "perms") with (VStr (FsDirectory.perms s)).
  change (dump_get (FsDirectory.model_dump d) "perms") with (VStr (FsDirectory.perms d)).
  change (dump_get (FsDirectory.model_dump s) "quota_bytes") with (VOptInt (FsDirectory.quota_bytes s)).
  change (dump_get (FsDirectory.model_dump d) "quota_bytes") with (VOptInt (FsDirectory.quota_bytes d)).
  change (dump_get (FsDirectory.model_dump s) "quota_files") with (VOptInt (FsDirectory.quota_files s)).
  change (dump_get (FsDirectory.model_dump d) "quota_files") with (VOptInt (FsDirectory.quota_files d)).
  rewrite (decide_False (P := VNone ≠ VNone)) by auto.
  destruct (decide (FsDirectory.owner_uid s = FsDirectory.owner_uid d)) as [->|?];
    [rewrite (decide_False (P := VInt _ ≠ VInt _)) by auto
    |rewrite (decide_True (P := VInt _ ≠ VInt _)) by congruence];
  (destruct (decide (FsDirectory.perms s = FsDirectory.perms d)) as [->|?];
    [rewrite (decide_False (P := VStr _ ≠ VStr _)) by auto
    |rewrite (decide_True (P := VStr _ ≠ VStr _)) by congruence]);
  (destruct (decide (FsDirectory.quota_bytes s = FsDirectory.quota_bytes d)) as [->|?];
    [rewrite (decide_False (P := VOptInt (FsDirectory.quota_bytes _) ≠ _)) by auto
    |rewrite (decide_True (P := VOptInt (FsDirectory.quota_bytes _) ≠ _)) by (intros ?%Hopt; done)]);
  (destruct (decide (FsDirectory.quota_files s = FsDirectory.quota_files d)) as [->|?];
    [rewrite (decide_False (P := VOptInt (FsDirectory.quota_files _) ≠ _)) by auto
    |rewrite (decide_True (P := VOptInt (FsDirectory.quota_files _) ≠ _)) by (intros ?%Hopt; done)]);
  reflexivity.
Qed.

(** No directory diff ever has an entry for the group: neither under the
    field's name nor under the key the loop asks for. *)
Lemma fs_diff_never_has_group (s d : FsDirectory.t) (key : string) :
  key ∈ ["group_gid"; "group_name"; "owner_gid"] →
  dict.get (diff_loop fs_diff_keys (FsDirectory.model_dump s) (FsDirectory.model_dump d)) key
  = None.
Proof.
  intros Hkey. rewrite fs_diff_closed_form.
  repeat case_decide; set_unfold in Hkey;
    destruct Hkey as [->|[->|[->|[]]]]; reflexivity.
Qed.

(** *** Keys present on one side only *)

(** Whenever some user name is present only in the target state, the user
    comparison raises [KeyError]: its second loop looks the name up in the
    source state. *)
Lemma compare_ldap_users_raises (src dst : SystemState.t) :
  dict.key_set (SystemState.ldap_users dst) ⊈ dict.key_set (SystemState.ldap_users src) →
  ∃ username,
    username ∈ dict.key_set (SystemState.ldap_users dst) ∧
    (username ∉ dict.key_set (SystemState.ldap_users src)) ∧
    (TargetStateComparison._compare_ldap_users (TargetStateComparison.mk src dst)
     = inl (KeyError username)).
Proof.
  intros Hsub.
  destruct (elements (dict.key_set (SystemState.ldap_users dst)
                      ∖ dict.key_set (SystemState.ldap_users src)))
    as [|username rest] eqn:Hmissing.
  { exfalso. apply Hsub. intros k Hk.
    destruct (decide (k ∈ dict.key_set (SystemState.ldap_users src))) as [|Hn]; [done|].
    assert (k ∈ elements (dict.key_set (SystemState.ldap_users dst)
                          ∖ dict.key_set (SystemState.ldap_users src))) as Hin
      by (apply elem_of_elements, elem_of_difference; done).
    rewrite Hmissing in Hin. by apply elem_of_nil in Hin. }
  assert (username ∈ dict.key_set (SystemState.ldap_users dst)
                     ∖ dict.key_set (SystemState.ldap_users src)) as Hin.
  { apply elem_of_elements. rewrite Hmissing. left. }
  apply elem_of_difference in Hin as [Hdst Hsrc].
  exists username. split_and!; [done..|].
  unfold TargetStateComparison._compare_ldap_users. simpl.
  rewrite (for_in_append _ _
             (λ k, match dict.get (SystemState.ldap_users src) k with
                   | Some user => [LdapUserOp.mk DISABLE user dict.empty]
                   | None => []
                   end)).
  2:{ intros k acc [[v [Hg Hv]]%dict_getitem_key_set _]%elem_of_elements%elem_of_difference.
      rewrite Hv. cbv beta. by rewrite Hg. }
  simpl. rewrite Hmissing. simpl.
  assert (dict.getitem (SystemState.ldap_users src) username
          = inl (KeyError username)) as ->; [|reflexivity].
  unfold dict.getitem.
  destruct (dict.get (SystemState.ldap_users src) username) as [v|] eqn:Hget; [|reflexivity].
  exfalso. apply Hsrc, dict_key_set_get. by exists v.
Qed.

(** The group and the directory comparison handle the three kinds of keys
    as the user comparison is meant to: a key only in the source yields the
    one DISABLE operation on the source entity, a key only in the target the
    one CREATE operation carrying the target entity, a common key at most
    one operation; the enumerations of the three key sets repeat no key. *)
Lemma group_ops_per_key (src dst : dict.t LdapGroup.t) (name : string) :
  (name ∈ dict.key_set src ∖ dict.key_set dst →
   ∃ group, dict.get src name = Some group ∧
            group_disable_op src name = [LdapGroupOp.mk DISABLE group dict.empty]) ∧
  (name ∈ dict.key_set dst ∖ dict.key_set src →
   ∃ group, dict.get dst name = Some group ∧
            group_create_op dst name = [LdapGroupOp.mk CREATE group dict.empty]) ∧
  (length (group_update_op src dst name) ≤ 1)%nat.
Proof.
  split_and!.
  - intros [[v [Hg _]]%dict_getitem_key_set _]%elem_of_difference.
    exists v. unfold group_disable_op. by rewrite Hg.
  - intros [[v [Hg _]]%dict_getitem_key_set _]%elem_of_difference.
    exists v. unfold group_create_op. by rewrite Hg.
  - unfold group_update_op.
    destruct (dict.get src name), (dict.get dst name); simpl; try lia.
    destruct (dict.eqb _ _); simpl; lia.
Qed.

Lemma fs_ops_per_key (src dst : dict.t FsDirectory.t) (path : string) :
  (path ∈ dict.key_set src ∖ dict.key_set dst →
   ∃ directory, dict.get src path = Some directory ∧
                fs_disable_op src path = [FsDirectoryOp.mk DISABLE directory dict.empty]) ∧
  (path ∈ dict.key_set dst ∖ dict.key_set src →
   ∃ directory, dict.get dst path = Some directory ∧
                fs_create_op dst path = [FsDirectoryOp.mk CREATE directory dict.empty]) ∧
  (length (fs_update_op src dst path) ≤ 1)%nat.
Proof.
  split_and!.
  - intros [[v [Hg _]]%dict_getitem_key_set _]%elem_of_difference.
    exists v. unfold fs_disable_op. by rewrite Hg.
  - intros [[v [Hg _]]%dict_getitem_key_set _]%elem_of_difference.
    exists v. unfold fs_create_op. by rewrite Hg.
  - unfold fs_update_op.
    destruct (dict.get src path), (dict.get dst path); simpl; try lia.
    destruct (dict.eqb _ _); simpl; lia.
Qed.

Lemma key_sets_enumerated_once (X Y : gset string) :
  NoDup (elements (X ∖ Y) ++ elements (Y ∖ X) ++ elements (X ∩ Y)).
Proof.
  rewrite !NoDup_app. split_and!; try apply NoDup_elements.
  - intros k [Hx Hy]%elem_of_elements%elem_of_difference.
    rewrite elem_of_app, !elem_of_elements, elem_of_difference, elem_of_intersection.
    tauto.
  - intros k [Hy Hx]%elem_of_elements%elem_of_difference.
    rewrite elem_of_elements, elem_of_intersection. tauto.
Qed.

(** C1. The claim asks that a key present only in the desired state yields
    one CREATE operation carrying the desired entity, in each class, and that
    the comparison never fails on such a key.  On the state without accounts
    against the state whose only account is [alice], the account comparison
    raises [KeyError] instead, and so does the whole comparison. *)
Theorem C1_account_only_in_desired_state_raises :
  TargetStateComparison._compare_ldap_users
    (TargetStateComparison.mk Scenario.empty_state Scenario.alice_state)
  = inl (KeyError "alice")
  ∧ TargetStateComparison.run
      (TargetStateComparison.mk Scenario.empty_state Scenario.alice_state)
    = inl (KeyError "alice").
Proof. split; vm_compute; reflexivity. Qed.

(** C3. The claim asks that a change of the desired group gid alone puts the
    group field into the UPDATE diff.  With the work directory of [foo] at
    gid 1000 in the current and 2000 in the desired state, the comparison
    emits the UPDATE operation with an empty diff. *)
Theorem C3_group_gid_change_yields_empty_diff :
  TargetStateComparison._compare_fs_directories
    (TargetStateComparison.mk
       (Scenario.state_of_directory (Scenario.work_foo 1000 None))
       (Scenario.state_of_directory (Scenario.work_foo 2000 None)))
  = inr [FsDirectoryOp.mk UPDATE (Scenario.work_foo 1000 None) dict.empty].
Proof. vm_compute. reflexivity. Qed.

(** C10. For every pair of states and every path common to both whose
    current and desired directories differ, but in none of owner uid, group
    gid, permissions, byte quota and file quota, the directory comparison
    returns and emits an UPDATE operation on the current directory with an
    empty diff; applying that operation issues no command, dry run or not. *)
Theorem C10_update_with_empty_diff (src dst : SystemState.t) (path : string)
    (src_directory dst_directory : FsDirectory.t) (dry_run : bool) :
  dict.get (SystemState.fs_directories src) path = Some src_directory →
  dict.get (SystemState.fs_directories dst) path = Some dst_directory →
  src_directory ≠ dst_directory →
  FsDirectory.owner_uid src_directory = FsDirectory.owner_uid dst_directory →
  FsDirectory.group_gid src_directory = FsDirectory.group_gid dst_directory →
  FsDirectory.perms src_directory = FsDirectory.perms dst_directory →
  FsDirectory.quota_bytes src_directory = FsDirectory.quota_bytes dst_directory →
  FsDirectory.quota_files src_directory = FsDirectory.quota_files dst_directory →
  ∃ ops,
    TargetStateComparison._compare_fs_directories (TargetStateComparison.mk src dst)
    = inr ops
    ∧ FsDirectoryOp.mk UPDATE src_directory dict.empty ∈ ops
    ∧ fs_update_op (SystemState.fs_directories src) (SystemState.fs_directories dst) path
      = [FsDirectoryOp.mk UPDATE src_directory dict.empty]
    ∧ FsResourceManager.apply_fs_op
        (FsDirectoryOp.mk UPDATE src_directory dict.empty) dry_run
      = inr [].
Proof.
  intros Hsrc Hdst Hne Huid Hgid Hperms Hqb Hqf.
  assert (fs_update_op (SystemState.fs_directories src)
            (SystemState.fs_directories dst) path
          = [FsDirectoryOp.mk UPDATE src_directory dict.empty]) as Hop.
  { unfold fs_update_op. rewrite Hsrc, Hdst. simpl.
    destruct (dict.eqb _ _) eqn:Heq.
    - by apply fs_dump_eqb_true in Heq.
    - simpl. rewrite fs_diff_closed_form.
      by rewrite !decide_True by done. }
  eexists. split; [apply compare_fs_directories_eq|]. split_and!; [|done|done].
  rewrite !elem_of_app. right. right.
  apply list_elem_of_bind. exists path. split.
  - rewrite Hop. left.
  - apply elem_of_elements, elem_of_intersection.
    split; apply dict_key_set_get; eauto.
Qed.

Lemma C10_update_with_empty_diff_witness :
  ∃ ops,
    TargetStateComparison._compare_fs_directories
      (TargetStateComparison.mk
         (Scenario.state_of_directory (Scenario.work_foo 1000 (Some 4096)))
         (Scenario.state_of_directory (Scenario.work_foo 1000 None)))
    = inr ops
    ∧ FsDirectoryOp.mk UPDATE (Scenario.work_foo 1000 (Some 4096)) dict.empty ∈ ops
    ∧ fs_update_op
        (SystemState.fs_directories
           (Scenario.state_of_directory (Scenario.work_foo 1000 (Some 4096))))
        (SystemState.fs_directories
           (Scenario.state_of_directory (Scenario.work_foo 1000 None)))
        "/data/cephfs-1/work/groups/ag-foo"
      = [FsDirectoryOp.mk UPDATE (Scenario.work_foo 1000 (Some 4096)) dict.empty]
    ∧ FsResourceManager.apply_fs_op
        (FsDirectoryOp.mk UPDATE (Scenario.work_foo 1000 (Some 4096)) dict.empty) false
      = inr [].
Proof.
  apply (C10_update_with_empty_diff
           (Scenario.state_of_directory (Scenario.work_foo 1000 (Some 4096)))
           (Scenario.state_of_directory (Scenario.work_foo 1000 None))
           "/data/cephfs-1/work/groups/ag-foo"
           (Scenario.work_foo 1000 (Some 4096)) (Scenario.work_foo 1000 None) false);
    try reflexivity.
  discriminate.
Defined.

(** ** Executors *)

(** An operation record never equals a member of the enumeration, so
    [apply_group_op] takes none of its three branches: whatever the
    operation, the connection comes back as it was. *)
Lemma apply_group_op_skips {S : Type} `{LdapServer S}
    (self : LdapConnection.t S) (op : LdapGroupOp.t) (dry_run : bool) :
  LdapConnection.apply_group_op self op dry_run = inr self.
Proof. reflexivity. Qed.

(** The handler that a CREATE would reach has an empty body. *)
Lemma group_op_create_does_nothing {S : Type} `{LdapServer S}
    (self : LdapConnection.t S) (group : LdapGroup.t) (dry_run : bool) :
  LdapConnection._group_op_create self group dry_run = inr self.
Proof. reflexivity. Qed.

(** The dispatch of the other two executors does go by the tag. *)
Lemma apply_user_op_dispatches {S : Type} `{LdapServer S}
    (self : LdapConnection.t S) (op : LdapUserOp.t) (dry_run : bool) :
  LdapConnection.apply_user_op self op dry_run
  = match LdapUserOp.operation op with
    | CREATE => LdapConnection._user_op_create self (LdapUserOp.user op) dry_run
    | DISABLE => LdapConnection._user_op_disable self (LdapUserOp.user op) dry_run
    | UPDATE =>
        LdapConnection._user_op_update self (LdapUserOp.user op) (LdapUserOp.diff op) dry_run
    end.
Proof. unfold LdapConnection.apply_user_op. by destruct (LdapUserOp.operation op). Qed.

Lemma apply_fs_op_dispatches (fs_op : FsDirectoryOp.t) (dry_run : bool) :
  FsResourceManager.apply_fs_op fs_op dry_run
  = match FsDirectoryOp.operation fs_op with
    | CREATE => FsResourceManager._fs_op_create (FsDirectoryOp.directory fs_op) dry_run
    | DISABLE => FsResourceManager._fs_op_disable (FsDirectoryOp.directory fs_op) dry_run
    | UPDATE =>
        FsResourceManager._fs_op_update (FsDirectoryOp.directory fs_op)
          (FsDirectoryOp.diff fs_op) dry_run
    end.
Proof. unfold FsResourceManager.apply_fs_op. by destruct (FsDirectoryOp.operation fs_op). Qed.

(** C4. The claim asks that a group operation with tag UPDATE has its diff
    applied to the entry of the directory service and that one with tag
    CREATE inserts the group.  On a server that holds the entry of the group,
    without dry run, [apply_group_op] returns the connection unchanged for
    both operations, while the update handler called directly writes the
    changed field. *)
Theorem C4_group_operations_are_not_applied :
  LdapConnection.apply_group_op
    (Scenario2.connection [Scenario2.team_entry]) Scenario2.update_team false
  = inr (Scenario2.connection [Scenario2.team_entry])
  ∧ LdapConnection.apply_group_op
      (Scenario2.connection []) Scenario2.create_team false
    = inr (Scenario2.connection [])
  ∧ LdapConnection._group_op_update
      (Scenario2.connection [Scenario2.team_entry]) Scenario2.team
      (LdapGroupOp.diff Scenario2.update_team) false
    = inr (Scenario2.connection
             [MemoryServer.write Scenario2.team_entry [("description", VStr "the team")]]).
Proof. split_and!; vm_compute; reflexivity. Qed.

(** The operation lists given to [sync_data] have no influence on what it
    does: two runs that differ in them only return the same. *)
Lemma sync_data_ignores_selection {S : Type} `{LdapServer S}
    (loaded : Settings.t) (readers : SystemReaders.t) (server : S) (dry_run : bool)
    (ldap_user_ops ldap_group_ops fs_ops : list StateOperation)
    (ldap_user_ops' ldap_group_ops' fs_ops' : list StateOperation) :
  sync_data loaded readers server ldap_user_ops ldap_group_ops fs_ops dry_run
  = sync_data loaded readers server ldap_user_ops' ldap_group_ops' fs_ops' dry_run.
Proof. reflexivity. Qed.

(** C5. The claim asks that an operation is applied only if its tag is in the
    subset configured for its class.  With the directory operations
    restricted to CREATE and a directory present on the file system only,
    [sync_data] without dry run still issues the command of the DISABLE
    operation on that directory. *)
Theorem C5_excluded_operation_is_executed :
  sync_data Scenario2.loaded Scenario2.readers Scenario2.server [] [] [CREATE] false
  = inr (Scenario2.server,
         [["setfattr"; "-n"; "ceph-quota.max_files"; "-v"; "0";
           "/data/cephfs-1/work/groups/ag-old"]]).
Proof. vm_compute. reflexivity. Qed.

(** ** Target state builder: identifier allocation *)

Lemma max_of_spec (x : Z) (xs : list Z) :
  max_of x xs ∈ x :: xs ∧ ∀ y, y ∈ x :: xs → y ≤ max_of x xs.
Proof.
  unfold max_of. induction xs as [|z zs [IHin IHle]]; simpl.
  - split; [left|]. intros y ->%list_elem_of_singleton. lia.
  - split.
    + destruct (Z.max_spec z (foldr Z.max x zs)) as [[_ ->]|[_ ->]].
      * apply elem_of_cons in IHin as [->|Hin]; [left|right; by right].
      * right; left.
    + intros y [->|[->|Hy]%elem_of_cons]%elem_of_cons.
      * specialize (IHle x ltac:(left)). lia.
      * lia.
      * specialize (IHle y ltac:(by right)). lia.
Qed.

(** The seed of the counter: 1000 when the current state has no group id,
    and otherwise one more than an id of the current state that no id of
    the current state exceeds. *)
Lemma get_next_gid_spec (system_state : SystemState.t) :
  (current_gids system_state = [] →
   TargetStateBuilder._get_next_gid system_state = 1000) ∧
  (current_gids system_state ≠ [] →
   (TargetStateBuilder._get_next_gid system_state - 1) ∈ current_gids system_state ∧
   ∀ gid, gid ∈ current_gids system_state →
          gid < TargetStateBuilder._get_next_gid system_state).
Proof.
  assert (TargetStateBuilder._get_next_gid system_state
          = match current_gids system_state with
            | g :: gs => max_of g gs + 1
            | [] => 1000
            end) as -> by reflexivity.
  destruct (current_gids system_state) as [|g gs]; split; try done.
  intros _. destruct (max_of_spec g gs) as [Hin Hle].
  split.
  - by replace (max_of g gs + 1 - 1) with (max_of g gs) by lia.
  - intros gid Hgid. specialize (Hle gid Hgid). lia.
Qed.

Lemma needs_gid_cons (gid : option Z) (gids : list (option Z)) :
  needs_gid (gid :: gids)
  = if gid_truthy gid then needs_gid gids else gid :: needs_gid gids.
Proof.
  unfold needs_gid. rewrite filter_cons. by destruct (gid_truthy gid).
Qed.

Lemma needs_gid_app (l1 l2 : list (option Z)) :
  needs_gid (l1 ++ l2) = needs_gid l1 ++ needs_gid l2.
Proof. apply filter_app. Qed.

Lemma assign_gids_app (n : Z) (l1 l2 : list (option Z)) :
  assign_gids n (l1 ++ l2)
  = assign_gids n l1 ++ assign_gids (n + Z.of_nat (length (needs_gid l1))) l2.
Proof.
  revert n. induction l1 as [|gid l1 IH]; intros n; simpl.
  - f_equal. lia.
  - rewrite needs_gid_cons. destruct (gid_truthy gid); simpl.
    + f_equal. apply IH.
    + f_equal. rewrite IH. do 2 f_equal. lia.
Qed.

Lemma assign_gids_kept (n : Z) (gids : list (option Z)) (i : nat) (gid : option Z) :
  gids !! i = Some gid → gid_truthy gid = true → assign_gids n gids !! i = Some gid.
Proof.
  revert n i. induction gids as [|g gids IH]; intros n [|i] Hi Hgid; simplify_eq/=.
  - by rewrite Hgid.
  - destruct (gid_truthy g); simpl; eauto.
Qed.

Lemma allocated_gids_cons (g g' : option Z) (before after : list (option Z)) :
  allocated_gids (g :: before) (g' :: after)
  = if gid_truthy g then allocated_gids before after
    else g' :: allocated_gids before after.
Proof.
  unfold allocated_gids. simpl. rewrite filter_cons. simpl.
  by destruct (gid_truthy g).
Qed.

Lemma assign_gids_allocated (n : Z) (gids : list (option Z)) :
  allocated_gids gids (assign_gids n gids)
  = (λ i, Some (n + Z.of_nat i)) <$> seq 0 (length (needs_gid gids)).
Proof.
  revert n. induction gids as [|g gids IH]; intros n; [done|].
  rewrite needs_gid_cons. simpl.
  destruct (gid_truthy g) eqn:Hg; rewrite allocated_gids_cons, Hg.
  - apply IH.
  - simpl. f_equal; [f_equal; lia|].
    rewrite IH. rewrite <- fmap_S_seq, <- list_fmap_compose.
    apply list_fmap_ext. intros _ i _. simpl. f_equal. lia.
Qed.

(** The first loop of [_build_ldap_groups] in terms of [assign_gids]. *)
Lemma group_loop_gids (hpc_users : dict.t HpcUser.t) (items : dict.t HpcGroup.t)
    (n : Z) (acc : dict.t HpcGroup.t) (res : dict.t LdapGroup.t)
    (n' : Z) (acc' : dict.t HpcGroup.t) (res' : dict.t LdapGroup.t) :
  for_in items (TargetStateBuilder.group_step hpc_users) (n, acc, res)
  = inr (n', acc', res') →
  HpcGroup.gid <$> dict.values acc'
  = (HpcGroup.gid <$> dict.values acc)
    ++ assign_gids n (HpcGroup.gid <$> dict.values items)
  ∧ n' = n + Z.of_nat (length (needs_gid (HpcGroup.gid <$> dict.values items))).
Proof.
  revert n acc res. induction items as [|[key group] items IH]; intros n acc res Hrun.
  - simpl in Hrun. simplify_eq. simpl. rewrite app_nil_r. split; [done|lia].
  - simpl in Hrun. apply bind_inr_inv in Hrun as [[[n1 acc1] res1] [Hstep Hrest]].
    apply IH in Hrest as [Hgids ->]. clear IH.
    unfold TargetStateBuilder.group_step in Hstep.
    unfold dict.values in *. simpl. rewrite needs_gid_cons.
    destruct (gid_truthy (HpcGroup.gid group)) eqn:Hg; simpl in Hstep;
      apply bind_inr_inv in Hstep as [owner [_ Hstep]];
      apply bind_inr_inv in Hstep as [delegate [_ Hstep]];
      cbv [mret result_ret] in Hstep; simplify_eq;
      rewrite Hgids, !fmap_app, <- app_assoc; simpl; refold_fmap.
    + split; [done|lia].
    + split; [done|lia].
Qed.

Lemma project_loop_gids (hpc_users : dict.t HpcUser.t) (hpc_groups : dict.t HpcGroup.t)
    (items : dict.t HpcProject.t)
    (n : Z) (acc : dict.t HpcProject.t) (res : dict.t LdapGroup.t)
    (n' : Z) (acc' : dict.t HpcProject.t) (res' : dict.t LdapGroup.t) :
  for_in items (TargetStateBuilder.project_step hpc_users hpc_groups) (n, acc, res)
  = inr (n', acc', res') →
  HpcProject.gid <$> dict.values acc'
  = (HpcProject.gid <$> dict.values acc)
    ++ assign_gids n (HpcProject.gid <$> dict.values items)
  ∧ n' = n + Z.of_nat (length (needs_gid (HpcProject.gid <$> dict.values items))).
Proof.
  revert n acc res. induction items as [|[key project] items IH]; intros n acc res Hrun.
  - simpl in Hrun. simplify_eq. simpl. rewrite app_nil_r. split; [done|lia].
  - simpl in Hrun. apply bind_inr_inv in Hrun as [[[n1 acc1] res1] [Hstep Hrest]].
    apply IH in Hrest as [Hgids ->]. clear IH.
    unfold TargetStateBuilder.project_step in Hstep.
    unfold dict.values in *. simpl. rewrite needs_gid_cons.
    destruct (gid_truthy (HpcProject.gid project)) eqn:Hg; simpl in Hstep;
      apply bind_inr_inv in Hstep as [owner_dn [_ Hstep]];
      apply bind_inr_inv in Hstep as [delegate [_ Hstep]];
      cbv [mret result_ret] in Hstep; simplify_eq;
      rewrite Hgids, !fmap_app, <- app_assoc; simpl; refold_fmap.
    + split; [done|lia].
    + split; [done|lia].
Qed.

(** [_build_ldap_groups] runs one counter over the groups and then the
    projects. *)
Lemma build_ldap_groups_gids (self self' : TargetStateBuilder.t)
    (state state' : HpcaccessState.t) (result : dict.t LdapGroup.t) :
  TargetStateBuilder._build_ldap_groups self state = inr (self', state', result) →
  registry_gids state'
  = assign_gids (TargetStateBuilder.next_gid self) (registry_gids state)
  ∧ TargetStateBuilder.next_gid self'
    = TargetStateBuilder.next_gid self
      + Z.of_nat (length (needs_gid (registry_gids state))).
Proof.
  unfold TargetStateBuilder._build_ldap_groups. intros Hrun.
  apply bind_inr_inv in Hrun as [[[n1 groups1] res1] [Hgroups Hrun]].
  apply bind_inr_inv in Hrun as [[[n2 projects2] res2] [Hprojects Hrun]].
  apply group_loop_gids in Hgroups as [Hg ->].
  apply project_loop_gids in Hprojects as [Hp ->].
  cbv [mret result_ret] in Hrun. simplify_eq. unfold registry_gids. simpl.
  rewrite assign_gids_app, Hg, Hp. simpl.
  rewrite needs_gid_app, length_app. split; [done|lia].
Qed.

(** C6 (amended). A record whose [gid] is a number other than zero keeps it;
    every other group and project gets the next value of one counter that
    runs over the groups and then the projects.  The counter starts at 1000
    when the current state has no group id and otherwise at one more than
    the largest group id of the current state (the ids of its groups and
    the non-zero primary group ids of its accounts), and it moves by one per
    allocation: the allocated ids are the consecutive numbers from the
    start, so no two of them are equal. *)
Theorem C6_gid_allocation (settings : HpcaccessClient.t) (system_state : SystemState.t)
    (state state' : HpcaccessState.t) (self' : TargetStateBuilder.t)
    (result : dict.t LdapGroup.t) :
  TargetStateBuilder._build_ldap_groups
    (TargetStateBuilder.init settings system_state) state
  = inr (self', state', result) →
  ((current_gids system_state = [] →
    TargetStateBuilder.next_gid (TargetStateBuilder.init settings system_state) = 1000) ∧
   (current_gids system_state ≠ [] →
    (TargetStateBuilder.next_gid (TargetStateBuilder.init settings system_state) - 1)
      ∈ current_gids system_state ∧
    ∀ gid, gid ∈ current_gids system_state →
           gid < TargetStateBuilder.next_gid (TargetStateBuilder.init settings system_state)))
  ∧ (∀ i gid, registry_gids state !! i = Some gid → gid_truthy gid = true →
              registry_gids state' !! i = Some gid)
  ∧ allocated_gids (registry_gids state) (registry_gids state')
    = (λ i, Some (TargetStateBuilder.next_gid (TargetStateBuilder.init settings system_state)
                  + Z.of_nat i))
      <$> seq 0 (length (needs_gid (registry_gids state)))
  ∧ NoDup (allocated_gids (registry_gids state) (registry_gids state'))
  ∧ TargetStateBuilder.next_gid self'
    = TargetStateBuilder.next_gid (TargetStateBuilder.init settings system_state)
      + Z.of_nat (length (needs_gid (registry_gids state))).
Proof.
  intros [Hgids Hnext]%build_ldap_groups_gids.
  split_and!.
  - apply get_next_gid_spec.
  - apply get_next_gid_spec.
  - intros i gid Hi Hgid. rewrite Hgids. by apply assign_gids_kept.
  - rewrite Hgids. apply assign_gids_allocated.
  - rewrite Hgids, assign_gids_allocated.
    apply NoDup_fmap_2; [|apply NoDup_seq].
    intros i j Hij. simplify_eq. lia.
  - done.
Qed.

Lemma C6_gid_allocation_witness :
  TargetStateBuilder._build_ldap_groups
    (TargetStateBuilder.init Scenario3.registry Scenario3.current)
    (gather_hpcaccess_state Scenario3.registry)
  = inr (Scenario3.builder_after, Scenario3.state_after, Scenario3.groups_after)
  ∧ ((current_gids Scenario3.current = [] →
      TargetStateBuilder.next_gid
        (TargetStateBuilder.init Scenario3.registry Scenario3.current) = 1000) ∧
     (current_gids Scenario3.current ≠ [] →
      (TargetStateBuilder.next_gid
         (TargetStateBuilder.init Scenario3.registry Scenario3.current) - 1)
        ∈ current_gids Scenario3.current ∧
      ∀ gid, gid ∈ current_gids Scenario3.current →
             gid < TargetStateBuilder.next_gid
                     (TargetStateBuilder.init Scenario3.registry Scenario3.current)))
  ∧ (∀ i gid, registry_gids (gather_hpcaccess_state Scenario3.registry) !! i = Some gid →
              gid_truthy gid = true →
              registry_gids Scenario3.state_after !! i = Some gid)
  ∧ allocated_gids (registry_gids (gather_hpcaccess_state Scenario3.registry))
                   (registry_gids Scenario3.state_after)
    = [Some 1007; Some 1008]
  ∧ NoDup (allocated_gids (registry_gids (gather_hpcaccess_state Scenario3.registry))
                          (registry_gids Scenario3.state_after))
  ∧ TargetStateBuilder.next_gid Scenario3.builder_after = 1007 + 2.
Proof.
  split; [vm_compute; reflexivity|].
  apply (C6_gid_allocation Scenario3.registry Scenario3.current
           (gather_hpcaccess_state Scenario3.registry) Scenario3.state_after
           Scenario3.builder_after Scenario3.groups_after).
  vm_compute; reflexivity.
Defined.

(** The claim as stated fails on a record whose [gid] is the number zero:
    the record has a numeric [gid] and the builder replaces it. *)
Lemma C6_gid_zero_is_replaced :
  registry_gids (gather_hpcaccess_state Scenario3.registry_zero) = [Some 0]
  ∧ (λ r, registry_gids (snd (fst r)))
      <$> TargetStateBuilder._build_ldap_groups
            (TargetStateBuilder.init Scenario3.registry_zero Scenario.empty_state)
            (gather_hpcaccess_state Scenario3.registry_zero)
    = inr [Some 1000].
Proof. split; vm_compute; reflexivity. Qed.

(** ** Target state builder: storage directories *)

(** C8. The claim asks that every directory emitted for a project carries
    that project's own name in its path and in [group_name].  For the
    project [bar] of the group [foo], the three directories the builder
    emits for the project (those with the project's gid 3000) are named
    after the group. *)
Theorem C8_project_directories_named_after_last_group :
  (λ r, (λ d, (FsDirectory.path d, FsDirectory.group_name d))
          <$> filter (λ d, FsDirectory.group_gid d = 3000)
                     (dict.values (SystemState.fs_directories (snd r))))
    <$> TargetStateBuilder.run
          (TargetStateBuilder.init Scenario3.registry_foo_bar Scenario.empty_state)
  = inr [ ("/data/cephfs-1/home/projects/foo", "foo");
          ("/data/cephfs-1/scratch/projects/foo", "foo");
          ("/data/cephfs-1/work/projects/foo", "foo") ].
Proof. vm_compute. reflexivity. Qed.

(** A loop preserves what each run of its body preserves. *)
Lemma for_in_invariant {A S : Type} (P : S → Prop) (xs : list A)
    (body : A → S → outcome S) (s s' : S) :
  (∀ x t t', x ∈ xs → body x t = inr t' → P t → P t') →
  P s → for_in xs body s = inr s' → P s'.
Proof.
  revert s. induction xs as [|x xs IH]; intros s Hbody Hs Hrun; simpl in Hrun.
  - by simplify_eq.
  - apply bind_inr_inv in Hrun as [t [Hx Hrest]].
    eapply IH; [|by eapply Hbody; [left|..]|done].
    intros y u u' Hy. apply Hbody. by right.
Qed.

(** A returning loop over [xs ++ x :: ys] returns on [xs], then on [x], then
    on [ys]. *)
Lemma for_in_split {A S : Type} (xs ys : list A) (x : A) (body : A → S → outcome S)
    (s s' : S) :
  for_in (xs ++ x :: ys) body s = inr s' →
  ∃ s1 s2, for_in xs body s = inr s1 ∧ body x s1 = inr s2 ∧ for_in ys body s2 = inr s'.
Proof.
  rewrite for_in_app. intros [s1 [H1 Hrest]]%bind_inr_inv. simpl in Hrest.
  apply bind_inr_inv in Hrest as [s2 [H2 H3]]. by exists s1, s2.
Qed.


(** The inner loop over the tier 1 volumes, when it returns, has written
    the three directories, in the order home, scratch, work. *)
Lemma tier1_loop_inv (kind : string) (owner : HpcUser.t) (name : string) (gid : Z)
    (quota_scratch quota_work : float) (result result' : dict.t FsDirectory.t) :
  TargetStateBuilder.tier1_loop kind owner name gid quota_scratch quota_work result
  = inr result' →
  ∃ bytes_scratch bytes_work,
    Float.to_int (terabytes quota_scratch) = inr bytes_scratch ∧
    Float.to_int (terabytes quota_work) = inr bytes_work ∧
    result'
    = dict.set
        (dict.set
           (dict.set result
              (BASE_PATH_TIER1 +:+ "/" +:+ "home" +:+ kind +:+ name)
              (TargetStateBuilder.shared_directory
                 (BASE_PATH_TIER1 +:+ "/" +:+ "home" +:+ kind +:+ name)
                 (HpcUser.username owner) (HpcUser.uid owner) name gid QUOTA_HOME_BYTES))
           (BASE_PATH_TIER1 +:+ "/" +:+ "scratch" +:+ kind +:+ name)
           (TargetStateBuilder.shared_directory
              (BASE_PATH_TIER1 +:+ "/" +:+ "scratch" +:+ kind +:+ name)
              (HpcUser.username owner) (HpcUser.uid owner) name gid bytes_scratch))
        (BASE_PATH_TIER1 +:+ "/" +:+ "work" +:+ kind +:+ name)
        (TargetStateBuilder.shared_directory
           (BASE_PATH_TIER1 +:+ "/" +:+ "work" +:+ kind +:+ name)
           (HpcUser.username owner) (HpcUser.uid owner) name gid bytes_work).
Proof.
  unfold TargetStateBuilder.tier1_loop, TargetStateBuilder.tier1_volumes. cbn [for_in].
  intros Hrun.
  apply bind_inr_inv in Hrun as [r1 [H1 Hrun]].
  apply bind_inr_inv in Hrun as [r2 [H2 Hrun]].
  apply bind_inr_inv in Hrun as [r3 [H3 Hrun]].
  apply bind_inr_inv in H1 as [b1 [Hb1 H1]].
  apply bind_inr_inv in H2 as [b2 [Hb2 H2]].
  apply bind_inr_inv in H3 as [b3 [Hb3 H3]].
  cbn [py_int] in Hb1, Hb2, Hb3. cbv [mret result_ret] in H1, H2, H3.
  simplify_eq. by exists b2, b3.
Qed.















(** ** Usage synchronisation *)

(** *** Dictionaries built by comprehension *)

Lemma dict_get_elem {V : Type} (d : dict.t V) (k : string) (v : V) :
  dict.get d k = Some v → (k, v) ∈ d.
Proof.
  induction d as [|[k' v'] d IH]; simpl; [done|].
  destruct (decide (k' = k)) as [->|Hne].
  - intros [= ->]. left.
  - intros Hget. right. by apply IH.
Qed.

Lemma dict_nodup_get {V : Type} (d : dict.t V) (k : string) (v : V) :
  NoDup (dict.keys d) → (k, v) ∈ d → dict.get d k = Some v.
Proof.
  unfold dict.keys. induction d as [|[k' v'] d IH]; simpl.
  - by intros _ ?%elem_of_nil.
  - intros [Hfresh Hnodup]%NoDup_cons [Heq|Hin]%elem_of_cons.
    + simplify_eq. by rewrite decide_True.
    + destruct (decide (k' = k)) as [->|Hne]; [|by apply IH].
      exfalso. apply Hfresh. by apply (list_elem_of_fmap_2 fst) in Hin.
Qed.

Lemma dict_set_elem {V : Type} (d : dict.t V) (k k' : string) (v v' : V) :
  (k', v') ∈ dict.set d k v → (k', v') = (k, v) ∨ (k', v') ∈ d.
Proof.
  induction d as [|[k0 v0] d IH]; simpl.
  - intros ->%list_elem_of_singleton. by left.
  - destruct (decide (k0 = k)) as [->|Hne].
    + intros [->|Hin]%elem_of_cons; [by left|]. right. by right.
    + intros [->|Hin]%elem_of_cons; [right; left|].
      destruct (IH Hin) as [?|?]; [by left|]. right. by right.
Qed.

Lemma dict_set_keys_fresh {V : Type} (d : dict.t V) (k k' : string) (v : V) :
  k' ∈ dict.keys (dict.set d k v) → k' = k ∨ k' ∈ dict.keys d.
Proof.
  unfold dict.keys. intros [[k0 v0] [-> Hin]]%list_elem_of_fmap. simpl.
  apply dict_set_elem in Hin as [?|Hin]; [left; by simplify_eq|].
  right. by apply (list_elem_of_fmap_2 fst) in Hin.
Qed.

Lemma dict_set_nodup {V : Type} (d : dict.t V) (k : string) (v : V) :
  NoDup (dict.keys d) → NoDup (dict.keys (dict.set d k v)).
Proof.
  unfold dict.keys. induction d as [|[k0 v0] d IH]; simpl.
  - intros _. apply NoDup_singleton.
  - intros [Hfresh Hnodup]%NoDup_cons.
    destruct (decide (k0 = k)) as [->|Hne]; simpl.
    + by apply NoDup_cons.
    + apply NoDup_cons. split; [|by apply IH].
      intros [?|?]%(dict_set_keys_fresh d); [congruence|done].
Qed.

Section of_list.

Context {A V : Type} (key : A → string) (val : A → V).

Lemma of_list_snoc (xs : list A) (x : A) :
  dict.of_list key val (xs ++ [x])
  = dict.set (dict.of_list key val xs) (key x) (val x).
Proof. unfold dict.of_list. by rewrite fold_left_app. Qed.

Lemma of_list_elem (xs : list A) (k : string) (v : V) :
  (k, v) ∈ dict.of_list key val xs → ∃ x, x ∈ xs ∧ k = key x ∧ v = val x.
Proof.
  induction xs as [|x xs IH] using rev_ind.
  - by intros ?%elem_of_nil.
  - rewrite of_list_snoc. intros [Heq|Hin]%dict_set_elem.
    + simplify_eq. exists x. split; [|done]. apply elem_of_app. right. left.
    + destruct (IH Hin) as (y & Hy & ? & ?). exists y. split; [|done].
      apply elem_of_app. by left.
Qed.

Lemma of_list_nodup (xs : list A) : NoDup (dict.keys (dict.of_list key val xs)).
Proof.
  induction xs as [|x xs IH] using rev_ind.
  - apply NoDup_nil_2.
  - rewrite of_list_snoc. by apply dict_set_nodup.
Qed.

(** A key that some element has, and under which all elements agree on the
    value, is bound to that value. *)
Lemma of_list_get_agree (xs : list A) (k : string) (w : V) :
  (∃ x, x ∈ xs ∧ key x = k) →
  (∀ x, x ∈ xs → key x = k → val x = w) →
  dict.get (dict.of_list key val xs) k = Some w.
Proof.
  induction xs as [|x xs IH] using rev_ind.
  - by intros (x & ?%elem_of_nil & _).
  - intros (y & Hy & Hk) Hagree. rewrite of_list_snoc.
    destruct (decide (key x = k)) as [Hx|Hx].
    + rewrite <- Hx, dict_get_set_eq. f_equal. apply Hagree; [|done].
      apply elem_of_app. right. left.
    + rewrite dict_get_set_ne by done. apply IH.
      * apply elem_of_app in Hy as [Hy|Hy%list_elem_of_singleton]; [|congruence].
        by exists y.
      * intros z Hz. apply Hagree. apply elem_of_app. by left.
Qed.

Lemma of_list_get_elem (xs : list A) (k : string) (w : V) :
  dict.get (dict.of_list key val xs) k = Some w → ∃ x, x ∈ xs ∧ key x = k ∧ val x = w.
Proof.
  intros (x & Hx & -> & ->)%dict_get_elem%of_list_elem. by exists x.
Qed.

End of_list.

Lemma dict_get_fmap {V W : Type} (f : V → W) (d : dict.t V) (k : string) :
  dict.get (prod_map id f <$> d) k = f <$> dict.get d k.
Proof.
  induction d as [|[k' v] d IH]; simpl; [done|].
  by destruct (decide (k' = k)).
Qed.

Lemma dict_values_fmap {V W : Type} (f : V → W) (d : dict.t V) :
  dict.values (prod_map id f <$> d) = f <$> dict.values d.
Proof.
  unfold dict.values. rewrite <- !list_fmap_compose. by apply list_fmap_ext.
Qed.

Lemma dict_values_elem {V : Type} (d : dict.t V) (v : V) :
  v ∈ dict.values d → ∃ k, (k, v) ∈ d.
Proof.
  unfold dict.values. intros [[k v'] [-> Hin]]%list_elem_of_fmap. by exists k.
Qed.

Lemma dict_get_values {V : Type} (d : dict.t V) (k : string) (v : V) :
  dict.get d k = Some v → v ∈ dict.values d.
Proof.
  intros Hin%dict_get_elem. by apply (list_elem_of_fmap_2 snd) in Hin.
Qed.

(** *** The fold of the directories into one group record *)

Lemma set_resources_used_twice (a b : Used ResourceData.t) (g : HpcGroup.t) :
  HpcGroup.set_resources_used a (HpcGroup.set_resources_used b g)
  = HpcGroup.set_resources_used a g.
Proof. reflexivity. Qed.

Section usage_fold.

(** The groups of the registry state as gathered, one of them being [g]
    under the key [u]; no other group has the name of [g]. *)
Context (groups : dict.t HpcGroup.t) (u : string) (g : HpcGroup.t).
Hypothesis groups_keys : NoDup (dict.keys groups).
Hypothesis groups_uuid : ∀ k g', (k, g') ∈ groups → HpcGroup.uuid g' = k.
Hypothesis g_at_u : dict.get groups u = Some g.
Hypothesis g_name : ∀ g', g' ∈ dict.values groups →
                          HpcGroup.name g' = HpcGroup.name g → g' = g.

(** The directories of the current state; all those that resolve to the
    scratch space of [g] give the quotient [w]. *)
Context (dirs : list FsDirectory.t) (w : float).
Hypothesis scratch_w : ∀ d, d ∈ dirs →
  fs_validation d = inr ("groups", HpcGroup.name g, "tier1_scratch") →
  usage_quotient (FsDirectory.rbytes d) 4 = inr w.

Lemma groups_by_name_g : dict.get (groups_by_name groups) (HpcGroup.name g) = Some u.
Proof.
  unfold groups_by_name. rewrite dict_values_fmap.
  apply of_list_get_agree.
  - exists (HpcGroup.set_resources_used (UsedDict dict.empty) g). split; [|done].
    apply list_elem_of_fmap_2. by eapply dict_get_values.
  - intros x (g' & -> & Hg')%list_elem_of_fmap Hname. simpl in *.
    rewrite (g_name g' Hg' Hname).
    by apply groups_uuid, dict_get_elem.
Qed.

Lemma groups_by_name_inv (name : string) :
  dict.get (groups_by_name groups) name = Some u → name = HpcGroup.name g.
Proof.
  unfold groups_by_name. rewrite dict_values_fmap.
  intros (x & (g' & -> & Hg')%list_elem_of_fmap & <- & Huuid)%of_list_get_elem.
  simpl in *. apply dict_values_elem in Hg' as [k Hk].
  pose proof (groups_uuid _ _ Hk) as Hku. rewrite Huuid in Hku. subst k.
  apply (dict_nodup_get _ _ _ groups_keys) in Hk.
  rewrite g_at_u in Hk. by simplify_eq.
Qed.

Lemma fold_directory_folded (users_by_name projects_by_name : dict.t UUID)
    (d : FsDirectory.t) (st st' : HpcaccessState.t) (b : bool) :
  d ∈ dirs →
  fold_directory [ (ENTITY_USERS, users_by_name); (ENTITY_GROUPS, groups_by_name groups);
                   (ENTITY_PROJECTS, projects_by_name) ] d st = inr st' →
  folded dirs u g w b st →
  folded dirs u g w b st'
  ∧ (fs_validation d = inr ("groups", HpcGroup.name g, "tier1_scratch") →
     folded dirs u g w true st').
Proof.
  intros Hd Hstep (usage & Hrecord & Hfrom & Hscratch).
  unfold fold_directory in Hstep.
  destruct (fs_validation d) as [e|[[entity name] resource]] eqn:Hval.
  { destruct e; try discriminate Hstep. injection Hstep as <-.
    split; [by exists usage|]. intros [=]. }
  destruct (decide (entity = "groups")) as [->|Hentity].
  - change (dict.get (default dict.empty (dict.get _ "groups")) name)
      with (dict.get (groups_by_name groups) name) in Hstep.
    destruct (dict.get (groups_by_name groups) name) as [u'|] eqn:Hindex.
    2:{ injection Hstep as <-. split; [by exists usage|].
        intros [= -> ->]. by rewrite groups_by_name_g in Hindex. }
    apply bind_inr_inv in Hstep as [v [Hv Hstep]].
    change (4 - (if decide ("groups" = ENTITY_USERS) then 1 else 0)) with 4 in Hv.
    destruct (decide ("groups" = "users")) as [?|_] in Hstep; [done|].
    apply bind_inr_inv in Hstep as [groups' [Hstore Hstep]].
    cbv [mret result_ret] in Hstep. injection Hstep as <-. simpl.
    unfold store_usage in Hstore.
    apply bind_inr_inv in Hstore as [record [Hget%dict_getitem_inr Hstore]].
    apply bind_inr_inv in Hstore as [used [Hused Hstore]].
    cbv [mret result_ret] in Hstore. injection Hstore as <-.
    destruct (decide (u' = u)) as [->|Hu].
    + apply groups_by_name_inv in Hindex as ->.
      rewrite Hrecord in Hget. injection Hget as <-.
      cbn [HpcGroup.resources_used HpcGroup.set_resources_used used_setitem] in Hused.
      cbv [mret result_ret] in Hused. injection Hused as <-.
      assert (∀ field v', dict.get (dict.set usage resource v) field = Some v' →
                ∃ d0, d0 ∈ dirs
                      ∧ fs_validation d0 = inr ("groups", HpcGroup.name g, field)
                      ∧ usage_quotient (FsDirectory.rbytes d0) 4 = inr v') as Hfrom'.
      { intros field v'. destruct (decide (resource = field)) as [->|Hfield].
        - rewrite dict_get_set_eq. intros [= <-]. by exists d.
        - rewrite dict_get_set_ne by done. apply Hfrom. }
      split.
      * exists (dict.set usage resource v). cbn [HpcaccessState.hpc_groups].
        rewrite dict_get_set_eq, set_resources_used_twice. split_and!; [done..|].
        intros Hb. destruct (decide (resource = "tier1_scratch")) as [->|Hres].
        -- rewrite dict_get_set_eq. f_equal.
           pose proof (scratch_w d Hd Hval) as Hw. congruence.
        -- rewrite dict_get_set_ne by done. by apply Hscratch.
      * intros [= ->]. exists (dict.set usage "tier1_scratch" v).
        cbn [HpcaccessState.hpc_groups].
        rewrite dict_get_set_eq, set_resources_used_twice. split_and!; [done..|].
        intros _. rewrite dict_get_set_eq. f_equal.
        pose proof (scratch_w d Hd Hval) as Hw. congruence.
    + split.
      * exists usage. cbn [HpcaccessState.hpc_groups]. by rewrite dict_get_set_ne.
      * intros [= -> ->]. rewrite groups_by_name_g in Hindex. congruence.
  - assert (HpcaccessState.hpc_groups st' = HpcaccessState.hpc_groups st) as Hsame.
    { destruct (dict.get _ name) as [u'|]; [|by injection Hstep as <-].
      apply bind_inr_inv in Hstep as [v [_ Hstep]].
      destruct (decide (entity = "users")).
      { apply bind_inr_inv in Hstep as [x [_ Hstep]].
        cbv [mret result_ret] in Hstep. by injection Hstep as <-. }
      destruct (decide (entity = "groups")) as [?|_] in Hstep; [done|].
      destruct (decide (entity = "projects")); [|discriminate Hstep].
      apply bind_inr_inv in Hstep as [x [_ Hstep]].
      cbv [mret result_ret] in Hstep. by injection Hstep as <-. }
    split; [|intros [=]; congruence].
    exists usage. by rewrite Hsame.
Qed.

(** One directory folded: the usage dictionary of [g] keeps the fields it
    has, and gains the field that the directory resolves to when it
    resolves to [g]. *)
Lemma fold_directory_usage_grows (users_by_name projects_by_name : dict.t UUID)
    (d : FsDirectory.t) (st st' : HpcaccessState.t) (usage : dict.t float) :
  fold_directory [ (ENTITY_USERS, users_by_name); (ENTITY_GROUPS, groups_by_name groups);
                   (ENTITY_PROJECTS, projects_by_name) ] d st = inr st' →
  dict.get (HpcaccessState.hpc_groups st) u
  = Some (HpcGroup.set_resources_used (UsedDict usage) g) →
  ∃ usage',
    dict.get (HpcaccessState.hpc_groups st') u
    = Some (HpcGroup.set_resources_used (UsedDict usage') g)
    ∧ (∀ field, is_Some (dict.get usage field) → is_Some (dict.get usage' field))
    ∧ (∀ field, fs_validation d = inr ("groups", HpcGroup.name g, field) →
                is_Some (dict.get usage' field)).
Proof.
  intros Hstep Hrecord.
  unfold fold_directory in Hstep.
  destruct (fs_validation d) as [e|[[entity name] resource]] eqn:Hval.
  { destruct e; try discriminate Hstep. injection Hstep as <-.
    exists usage. split_and!; [done|done|]. intros field [=]. }
  destruct (decide (entity = "groups")) as [->|Hentity].
  - change (dict.get (default dict.empty (dict.get _ "groups")) name)
      with (dict.get (groups_by_name groups) name) in Hstep.
    destruct (dict.get (groups_by_name groups) name) as [u'|] eqn:Hindex.
    2:{ injection Hstep as <-. exists usage. split_and!; [done|done|].
        intros field [= -> ->]. by rewrite groups_by_name_g in Hindex. }
    apply bind_inr_inv in Hstep as [v [Hv Hstep]].
    destruct (decide ("groups" = "users")) as [?|_] in Hstep; [done|].
    apply bind_inr_inv in Hstep as [groups' [Hstore Hstep]].
    cbv [mret result_ret] in Hstep. injection Hstep as <-. simpl.
    unfold store_usage in Hstore.
    apply bind_inr_inv in Hstore as [record [Hget%dict_getitem_inr Hstore]].
    apply bind_inr_inv in Hstore as [used [Hused Hstore]].
    cbv [mret result_ret] in Hstore. injection Hstore as <-.
    destruct (decide (u' = u)) as [->|Hu].
    + apply groups_by_name_inv in Hindex as ->.
      rewrite Hrecord in Hget. injection Hget as <-.
      cbn [HpcGroup.resources_used HpcGroup.set_resources_used used_setitem] in Hused.
      cbv [mret result_ret] in Hused. injection Hused as <-.
      exists (dict.set usage resource v).
      rewrite dict_get_set_eq, set_resources_used_twice. split_and!; [done| |].
      * intros field Hfield. destruct (decide (resource = field)) as [->|Hne].
        -- rewrite dict_get_set_eq. by eexists.
        -- by rewrite dict_get_set_ne.
      * intros field [= ->]. rewrite dict_get_set_eq. by eexists.
    + exists usage. rewrite dict_get_set_ne by done. split_and!; [done|done|].
      intros field [= -> ->]. rewrite groups_by_name_g in Hindex. congruence.
  - assert (HpcaccessState.hpc_groups st' = HpcaccessState.hpc_groups st) as Hsame.
    { destruct (dict.get _ name) as [u'|]; [|by injection Hstep as <-].
      apply bind_inr_inv in Hstep as [v [_ Hstep]].
      destruct (decide (entity = "users")).
      { apply bind_inr_inv in Hstep as [x [_ Hstep]].
        cbv [mret result_ret] in Hstep. by injection Hstep as <-. }
      destruct (decide (entity = "groups")) as [?|_] in Hstep; [done|].
      destruct (decide (entity = "projects")); [|discriminate Hstep].
      apply bind_inr_inv in Hstep as [x [_ Hstep]].
      cbv [mret result_ret] in Hstep. by injection Hstep as <-. }
    exists usage. rewrite Hsame. split_and!; [done|done|].
    intros field [=]; congruence.
Qed.

End usage_fold.

(** The scratch directory of a group named [ag-foo] passes the validation
    when the group name of the directory, without the prefix of the work
    groups, is the name of the folder. *)
Lemma fs_validation_scratch_ag_foo (d : FsDirectory.t) :
  FsDirectory.path d = "/data/cephfs-1/scratch/groups/ag-foo" →
  strip_prefix (FsDirectory.group_name d) (Some POSIX_AG_PREFIX) = "ag-foo" →
  fs_validation d = inr ("groups", "ag-foo", "tier1_scratch").
Proof.
  intros Hpath Hname. unfold fs_validation. rewrite Hpath.
  change (re_search_RE_PATH "/data/cephfs-1/scratch/groups/ag-foo")
    with (Some ("cephfs-1", "scratch", "groups", "ag-foo")).
  cbv beta iota.
  change (bool_decide ("groups" ∈ ENTITIES)) with true. cbv beta iota.
  change (negb true) with false. cbv beta iota.
  destruct (decide ("groups" = "users")) as [?|_]; [done|].
  change (dict.getitem PREFIX_MAPPING "groups") with (inr (A := exn) POSIX_AG_PREFIX).
  cbv [mbind result_bind mret result_ret]. rewrite Hname.
  reflexivity.
Qed.

Lemma five_tebibytes : usage_quotient (Some (5 * 1024 ^ 4)) 4 = inr (Float.of_Z 5).
Proof. vm_compute. reflexivity. Qed.

Lemma used_setitem_inv {M : Type} (used used' : Used M) (resource : string) (value : float) :
  used_setitem used resource value = inr used' →
  ∃ usage, used = UsedDict usage ∧ used' = UsedDict (dict.set usage resource value).
Proof.
  destruct used as [| |usage]; simpl; try discriminate.
  all: try (intros [= <-]; by eexists).
Qed.

(** The divisor of the fold: a directory that resolves to a record has its
    observed size divided by 1024^3 when the record is a user and by 1024^4
    when it is a group or a project, and the quotient is entered under the
    resource in the usage dictionary of the record. *)
Lemma fold_directory_divisor (hpcaccess : dict.t (dict.t UUID)) (d : FsDirectory.t)
    (st st' : HpcaccessState.t) (entity name resource uuid : string) :
  fs_validation d = inr (entity, name, resource) →
  dict.get (default dict.empty (dict.get hpcaccess entity)) name = Some uuid →
  fold_directory hpcaccess d st = inr st' →
  ∃ v,
    usage_quotient (FsDirectory.rbytes d) (if decide (entity = "users") then 3 else 4)
    = inr v
    ∧ (entity = "users" →
       ∃ record usage,
         dict.get (HpcaccessState.hpc_users st') uuid = Some record
         ∧ HpcUser.resources_used record = UsedDict usage
         ∧ dict.get usage resource = Some v)
    ∧ (entity = "groups" →
       ∃ record usage,
         dict.get (HpcaccessState.hpc_groups st') uuid = Some record
         ∧ HpcGroup.resources_used record = UsedDict usage
         ∧ dict.get usage resource = Some v)
    ∧ (entity = "projects" →
       ∃ record usage,
         dict.get (HpcaccessState.hpc_projects st') uuid = Some record
         ∧ HpcProject.resources_used record = UsedDict usage
         ∧ dict.get usage resource = Some v).
Proof.
  intros Hval Hindex Hstep. unfold fold_directory in Hstep.
  rewrite Hval, Hindex in Hstep.
  apply bind_inr_inv in Hstep as [v [Hv Hstep]].
  exists v. split.
  { change ENTITY_USERS with "users" in Hv.
    destruct (decide (entity = "users")); exact Hv. }
  destruct (decide (entity = "users")) as [->|Husers].
  { apply bind_inr_inv in Hstep as [users [Hstore Hstep]].
    cbv [mret result_ret] in Hstep. injection Hstep as <-.
    unfold store_usage in Hstore.
    apply bind_inr_inv in Hstore as [record [_ Hstore]].
    apply bind_inr_inv in Hstore as [used [(usage & Hused & ->)%used_setitem_inv Hstore]].
    cbv [mret result_ret] in Hstore. injection Hstore as <-.
    split_and!; [|done|done]. intros _.
    exists (HpcUser.set_resources_used (UsedDict (dict.set usage resource v)) record),
           (dict.set usage resource v).
    cbn [HpcaccessState.hpc_users]. by rewrite !dict_get_set_eq. }
  destruct (decide (entity = "groups")) as [->|Hgroups].
  { apply bind_inr_inv in Hstep as [groups [Hstore Hstep]].
    cbv [mret result_ret] in Hstep. injection Hstep as <-.
    unfold store_usage in Hstore.
    apply bind_inr_inv in Hstore as [record [_ Hstore]].
    apply bind_inr_inv in Hstore as [used [(usage & Hused & ->)%used_setitem_inv Hstore]].
    cbv [mret result_ret] in Hstore. injection Hstore as <-.
    split_and!; [done| |done]. intros _.
    exists (HpcGroup.set_resources_used (UsedDict (dict.set usage resource v)) record),
           (dict.set usage resource v).
    cbn [HpcaccessState.hpc_groups]. by rewrite !dict_get_set_eq. }
  destruct (decide (entity = "projects")) as [->|Hprojects]; [|discriminate Hstep].
  apply bind_inr_inv in Hstep as [projects [Hstore Hstep]].
  cbv [mret result_ret] in Hstep. injection Hstep as <-.
  unfold store_usage in Hstore.
  apply bind_inr_inv in Hstore as [record [_ Hstore]].
  apply bind_inr_inv in Hstore as [used [(usage & Hused & ->)%used_setitem_inv Hstore]].
  cbv [mret result_ret] in Hstore. injection Hstore as <-.
  split_and!; [done|done|]. intros _.
  exists (HpcProject.set_resources_used (UsedDict (dict.set usage resource v)) record),
         (dict.set usage resource v).
  cbn [HpcaccessState.hpc_projects]. by rewrite !dict_get_set_eq.
Qed.

(** C9 (amended). When the usage synchronisation returns: for the directory
    at the tier 1 scratch path of the groups for [ag-foo], with an observed
    size of 5 * 1024^4 bytes and a group name that, without the prefix of the
    work groups, is the folder name [ag-foo], being the only directory that
    resolves to that scratch space, and for the one registry group named
    [ag-foo], the record of the group afterwards holds a usage dictionary
    whose [tier1_scratch] entry is 5.0.  The usage recorded before is
    dropped.  The dictionary has exactly the fields folded from directories
    of the current state that resolve to the group: every entry is the
    observed size of such a directory divided by 1024^4, and every such
    directory has given its field an entry. *)
Theorem C9_usage_fold (readers : SystemReaders.t) (rest_client : HpcaccessClient.t)
    (dry_run : bool) (st' : HpcaccessState.t) (sent : list request)
    (d : FsDirectory.t) (u : string) (g : HpcGroup.t) :
  sync_storage_usage readers rest_client dry_run = inr (st', sent) →
  d ∈ dict.values (SystemState.fs_directories (gather_system_state readers)) →
  FsDirectory.path d = "/data/cephfs-1/scratch/groups/ag-foo" →
  strip_prefix (FsDirectory.group_name d) (Some POSIX_AG_PREFIX) = "ag-foo" →
  FsDirectory.rbytes d = Some (5 * 1024 ^ 4) →
  (∀ d', d' ∈ dict.values (SystemState.fs_directories (gather_system_state readers)) →
         fs_validation d' = inr ("groups", "ag-foo", "tier1_scratch") → d' = d) →
  dict.get (HpcaccessState.hpc_groups (gather_hpcaccess_state rest_client)) u = Some g →
  HpcGroup.name g = "ag-foo" →
  (∀ g', g' ∈ dict.values (HpcaccessState.hpc_groups (gather_hpcaccess_state rest_client)) →
         HpcGroup.name g' = "ag-foo" → g' = g) →
  ∃ usage,
    dict.get (HpcaccessState.hpc_groups st') u
    = Some (HpcGroup.set_resources_used (UsedDict usage) g)
    ∧ dict.get usage "tier1_scratch" = Some (Float.of_Z 5)
    ∧ (∀ field v, dict.get usage field = Some v →
         ∃ d', d' ∈ dict.values (SystemState.fs_directories (gather_system_state readers))
               ∧ fs_validation d' = inr ("groups", "ag-foo", field)
               ∧ usage_quotient (FsDirectory.rbytes d') 4 = inr v)
    ∧ (∀ field d',
         d' ∈ dict.values (SystemState.fs_directories (gather_system_state readers)) →
         fs_validation d' = inr ("groups", "ag-foo", field) →
         is_Some (dict.get usage field)).
Proof.
  intros Hrun Hd Hpath Hgroup Hrbytes Hd_only Hg Hname Hg_only.
  pose proof (fs_validation_scratch_ag_foo d Hpath Hgroup) as Hval.
  unfold sync_storage_usage, reset_usage in Hrun. cbv beta iota zeta in Hrun.
  apply bind_inr_inv in Hrun as [st1 [Hloop Hrun]].
  apply bind_inr_inv in Hrun as [sent' [_ Hrun]].
  cbv [mret result_ret] in Hrun. injection Hrun as -> _.
  set (dirs := dict.values (SystemState.fs_directories (gather_system_state readers))) in *.
  set (groups := HpcaccessState.hpc_groups (gather_hpcaccess_state rest_client)) in *.
  assert (NoDup (dict.keys groups)) as Hkeys by apply of_list_nodup.
  assert (∀ k g', (k, g') ∈ groups → HpcGroup.uuid g' = k) as Huuid.
  { intros k g' (x & _ & -> & ->)%of_list_elem. done. }
  assert (∀ g', g' ∈ dict.values groups → HpcGroup.name g' = HpcGroup.name g → g' = g)
    as Hg_only'.
  { intros g' Hg'. rewrite Hname. by apply Hg_only. }
  assert (∀ d0, d0 ∈ dirs →
            fs_validation d0 = inr ("groups", HpcGroup.name g, "tier1_scratch") →
            usage_quotient (FsDirectory.rbytes d0) 4 = inr (Float.of_Z 5)) as Hw.
  { intros d0 Hd0. rewrite Hname. intros ->%Hd_only; [|done].
    rewrite Hrbytes. apply five_tebibytes. }
  assert (folded dirs u g (Float.of_Z 5) true st') as (usage & Hrecord & Hfrom & Hscratch).
  { pose proof Hd as (before & after & Hsplit)%list_elem_of_split.
    rewrite Hsplit in Hloop.
    apply for_in_split in Hloop as (s1 & s2 & Hbefore & Hstep & Hafter).
    assert (∀ b d0 t t', d0 ∈ dirs →
              fold_directory
                [ (ENTITY_USERS,
                   dict.of_list HpcUser.username HpcUser.uuid
                     (dict.values
                        (prod_map id (HpcUser.set_resources_used (UsedDict dict.empty))
                           <$> HpcaccessState.hpc_users (gather_hpcaccess_state rest_client))));
                  (ENTITY_GROUPS, groups_by_name groups);
                  (ENTITY_PROJECTS,
                   dict.of_list HpcProject.name HpcProject.uuid
                     (dict.values
                        (prod_map id (HpcProject.set_resources_used (UsedDict dict.empty))
                           <$> HpcaccessState.hpc_projects
                                 (gather_hpcaccess_state rest_client)))) ]
                d0 t = inr t' →
              folded dirs u g (Float.of_Z 5) b t →
              folded dirs u g (Float.of_Z 5) b t'
              ∧ (fs_validation d0 = inr ("groups", HpcGroup.name g, "tier1_scratch") →
                 folded dirs u g (Float.of_Z 5) true t')) as Hfold_step.
    { intros b d0 t t'.
      apply (fold_directory_folded groups u g Hkeys Huuid Hg Hg_only' dirs _ Hw). }
    assert (folded dirs u g (Float.of_Z 5) false s1) as Hs1.
    { eapply (for_in_invariant (folded dirs u g (Float.of_Z 5) false));
        [| |exact Hbefore].
      - intros d0 t t' Hd0 Hfold Ht.
        refine (proj1 (Hfold_step false d0 t t' _ Hfold Ht)).
        rewrite Hsplit. apply elem_of_app. by left.
      - exists dict.empty. split_and!; [|done|done].
        cbn [HpcaccessState.hpc_groups]. fold groups.
        by rewrite dict_get_fmap, Hg. }
    assert (folded dirs u g (Float.of_Z 5) true s2) as Hs2.
    { destruct (Hfold_step false d s1 s2 Hd Hstep Hs1) as [_ Htrue].
      apply Htrue. by rewrite Hname. }
    eapply (for_in_invariant (folded dirs u g (Float.of_Z 5) true));
      [|exact Hs2|exact Hafter].
    intros d0 t t' Hd0 Hfold Ht.
    refine (proj1 (Hfold_step true d0 t t' _ Hfold Ht)).
    rewrite Hsplit. apply elem_of_app. right. by right. }
  exists usage. split_and!; [done|by apply Hscratch| |].
  { intros field v Hfield. rewrite <- Hname. by apply Hfrom. }
  intros field d' Hd' Hval'.
  assert (∀ d0 t t' usage0,
            fold_directory
              [ (ENTITY_USERS,
                 dict.of_list HpcUser.username HpcUser.uuid
                   (dict.values
                      (prod_map id (HpcUser.set_resources_used (UsedDict dict.empty))
                         <$> HpcaccessState.hpc_users (gather_hpcaccess_state rest_client))));
                (ENTITY_GROUPS, groups_by_name groups);
                (ENTITY_PROJECTS,
                 dict.of_list HpcProject.name HpcProject.uuid
                   (dict.values
                      (prod_map id (HpcProject.set_resources_used (UsedDict dict.empty))
                         <$> HpcaccessState.hpc_projects
                               (gather_hpcaccess_state rest_client)))) ]
              d0 t = inr t' →
            dict.get (HpcaccessState.hpc_groups t) u
            = Some (HpcGroup.set_resources_used (UsedDict usage0) g) →
            ∃ usage',
              dict.get (HpcaccessState.hpc_groups t') u
              = Some (HpcGroup.set_resources_used (UsedDict usage') g)
              ∧ (∀ field, is_Some (dict.get usage0 field) → is_Some (dict.get usage' field))
              ∧ (∀ field, fs_validation d0 = inr ("groups", HpcGroup.name g, field) →
                          is_Some (dict.get usage' field))) as Hgrow.
  { intros d0 t t' usage0.
    apply (fold_directory_usage_grows groups u g Hkeys Huuid Hg Hg_only' dirs _ Hw). }
  pose proof Hd' as (before & after & Hsplit)%list_elem_of_split.
  rewrite Hsplit in Hloop.
  apply for_in_split in Hloop as (s1 & s2 & Hbefore & Hstep & Hafter).
  assert (∃ usage1, dict.get (HpcaccessState.hpc_groups s1) u
                    = Some (HpcGroup.set_resources_used (UsedDict usage1) g))
    as [usage1 Hs1].
  { eapply (for_in_invariant
              (λ t, ∃ usage0, dict.get (HpcaccessState.hpc_groups t) u
                              = Some (HpcGroup.set_resources_used (UsedDict usage0) g)));
      [| |exact Hbefore].
    - intros d0 t t' _ Hfold [usage0 Ht].
      destruct (Hgrow d0 t t' usage0 Hfold Ht) as (usage' & Ht' & _). by exists usage'.
    - exists dict.empty. cbn [HpcaccessState.hpc_groups]. fold groups.
      by rewrite dict_get_fmap, Hg. }
  destruct (Hgrow d' s1 s2 usage1 Hstep Hs1) as (usage2 & Hs2 & _ & Hgain).
  assert (∃ usage3, dict.get (HpcaccessState.hpc_groups st') u
                    = Some (HpcGroup.set_resources_used (UsedDict usage3) g)
                    ∧ is_Some (dict.get usage3 field))
    as (usage3 & Hs3 & Hfield3).
  { eapply (for_in_invariant
              (λ t, ∃ usage0, dict.get (HpcaccessState.hpc_groups t) u
                              = Some (HpcGroup.set_resources_used (UsedDict usage0) g)
                              ∧ is_Some (dict.get usage0 field)));
      [| |exact Hafter].
    - intros d0 t t' _ Hfold (usage0 & Ht & Hsome).
      destruct (Hgrow d0 t t' usage0 Hfold Ht) as (usage' & Ht' & Hkeep & _).
      exists usage'. split; [done|by apply Hkeep].
    - exists usage2. split; [done|]. apply Hgain. by rewrite Hname. }
  rewrite Hrecord in Hs3. by injection Hs3 as ->.
Qed.

Lemma C9_usage_fold_witness :
  sync_storage_usage Scenario4.readers Scenario4.registry true
  = inr (Scenario4.state_after, [])
  ∧ ∃ usage,
      dict.get (HpcaccessState.hpc_groups Scenario4.state_after) "g-agfoo"
      = Some (HpcGroup.set_resources_used (UsedDict usage) Scenario4.ag_foo)
      ∧ dict.get usage "tier1_scratch" = Some (Float.of_Z 5)
      ∧ (∀ field v, dict.get usage field = Some v →
           ∃ d', d' ∈ dict.values (SystemState.fs_directories
                                     (gather_system_state Scenario4.readers))
                 ∧ fs_validation d' = inr ("groups", "ag-foo", field)
                 ∧ usage_quotient (FsDirectory.rbytes d') 4 = inr v)
      ∧ (∀ field d',
           d' ∈ dict.values (SystemState.fs_directories
                               (gather_system_state Scenario4.readers)) →
           fs_validation d' = inr ("groups", "ag-foo", field) →
           is_Some (dict.get usage field)).
Proof.
  split; [vm_compute; reflexivity|].
  apply (C9_usage_fold Scenario4.readers Scenario4.registry true
           Scenario4.state_after [] Scenario4.scratch_ag_foo "g-agfoo" Scenario4.ag_foo).
  - vm_compute; reflexivity.
  - vm_compute; left.
  - reflexivity.
  - reflexivity.
  - reflexivity.
  - intros d' Hd' _. vm_compute in Hd'. by apply list_elem_of_singleton in Hd'.
  - reflexivity.
  - reflexivity.
  - intros g' Hg' _. vm_compute in Hg'. by apply list_elem_of_singleton in Hg'.
Defined.

(** The claim as stated fails on the other usage fields: the group [ag-foo]
    has one terabyte of work space recorded as used before the
    synchronisation, and no [tier1_work] figure after it. *)
Lemma C9_previous_usage_is_dropped :
  used_get (HpcGroup.resources_used Scenario4.ag_foo) "tier1_work" = Some (Float.of_Z 1)
  ∧ (λ r, (λ g, used_get (HpcGroup.resources_used g) "tier1_work")
           <$> dict.get (HpcaccessState.hpc_groups (fst r)) "g-agfoo")
      <$> sync_storage_usage Scenario4.readers Scenario4.registry true
    = inr (Some None).
Proof. split; vm_compute; reflexivity. Qed.

(** The condition on the group name of the directory is needed.  The same
    directory, when it belongs to the group [hpc-ag-foo], does not pass the
    validation: without the prefix of the work groups its group name is
    [foo], not the folder name [ag-foo].  The run then leaves the usage of
    the registry group [ag-foo] empty. *)
Lemma usage_fold_needs_group_name :
  fs_validation Scenario4.scratch_hpc_ag_foo
  = inl (ValueError "name mismatch: foo /data/cephfs-1/scratch/groups/ag-foo")
  ∧ (λ r, HpcGroup.resources_used
            <$> dict.get (HpcaccessState.hpc_groups (fst r)) "g-agfoo")
      <$> sync_storage_usage Scenario4.readers_hpc_ag_foo Scenario4.registry true
    = inr (Some (UsedDict dict.empty)).
Proof. split; vm_compute; reflexivity. Qed.

(** * Further properties *)

(** ** Strings *)

Lemma has_char_app (c : ascii) (s t : string) :
  Str.has_char c (s +:+ t) = Str.has_char c s || Str.has_char c t.
Proof.
  induction s as [|a s IH]; simpl; [done|].
  rewrite IH. by rewrite orb_assoc.
Qed.

Lemma cut_sep (c : ascii) (w r : string) :
  Str.has_char c w = false → Str.cut c (w +:+ String c r) = (w, Some r).
Proof.
  induction w as [|a w IH]; simpl.
  - intros _. by rewrite decide_True.
  - intros [Ha Hw]%orb_false_elim. apply bool_decide_eq_false in Ha.
    rewrite decide_False by done. by rewrite (IH Hw).
Qed.

Lemma cut_no_sep (c : ascii) (w : string) :
  Str.has_char c w = false → Str.cut c w = (w, None).
Proof.
  induction w as [|a w IH]; simpl; [done|].
  intros [Ha Hw]%orb_false_elim. apply bool_decide_eq_false in Ha.
  rewrite decide_False by done. by rewrite (IH Hw).
Qed.

(** What [cut] returns puts the string back together. *)
Lemma cut_inv (c : ascii) (s w : string) (r : option string) :
  Str.cut c s = (w, r) →
  Str.has_char c w = false
  ∧ s = match r with Some r' => w +:+ String c r' | None => w end.
Proof.
  revert w r. induction s as [|a s IH]; simpl; intros w r.
  - by intros [= <- <-].
  - destruct (decide (a = c)) as [->|Hne].
    + by intros [= <- <-].
    + destruct (Str.cut c s) as [w' r'] eqn:Hcut. intros [= <- <-].
      destruct (IH w' r' eq_refl) as [Hw ->]. split.
      * simpl. rewrite Hw. by rewrite bool_decide_eq_false_2.
      * by destruct r'.
Qed.

Lemma join_cons (sep p : string) (ps : list string) :
  ps ≠ [] → Str.join sep (p :: ps) = p +:+ sep +:+ Str.join sep ps.
Proof. by destruct ps. Qed.

Lemma splitn_length (c : ascii) (n : nat) (s : string) :
  (1 ≤ length (Str.splitn c n s) ≤ S n)%nat.
Proof.
  revert s. induction n as [|n IH]; intros s; simpl; [lia|].
  destruct (Str.cut c s) as [w [r|]]; simpl; [|lia].
  specialize (IH r). lia.
Qed.

(** Joining what [split] with a bound returns gives the string back. *)
Lemma join_splitn (c : ascii) (n : nat) (s : string) :
  Str.join (String c "") (Str.splitn c n s) = s.
Proof.
  revert s. induction n as [|n IH]; intros s; simpl; [done|].
  destruct (Str.cut c s) as [w [r|]] eqn:Hcut.
  - apply cut_inv in Hcut as [_ ->].
    rewrite join_cons; [by rewrite IH|].
    pose proof (splitn_length c n r) as Hlen. intros Heq.
    rewrite Heq in Hlen. simpl in Hlen. lia.
  - by apply cut_inv in Hcut as [_ ->].
Qed.


Lemma string_app_cons (a : ascii) (s t : string) :
  String a s +:+ t = String a (s +:+ t).
Proof. reflexivity. Qed.

Lemma string_app_empty_r (s : string) : s +:+ "" = s.
Proof. induction s as [|a s IH]; [done|]. by rewrite string_app_cons, IH. Qed.

Lemma string_app_assoc (s t u : string) : (s +:+ t) +:+ u = s +:+ t +:+ u.
Proof. induction s as [|a s IH]; [done|]. by rewrite !string_app_cons, IH. Qed.

(** Joining a list padded with empty strings appends one separator for
    each of them. *)
Lemma join_pad (sep : string) (ps : list string) (k : nat) :
  ps ≠ [] →
  Str.join sep (ps ++ replicate k "")
  = Str.join sep ps +:+ Str.join "" (replicate k sep).
Proof.
  intros Hps. induction k as [|k IH] using nat_ind.
  - rewrite app_nil_r. change (Str.join "" (replicate 0 sep)) with "".
    by rewrite string_app_empty_r.
  - replace (replicate (S k) "") with (replicate k "" ++ [""]).
    2:{ clear. induction k; simpl; [done|]. by f_equal. }
    replace (replicate (S k) sep) with (replicate k sep ++ [sep]).
    2:{ clear. induction k; simpl; [done|]. by f_equal. }
    assert (Hsnoc : ∀ (s : string) (l : list string) (x : string), l ≠ [] →
              Str.join s (l ++ [x]) = Str.join s l +:+ s +:+ x).
    { clear. intros s l x Hl. induction l as [|a l IHl]; [done|].
      destruct l as [|b l]; [done|].
      change (a +:+ s +:+ Str.join s ((b :: l) ++ [x])
              = (a +:+ s +:+ Str.join s (b :: l)) +:+ s +:+ x).
      rewrite IHl by done. by rewrite !string_app_assoc. }
    rewrite app_assoc, Hsnoc by (by destruct ps).
    rewrite IH, string_app_assoc. f_equal.
    rewrite string_app_empty_r.
    destruct k as [|k]; [done|].
    by rewrite Hsnoc.
Qed.

(** ** GECOS strings ([models.py], [Gecos]) *)

Lemma gecos_field_of_ne (part : string) :
  part ≠ "None" → Gecos.field_of part = Some part.
Proof. intros Hne. unfold Gecos.field_of. by rewrite decide_True. Qed.

Lemma gecos_or_empty_field_of (part : string) :
  part ≠ "None" → Gecos.or_empty (Gecos.field_of part) = part.
Proof. intros Hne. by rewrite gecos_field_of_ne. Qed.

(** The five parts that [from_string] reads. *)
Lemma gecos_from_string_parts (gecos : string) :
  ∃ p0 p1 p2 p3 p4,
    Str.splitn "," 4 gecos ++ replicate (5 - length (Str.splitn "," 4 gecos)) ""
    = [p0; p1; p2; p3; p4]
    ∧ Gecos.from_string gecos
      = Gecos.mk (Gecos.field_of p0) (Gecos.field_of p1) (Gecos.field_of p2)
                 (Gecos.field_of p3) (Gecos.field_of p4).
Proof.
  unfold Gecos.from_string.
  pose proof (splitn_length "," 4 gecos) as Hlen.
  destruct (Str.splitn "," 4 gecos) as [|p0 [|p1 [|p2 [|p3 [|p4 [|p5 l]]]]]] eqn:Hparts;
    simpl in Hlen; try lia; by eexists _, _, _, _, _.
Qed.

(** X1. Encoding a record and decoding the string gives the record with
    every absent field replaced by the empty string, when none of the first
    four fields holds a comma and no field is the text [None]; encoding
    again gives the same string.  The last field may hold commas. *)
Theorem gecos_from_string_to_string (g : Gecos.t) :
  Str.has_char "," (Gecos.or_empty (Gecos.full_name g)) = false →
  Str.has_char "," (Gecos.or_empty (Gecos.office_location g)) = false →
  Str.has_char "," (Gecos.or_empty (Gecos.office_phone g)) = false →
  Str.has_char "," (Gecos.or_empty (Gecos.home_phone g)) = false →
  "None" ∉ [ Gecos.or_empty (Gecos.full_name g);
             Gecos.or_empty (Gecos.office_location g);
             Gecos.or_empty (Gecos.office_phone g);
             Gecos.or_empty (Gecos.home_phone g);
             Gecos.or_empty (Gecos.other g) ] →
  Gecos.from_string (Gecos.to_string g)
  = Gecos.mk (Some (Gecos.or_empty (Gecos.full_name g)))
             (Some (Gecos.or_empty (Gecos.office_location g)))
             (Some (Gecos.or_empty (Gecos.office_phone g)))
             (Some (Gecos.or_empty (Gecos.home_phone g)))
             (Some (Gecos.or_empty (Gecos.other g)))
  ∧ Gecos.to_string (Gecos.from_string (Gecos.to_string g)) = Gecos.to_string g.
Proof.
  intros Ha Hb Hc Hd Hnone.
  assert (Hfrom :
    Gecos.from_string (Gecos.to_string g)
    = Gecos.mk (Some (Gecos.or_empty (Gecos.full_name g)))
               (Some (Gecos.or_empty (Gecos.office_location g)))
               (Some (Gecos.or_empty (Gecos.office_phone g)))
               (Some (Gecos.or_empty (Gecos.home_phone g)))
               (Some (Gecos.or_empty (Gecos.other g)))).
  { unfold Gecos.from_string, Gecos.to_string.
    set (a := Gecos.or_empty (Gecos.full_name g)) in *.
    set (b := Gecos.or_empty (Gecos.office_location g)) in *.
    set (c := Gecos.or_empty (Gecos.office_phone g)) in *.
    set (d := Gecos.or_empty (Gecos.home_phone g)) in *.
    set (e := Gecos.or_empty (Gecos.other g)) in *.
    assert (Hsplit : Str.splitn "," 4 (Str.join "," [a; b; c; d; e]) = [a; b; c; d; e]).
    { change (Str.join "," [a; b; c; d; e])
        with (a +:+ String "," (b +:+ String "," (c +:+ String "," (d +:+ String "," e)))).
      cbn [Str.splitn].
      rewrite (cut_sep _ _ _ Ha), (cut_sep _ _ _ Hb), (cut_sep _ _ _ Hc), (cut_sep _ _ _ Hd).
      done. }
    rewrite Hsplit. cbn [length bool_decide nth].
    rewrite bool_decide_eq_false_2 by (simpl; lia).
    cbn [nth].
    rewrite !gecos_field_of_ne; [done|..];
      intros Heq; apply Hnone; rewrite <- Heq; set_solver. }
  split; [exact Hfrom|]. by rewrite Hfrom.
Qed.

Lemma gecos_from_string_to_string_witness :
  Gecos.from_string
    (Gecos.to_string (Gecos.mk (Some "Ada Example") None (Some "030-1234") None
                               (Some "room 2, floor 3")))
  = Gecos.mk (Some "Ada Example") (Some "") (Some "030-1234") (Some "")
             (Some "room 2, floor 3")
  ∧ Gecos.to_string
      (Gecos.from_string
         (Gecos.to_string (Gecos.mk (Some "Ada Example") None (Some "030-1234") None
                                    (Some "room 2, floor 3"))))
    = "Ada Example,,030-1234,,room 2, floor 3".
Proof.
  apply (gecos_from_string_to_string
           (Gecos.mk (Some "Ada Example") None (Some "030-1234") None
                     (Some "room 2, floor 3"))).
  - reflexivity.
  - reflexivity.
  - reflexivity.
  - reflexivity.
  - intros Hin. simpl in Hin.
    repeat (apply elem_of_cons in Hin as [?|Hin]; [discriminate|]).
    by apply elem_of_nil in Hin.
Defined.

(** X2. Decoding a GECOS string and encoding the record gives the string
    back, with one comma appended for each of the five fields that the
    string lacks, when none of its parts is the text [None]. *)
Theorem gecos_to_string_from_string (gecos : string) :
  "None" ∉ Str.splitn "," 4 gecos →
  Gecos.to_string (Gecos.from_string gecos)
  = gecos +:+ Str.join "" (replicate (5 - length (Str.splitn "," 4 gecos)) ",").
Proof.
  intros Hnone.
  destruct (gecos_from_string_parts gecos) as (p0 & p1 & p2 & p3 & p4 & Hparts & ->).
  assert (Hall : ∀ p, p ∈ [p0; p1; p2; p3; p4] → p ≠ "None").
  { intros p Hp ->. rewrite <- Hparts in Hp.
    apply elem_of_app in Hp as [Hp|Hp]; [done|].
    by apply elem_of_replicate in Hp as [? _]. }
  unfold Gecos.to_string. cbn [Gecos.full_name Gecos.office_location Gecos.office_phone
                                Gecos.home_phone Gecos.other].
  assert (H0 : p0 ≠ "None") by (apply Hall; repeat first [by left | right]).
  assert (H1 : p1 ≠ "None") by (apply Hall; repeat first [by left | right]).
  assert (H2 : p2 ≠ "None") by (apply Hall; repeat first [by left | right]).
  assert (H3 : p3 ≠ "None") by (apply Hall; repeat first [by left | right]).
  assert (H4 : p4 ≠ "None") by (apply Hall; repeat first [by left | right]).
  rewrite (gecos_or_empty_field_of p0 H0), (gecos_or_empty_field_of p1 H1),
    (gecos_or_empty_field_of p2 H2), (gecos_or_empty_field_of p3 H3),
    (gecos_or_empty_field_of p4 H4).
  rewrite <- Hparts, join_pad.
  - by rewrite (join_splitn "," 4 gecos).
  - pose proof (splitn_length "," 4 gecos) as Hlen. intros Heq.
    rewrite Heq in Hlen. simpl in Hlen. lia.
Qed.

Lemma gecos_to_string_from_string_witness :
  Gecos.to_string (Gecos.from_string "Ada Example,,030-1234") = "Ada Example,,030-1234,,".
Proof.
  apply (gecos_to_string_from_string "Ada Example,,030-1234").
  intros Hin. vm_compute in Hin.
  repeat (apply elem_of_cons in Hin as [?|Hin]; [discriminate|]).
  by apply elem_of_nil in Hin.
Defined.

(** ** Group and project names ([states.py], [strip_prefix]) *)

Lemma prefix_app (p s : string) : String.prefix p (p +:+ s) = true.
Proof.
  induction p as [|a p IH]; [by destruct s|].
  rewrite string_app_cons. simpl. by rewrite IH; destruct (ascii_dec a a).
Qed.

Lemma drop_length_app (p s : string) : Str.drop (String.length p) (p +:+ s) = s.
Proof. induction p as [|a p IH]; [done|]. by rewrite string_app_cons. Qed.

Lemma strip_prefix_Some (name prefix : string) :
  prefix ≠ "" →
  strip_prefix name (Some prefix)
  = if Str.startswith name prefix then Str.drop (String.length prefix) name else name.
Proof.
  intros Hne. unfold strip_prefix. simpl. unfold Str.truthy.
  by rewrite bool_decide_eq_false_2.
Qed.

(** X3. A name with a prefix in front loses exactly that prefix; a name
    that does not start with the prefix is returned as it is; without a
    prefix argument, or with the empty one, the work-group prefix or else
    the project prefix is removed. *)
Theorem strip_prefix_round_trip (name : string) :
  (∀ prefix, prefix ≠ "" → strip_prefix (prefix +:+ name) (Some prefix) = name)
  ∧ (∀ prefix, prefix ≠ "" → Str.startswith name prefix = false →
               strip_prefix name (Some prefix) = name)
  ∧ strip_prefix (POSIX_AG_PREFIX +:+ name) None = name
  ∧ strip_prefix (POSIX_PROJECT_PREFIX +:+ name) None = name
  ∧ strip_prefix name (Some "") = strip_prefix name None.
Proof.
  split_and!.
  - intros prefix Hne. rewrite strip_prefix_Some by done.
    unfold Str.startswith. by rewrite prefix_app, drop_length_app.
  - intros prefix Hne Hstart. rewrite strip_prefix_Some by done. by rewrite Hstart.
  - unfold strip_prefix, Str.startswith. cbn [from_option].
    by rewrite prefix_app, drop_length_app.
  - unfold strip_prefix, Str.startswith. cbn [from_option].
    replace (String.prefix POSIX_AG_PREFIX (POSIX_PROJECT_PREFIX +:+ name)) with false
      by reflexivity.
    by rewrite prefix_app, drop_length_app.
  - reflexivity.
Qed.

(** ** Path validation ([states.py], [fs_validation]) *)

Lemma split_nonempty (c : ascii) (s : string) : Str.split c s ≠ [].
Proof.
  destruct s as [|a s]; simpl; [done|].
  destruct (decide (a = c)); [done|]. by destruct (Str.split c s).
Qed.

Lemma join_split (c : ascii) (s : string) :
  Str.join (String c "") (Str.split c s) = s.
Proof.
  induction s as [|a s IH]; [done|]. simpl.
  destruct (decide (a = c)) as [->|Hne].
  - rewrite join_cons by apply split_nonempty. by rewrite IH.
  - destruct (Str.split c s) as [|w ws] eqn:Hsplit; [by apply split_nonempty in Hsplit|].
    rewrite <- IH. by destruct ws.
Qed.

Lemma split_parts_no_sep (c : ascii) (s w : string) :
  w ∈ Str.split c s → Str.has_char c w = false.
Proof.
  revert w. induction s as [|a s IH]; intros w; simpl.
  - by intros ->%list_elem_of_singleton.
  - destruct (decide (a = c)) as [->|Hne].
    + intros [->|Hin]%elem_of_cons; [done|by apply IH].
    + destruct (Str.split c s) as [|w' ws]; [by intros ->%list_elem_of_singleton; simpl;
        rewrite bool_decide_eq_false_2|].
      intros [->|Hin]%elem_of_cons.
      * simpl. rewrite bool_decide_eq_false_2 by done. apply IH. left.
      * apply IH. by right.
Qed.

Lemma split_no_sep (c : ascii) (s : string) :
  Str.has_char c s = false → Str.split c s = [s].
Proof.
  induction s as [|a s IH]; [done|]. simpl.
  intros [Ha Hs]%orb_false_elim. apply bool_decide_eq_false in Ha.
  rewrite decide_False by done. by rewrite (IH Hs).
Qed.

Lemma split_sep (c : ascii) (w s : string) :
  Str.has_char c w = false →
  Str.split c (w +:+ String c s) = w :: Str.split c s.
Proof.
  induction w as [|a w IH]; intros Hw.
  - change (Str.split c (String c s) = "" :: Str.split c s). simpl.
    by rewrite decide_True.
  - simpl in Hw. apply orb_false_elim in Hw as [Ha Hw].
    apply bool_decide_eq_false in Ha.
    rewrite string_app_cons. simpl. rewrite decide_False by done.
    by rewrite (IH Hw).
Qed.

Lemma join_app (sep : string) (l1 l2 : list string) :
  l1 ≠ [] → l2 ≠ [] →
  Str.join sep (l1 ++ l2) = Str.join sep l1 +:+ sep +:+ Str.join sep l2.
Proof.
  intros Hl1 Hl2. induction l1 as [|a l1 IH]; [done|].
  destruct l1 as [|b l1].
  - simpl. by destruct l2.
  - change (a +:+ sep +:+ Str.join sep ((b :: l1) ++ l2)
            = (a +:+ sep +:+ Str.join sep (b :: l1)) +:+ sep +:+ Str.join sep l2).
    rewrite IH by done. by rewrite !string_app_assoc.
Qed.

(** A match of the pattern among the components of a path. *)
Lemma re_search_components_inv (parts : list string) (tier subdir entity name : string) :
  re_search_components parts = Some (tier, subdir, entity, name) →
  ∃ pre post,
    parts = pre ++ tier :: subdir :: entity :: name :: post
    ∧ (tier = "cephfs-1" ∨ tier = "cephfs-2")
    ∧ subdir ≠ "" ∧ entity ≠ "" ∧ name ≠ "".
Proof.
  induction parts as [|t rest IH]; [done|]. simpl.
  destruct rest as [|s [|e [|n post]]]; try done.
  case_bool_decide as Hmatch.
  - intros [= <- <- <- <-]. exists [], post.
    destruct Hmatch as (Ht & Hs & He & Hn). by split_and!.
  - intros Hrest. destruct (IH Hrest) as (pre & post' & Heq & ?).
    exists (t :: pre), post'. by rewrite Heq.
Qed.

(** The same in terms of the path: the match starts at a slash and its last
    group runs up to the next slash or to the end of the path. *)
Lemma re_search_RE_PATH_inv (path tier subdir entity name : string) :
  re_search_RE_PATH path = Some (tier, subdir, entity, name) →
  (tier = "cephfs-1" ∨ tier = "cephfs-2")
  ∧ subdir ≠ "" ∧ entity ≠ "" ∧ name ≠ ""
  ∧ Str.has_char "/" subdir = false ∧ Str.has_char "/" entity = false
  ∧ Str.has_char "/" name = false
  ∧ ∃ before after,
      path = before +:+ "/" +:+ tier +:+ "/" +:+ subdir +:+ "/" +:+ entity
                    +:+ "/" +:+ name +:+ after
      ∧ (after = "" ∨ ∃ rest, after = "/" +:+ rest).
Proof.
  unfold re_search_RE_PATH. intros Hsearch.
  pose proof (join_split "/" path) as Hjoin.
  pose proof (split_parts_no_sep "/" path) as Hparts.
  destruct (Str.split "/" path) as [|c0 parts] eqn:Hsplit;
    [by apply split_nonempty in Hsplit|].
  simpl in Hsearch.
  apply re_search_components_inv in Hsearch
    as (pre & post & -> & Htier & Hs & He & Hn).
  split_and!; try done.
  - apply Hparts. right. apply elem_of_app. right. right. left.
  - apply Hparts. right. apply elem_of_app. right. right. right. left.
  - apply Hparts. right. apply elem_of_app. right. right. right. right. left.
  - exists (Str.join "/" (c0 :: pre)),
           (match post with [] => "" | _ => "/" +:+ Str.join "/" post end).
    split; [|destruct post; [by left|right; by eexists]].
    rewrite <- Hjoin.
    change (c0 :: pre ++ tier :: subdir :: entity :: name :: post)
      with ((c0 :: pre) ++ [tier; subdir; entity] ++ name :: post).
    rewrite join_app by done.
    rewrite join_app by done.
    f_equal. f_equal.
    change (Str.join "/" [tier; subdir; entity])
      with (tier +:+ "/" +:+ subdir +:+ "/" +:+ entity).
    rewrite !string_app_assoc. do 7 f_equal.
    destruct post as [|p post]; [by rewrite string_app_empty_r|done].
Qed.

Lemma tier_mapping_get_elem (key : string * string * string) (resource : string) :
  tier_mapping_get key = Some resource ↔ (key, resource) ∈ CEPHFS_TIER_MAPPING.
Proof.
  split.
  - unfold tier_mapping_get. intros Hget.
    destruct (find _ _) as [[k r]|] eqn:Hfind; [|done].
    simpl in Hget. injection Hget as ->.
    apply find_some in Hfind as [Hin Hk]. apply bool_decide_eq_true in Hk.
    simpl in Hk. subst k. by apply list_elem_of_In.
  - intros Hin. unfold CEPHFS_TIER_MAPPING in Hin.
    repeat (apply elem_of_cons in Hin as [Heq|Hin]; [by injection Heq as -> ->|]).
    by apply elem_of_nil in Hin.
Qed.

(** The name that a directory must carry for a kind of entity. *)
Lemma fs_validation_inv (fs : FsDirectory.t) (entity name resource : string) :
  fs_validation fs = inr (entity, name, resource) →
  ∃ tier subdir,
    re_search_RE_PATH (FsDirectory.path fs) = Some (tier, subdir, entity, name)
    ∧ entity ∈ ENTITIES
    ∧ tier_mapping_get (tier, subdir, entity) = Some resource
    ∧ (entity = "users" → FsDirectory.owner_name fs = name)
    ∧ (entity = "groups" →
       strip_prefix (FsDirectory.group_name fs) (Some POSIX_AG_PREFIX) = name)
    ∧ (entity = "projects" →
       strip_prefix (FsDirectory.group_name fs) (Some POSIX_PROJECT_PREFIX) = name).
Proof.
  unfold fs_validation.
  destruct (re_search_RE_PATH (FsDirectory.path fs)) as [[[[tier subdir] entity'] folder]|];
    [|done].
  case_bool_decide as Hentity; [|done]. simpl.
  unfold ENTITIES in Hentity.
  destruct (decide (entity' = "users")) as [->|Husers].
  - simpl. case_bool_decide as Hname; [|done]. simpl.
    destruct (tier_mapping_get _) as [r|] eqn:Hget; [|done].
    destruct (Str.truthy r); [|done].
    intros [= <- <- <-]. exists tier, subdir. split_and!; try done.
  - apply elem_of_cons in Hentity as [->|Hentity]; [done|].
    apply elem_of_cons in Hentity as [->|Hentity].
    + simpl. case_bool_decide as Hname; [|done]. simpl.
      destruct (tier_mapping_get _) as [r|] eqn:Hget; [|done].
      destruct (Str.truthy r); [|done].
      intros [= <- <- <-]. exists tier, subdir. split_and!; try done.
      set_solver.
    + apply list_elem_of_singleton in Hentity as ->.
      simpl. case_bool_decide as Hname; [|done]. simpl.
      destruct (tier_mapping_get _) as [r|] eqn:Hget; [|done].
      destruct (Str.truthy r); [|done].
      intros [= <- <- <-]. exists tier, subdir. split_and!; try done.
      set_solver.
Qed.

(** X4. The validation of a path raises nothing but [ValueError], the one
    exception that its callers catch. *)
Theorem fs_validation_raises_only_ValueError (fs : FsDirectory.t) (e : exn) :
  fs_validation fs = inl e → ∃ msg, e = ValueError msg.
Proof.
  unfold fs_validation.
  destruct (re_search_RE_PATH (FsDirectory.path fs)) as [[[[tier subdir] entity'] folder]|];
    [|intros [= <-]; by eexists].
  case_bool_decide as Hentity; [|intros [= <-]; by eexists]. simpl.
  unfold ENTITIES in Hentity.
  assert (Hcases : entity' = "users" ∨ entity' = "groups" ∨ entity' = "projects").
  { apply elem_of_cons in Hentity as [->|Hentity]; [by left|].
    apply elem_of_cons in Hentity as [->|Hentity]; [right; by left|].
    apply list_elem_of_singleton in Hentity as ->. right; by right. }
  destruct Hcases as [-> | [-> | ->]]; simpl;
    (case_bool_decide; [|intros [= <-]; by eexists]); simpl;
    (destruct (tier_mapping_get _) as [r|]; [|intros [= <-]; by eexists]);
    (destruct (Str.truthy r); [done|intros [= <-]; by eexists]).
Qed.

Lemma fs_validation_raises_only_ValueError_witness :
  ∃ msg,
    ValueError "name mismatch: foo /data/cephfs-1/work/groups/ag-foo" = ValueError msg.
Proof.
  apply (fs_validation_raises_only_ValueError
           (FsDirectory.mk "/data/cephfs-1/work/groups/ag-foo" "ada" 5000 "hpc-ag-foo"
              2000 "drwxrwS---" None None None None)).
  vm_compute. reflexivity.
Defined.

(** X5. What a successful validation returns: the path holds
    [/tier/subdir/entity/name], with [name] running up to the next slash or
    the end; the three path components are a key of the tier table and the
    resource is its entry; and [name] is the owner of the directory for a
    user directory, and its group without the prefix of the entity kind
    otherwise. *)
Theorem fs_validation_sound (fs : FsDirectory.t) (entity name resource : string) :
  fs_validation fs = inr (entity, name, resource) →
  ∃ tier subdir,
    ((tier, subdir, entity), resource) ∈ CEPHFS_TIER_MAPPING
    ∧ name ≠ "" ∧ Str.has_char "/" name = false
    ∧ (∃ before after,
         FsDirectory.path fs
         = before +:+ "/" +:+ tier +:+ "/" +:+ subdir +:+ "/" +:+ entity
                  +:+ "/" +:+ name +:+ after
         ∧ (after = "" ∨ ∃ rest, after = "/" +:+ rest))
    ∧ (entity = "users" → FsDirectory.owner_name fs = name ∧ resource = TIER_USER_HOME)
    ∧ (entity = "groups" →
       strip_prefix (FsDirectory.group_name fs) (Some POSIX_AG_PREFIX) = name
       ∧ resource ≠ TIER_USER_HOME)
    ∧ (entity = "projects" →
       strip_prefix (FsDirectory.group_name fs) (Some POSIX_PROJECT_PREFIX) = name
       ∧ resource ≠ TIER_USER_HOME).
Proof.
  intros Hvalid.
  apply fs_validation_inv in Hvalid
    as (tier & subdir & Hsearch & Hentity & Hget & Husers & Hgroups & Hprojects).
  apply re_search_RE_PATH_inv in Hsearch
    as (_ & _ & _ & Hname & _ & _ & Hslash & Hpath).
  apply tier_mapping_get_elem in Hget.
  exists tier, subdir. split_and!; try done.
  - intros ->. split; [by apply Husers|].
    unfold CEPHFS_TIER_MAPPING in Hget.
    repeat (apply elem_of_cons in Hget as [Heq|Hget]; [by simplify_eq|]).
    by apply elem_of_nil in Hget.
  - intros ->. split; [by apply Hgroups|].
    unfold CEPHFS_TIER_MAPPING in Hget.
    repeat (apply elem_of_cons in Hget as [Heq|Hget]; [by simplify_eq|]).
    by apply elem_of_nil in Hget.
  - intros ->. split; [by apply Hprojects|].
    unfold CEPHFS_TIER_MAPPING in Hget.
    repeat (apply elem_of_cons in Hget as [Heq|Hget]; [by simplify_eq|]).
    by apply elem_of_nil in Hget.
Qed.

Lemma fs_validation_sound_witness :
  ∃ tier subdir,
    ((tier, subdir, "groups"), "tier1_scratch") ∈ CEPHFS_TIER_MAPPING
    ∧ "ag-foo" ≠ "" ∧ Str.has_char "/" "ag-foo" = false
    ∧ (∃ before after,
         FsDirectory.path Scenario4.scratch_ag_foo
         = before +:+ "/" +:+ tier +:+ "/" +:+ subdir +:+ "/" +:+ "groups"
                  +:+ "/" +:+ "ag-foo" +:+ after
         ∧ (after = "" ∨ ∃ rest, after = "/" +:+ rest))
    ∧ ("groups" = "users" →
       FsDirectory.owner_name Scenario4.scratch_ag_foo = "ag-foo"
       ∧ "tier1_scratch" = TIER_USER_HOME)
    ∧ ("groups" = "groups" →
       strip_prefix (FsDirectory.group_name Scenario4.scratch_ag_foo) (Some POSIX_AG_PREFIX)
       = "ag-foo"
       ∧ "tier1_scratch" ≠ TIER_USER_HOME)
    ∧ ("groups" = "projects" →
       strip_prefix (FsDirectory.group_name Scenario4.scratch_ag_foo)
                    (Some POSIX_PROJECT_PREFIX) = "ag-foo"
       ∧ "tier1_scratch" ≠ TIER_USER_HOME).
Proof.
  apply (fs_validation_sound Scenario4.scratch_ag_foo "groups" "ag-foo" "tier1_scratch").
  vm_compute. reflexivity.
Defined.

Lemma tier_mapping_components (tier subdir entity resource : string) :
  ((tier, subdir, entity), resource) ∈ CEPHFS_TIER_MAPPING →
  (tier = "cephfs-1" ∨ tier = "cephfs-2")
  ∧ Str.has_char "/" tier = false
  ∧ subdir ≠ "" ∧ Str.has_char "/" subdir = false
  ∧ (entity = "users" ∨ entity = "groups" ∨ entity = "projects")
  ∧ Str.truthy resource = true.
Proof.
  unfold CEPHFS_TIER_MAPPING. intros Hin.
  repeat (apply elem_of_cons in Hin as [Heq|Hin];
          [injection Heq as -> -> -> ->; split_and!; try done;
           first [by left | by right | right; by left | right; by right]|]).
  by apply elem_of_nil in Hin.
Qed.

Lemma re_search_components_data (tier subdir entity name : string) :
  (tier = "cephfs-1" ∨ tier = "cephfs-2") → subdir ≠ "" → entity ≠ "" → name ≠ "" →
  re_search_components ["data"; tier; subdir; entity; name]
  = Some (tier, subdir, entity, name).
Proof.
  intros Htier Hs He Hn. simpl. by rewrite bool_decide_eq_true_2.
Qed.

(** X6. A directory at [/data/tier/subdir/entity/name], where the three
    components are a key of the tier table and [name] is a single path
    component, passes the validation when it carries that name: as its
    owner for a user directory, as its group up to the prefix of the entity
    kind otherwise.  The result is the entity kind, the name and the entry
    of the table. *)
Theorem fs_validation_accepts (fs : FsDirectory.t)
    (tier subdir entity name resource : string) :
  ((tier, subdir, entity), resource) ∈ CEPHFS_TIER_MAPPING →
  name ≠ "" → Str.has_char "/" name = false →
  FsDirectory.path fs
  = "/data/" +:+ tier +:+ "/" +:+ subdir +:+ "/" +:+ entity +:+ "/" +:+ name →
  (entity = "users" → FsDirectory.owner_name fs = name) →
  (entity = "groups" →
   strip_prefix (FsDirectory.group_name fs) (Some POSIX_AG_PREFIX) = name) →
  (entity = "projects" →
   strip_prefix (FsDirectory.group_name fs) (Some POSIX_PROJECT_PREFIX) = name) →
  fs_validation fs = inr (entity, name, resource).
Proof.
  intros Hin Hname Hslash Hpath Husers Hgroups Hprojects.
  pose proof (proj2 (tier_mapping_get_elem _ _) Hin) as Hget.
  apply tier_mapping_components in Hin as (Htier & Htslash & Hs & Hsslash & Hentity & Hres).
  assert (Heslash : Str.has_char "/" entity = false)
    by (by destruct Hentity as [-> | [-> | ->]]).
  assert (He : entity ≠ "") by (by destruct Hentity as [-> | [-> | ->]]).
  assert (Hsearch : re_search_RE_PATH (FsDirectory.path fs)
                    = Some (tier, subdir, entity, name)).
  { unfold re_search_RE_PATH. rewrite Hpath.
    change ("/data/" +:+ tier +:+ "/" +:+ subdir +:+ "/" +:+ entity +:+ "/" +:+ name)
      with ("" +:+ String "/"
              ("data" +:+ String "/"
                 (tier +:+ String "/"
                    (subdir +:+ String "/" (entity +:+ String "/" name))))).
    rewrite (split_sep "/" ""), (split_sep "/" "data"), (split_sep "/" tier),
      (split_sep "/" subdir), (split_sep "/" entity), (split_no_sep "/" name) by done.
    by apply re_search_components_data. }
  unfold fs_validation. rewrite Hsearch.
  rewrite bool_decide_eq_true_2
    by (unfold ENTITIES; destruct Hentity as [-> | [-> | ->]];
        repeat first [by left | right]).
  cbn [negb].
  destruct Hentity as [-> | [-> | ->]].
  - rewrite decide_True by done. rewrite (Husers eq_refl). simpl.
    rewrite bool_decide_eq_true_2 by done. simpl. by rewrite Hget, Hres.
  - rewrite decide_False by done. simpl. rewrite (Hgroups eq_refl).
    rewrite bool_decide_eq_true_2 by done. simpl. by rewrite Hget, Hres.
  - rewrite decide_False by done. simpl. rewrite (Hprojects eq_refl).
    rewrite bool_decide_eq_true_2 by done. simpl. by rewrite Hget, Hres.
Qed.

Lemma fs_validation_accepts_witness :
  fs_validation
    (FsDirectory.mk "/data/cephfs-2/mirrored/projects/atlas" "ada" 5000 "hpc-prj-atlas"
       3000 "drwxrwS---" (Some 4096) (Some 1) None None)
  = inr ("projects", "atlas", "tier2_mirrored").
Proof.
  apply (fs_validation_accepts _ "cephfs-2" "mirrored" "projects" "atlas" "tier2_mirrored").
  - unfold CEPHFS_TIER_MAPPING. repeat first [by left | right].
  - done.
  - reflexivity.
  - reflexivity.
  - discriminate.
  - discriminate.
  - intros _. reflexivity.
Defined.

(** ** State comparison: the operations of a run *)

Lemma elem_of_elements_bind {B : Type} (X : gset string) (f : string → list B) (y : B) :
  y ∈ elements X ≫= f ↔ ∃ k, k ∈ X ∧ y ∈ f k.
Proof.
  rewrite list_elem_of_bind. split.
  - intros (k & Hy & Hk%elem_of_elements). by exists k.
  - intros (k & Hk & Hy). exists k. split; [done|]. by apply elem_of_elements.
Qed.

Lemma bind_length_filter {A B : Type} (P : A → Prop) `{∀ x, Decision (P x)}
    (f : A → list B) (l : list A) :
  (∀ x, x ∈ l → length (f x) = if decide (P x) then 1%nat else 0%nat) →
  length (l ≫= f) = length (filter P l).
Proof.
  induction l as [|a l IH]; intros Hf; [done|].
  rewrite bind_cons, length_app, filter_cons.
  rewrite (Hf a) by left. rewrite IH by (intros x Hx; apply Hf; by right).
  by destruct (decide (P a)).
Qed.

Lemma bind_length_ones {A B : Type} (f : A → list B) (l : list A) :
  (∀ x, x ∈ l → length (f x) = 1%nat) → length (l ≫= f) = length l.
Proof.
  induction l as [|a l IH]; intros Hf; [done|].
  rewrite bind_cons, length_app. rewrite (Hf a) by left.
  rewrite IH by (intros x Hx; apply Hf; by right). done.
Qed.

Lemma dict_key_set_not_get {V : Type} (d : dict.t V) (k : string) :
  k ∉ dict.key_set d ↔ dict.get d k = None.
Proof.
  rewrite dict_key_set_get. split.
  - intros Hn. destruct (dict.get d k) eqn:Hget; [|done]. exfalso. apply Hn. by eexists.
  - intros -> [? ?]. done.
Qed.

Lemma elements_gset_length (X : gset string) : length (elements X) = size X.
Proof. reflexivity. Qed.

(** *** Dumps of groups and users *)

Lemma group_dump_eqb_true (s d : LdapGroup.t) :
  dict.eqb (LdapGroup.model_dump s) (LdapGroup.model_dump d) = true ↔ s = d.
Proof.
  split; [|intros ->; apply dict_eqb_refl].
  unfold dict.eqb. rewrite forallb_forall. intros Hall.
  assert (∀ k, k ∈ dict.keys (LdapGroup.model_dump s) →
               dict.get (LdapGroup.model_dump s) k
               = dict.get (LdapGroup.model_dump d) k) as Hget.
  { intros k Hk. specialize (Hall k). rewrite bool_decide_eq_true in Hall.
    apply Hall, in_app_iff. left. by apply list_elem_of_In. }
  destruct s as [cn1 dn1 gid1 de1 ow1 dl1 mu1], d as [cn2 dn2 gid2 de2 ow2 dl2 mu2].
  pose proof (Hget "cn" ltac:(repeat first [by left | right])) as H1.
  change (Some (VStr cn1) = Some (VStr cn2)) in H1.
  pose proof (Hget "dn" ltac:(repeat first [by left | right])) as H2.
  change (Some (VStr dn1) = Some (VStr dn2)) in H2.
  pose proof (Hget "gid_number" ltac:(repeat first [by left | right])) as H3.
  change (Some (VInt gid1) = Some (VInt gid2)) in H3.
  pose proof (Hget "description" ltac:(repeat first [by left | right])) as H4.
  change (Some (VOptStr de1) = Some (VOptStr de2)) in H4.
  pose proof (Hget "owner_dn" ltac:(repeat first [by left | right])) as H5.
  change (Some (VOptStr ow1) = Some (VOptStr ow2)) in H5.
  pose proof (Hget "delegate_dns" ltac:(repeat first [by left | right])) as H6.
  change (Some (VList dl1) = Some (VList dl2)) in H6.
  pose proof (Hget "member_uids" ltac:(repeat first [by left | right])) as H7.
  change (Some (VList mu1) = Some (VList mu2)) in H7.
  clear Hall Hget.
  assert (∀ a b : option string, VOptStr a = VOptStr b → a = b) as Hopt.
  { intros [a|] [b|]; cbn; congruence. }
  simplify_eq. f_equal; by apply Hopt.
Qed.

Lemma user_dump_eqb_true (s d : LdapUser.t) :
  dict.eqb (LdapUser.model_dump s) (LdapUser.model_dump d) = true ↔ s = d.
Proof.
  split; [|intros ->; apply dict_eqb_refl].
  unfold dict.eqb. rewrite forallb_forall. intros Hall.
  assert (∀ k, k ∈ dict.keys (LdapUser.model_dump s) →
               dict.get (LdapUser.model_dump s) k
               = dict.get (LdapUser.model_dump d) k) as Hget.
  { intros k Hk. specialize (Hall k). rewrite bool_decide_eq_true in Hall.
    apply Hall, in_app_iff. left. by apply list_elem_of_In. }
  destruct s as [cn1 dn1 uid1 ma1 sn1 gn1 un1 gid1 hd1 ls1 ge1 sk1],
           d as [cn2 dn2 uid2 ma2 sn2 gn2 un2 gid2 hd2 ls2 ge2 sk2].
  pose proof (Hget "cn" ltac:(repeat first [by left | right])) as H1.
  change (Some (VStr cn1) = Some (VStr cn2)) in H1.
  pose proof (Hget "dn" ltac:(repeat first [by left | right])) as H2.
  change (Some (VStr dn1) = Some (VStr dn2)) in H2.
  pose proof (Hget "uid" ltac:(repeat first [by left | right])) as H3.
  change (Some (VStr uid1) = Some (VStr uid2)) in H3.
  pose proof (Hget "mail" ltac:(repeat first [by left | right])) as H4.
  change (Some (VOptStr ma1) = Some (VOptStr ma2)) in H4.
  pose proof (Hget "sn" ltac:(repeat first [by left | right])) as H5.
  change (Some (VOptStr sn1) = Some (VOptStr sn2)) in H5.
  pose proof (Hget "given_name" ltac:(repeat first [by left | right])) as H6.
  change (Some (VOptStr gn1) = Some (VOptStr gn2)) in H6.
  pose proof (Hget "uid_number" ltac:(repeat first [by left | right])) as H7.
  change (Some (VInt un1) = Some (VInt un2)) in H7.
  pose proof (Hget "gid_number" ltac:(repeat first [by left | right])) as H8.
  change (Some (VOptInt gid1) = Some (VOptInt gid2)) in H8.
  pose proof (Hget "home_directory" ltac:(repeat first [by left | right])) as H9.
  change (Some (VStr hd1) = Some (VStr hd2)) in H9.
  pose proof (Hget "login_shell" ltac:(repeat first [by left | right])) as H10.
  change (Some (VStr ls1) = Some (VStr ls2)) in H10.
  pose proof (Hget "gecos" ltac:(repeat first [by left | right])) as H11.
  change (Some (from_option Gecos.model_dump VNone ge1)
          = Some (from_option Gecos.model_dump VNone ge2)) in H11.
  pose proof (Hget "ssh_public_key" ltac:(repeat first [by left | right])) as H12.
  change (Some (VList sk1) = Some (VList sk2)) in H12.
  clear Hall Hget.
  assert (∀ a b : option string, VOptStr a = VOptStr b → a = b) as Hopt.
  { intros [a|] [b|]; cbn; congruence. }
  assert (∀ a b : option Z, VOptInt a = VOptInt b → a = b) as Hint.
  { intros [a|] [b|]; cbn; congruence. }
  assert (ge1 = ge2) as Hgecos.
  { injection H11 as H11. destruct ge1 as [[a1 b1 c1 d1 e1]|], ge2 as [[a2 b2 c2 d2 e2]|];
      cbv [from_option Gecos.model_dump Gecos.full_name Gecos.office_location
           Gecos.office_phone Gecos.home_phone Gecos.other] in H11; congruence. }
  simplify_eq. f_equal; first [by apply Hopt | by apply Hint].
Qed.

(** *** The diff of two dumps *)

Lemma diff_loop_get_gen (keys : list string) (src_dict dst_dict acc : dict.t Value)
    (key : string) :
  dict.get
    (fold_left
       (λ diff key,
          if decide (dump_get src_dict key ≠ dump_get dst_dict key)
          then dict.set diff key (dump_get dst_dict key)
          else diff)
       keys acc) key
  = if decide (key ∈ keys ∧ dump_get src_dict key ≠ dump_get dst_dict key)
    then Some (dump_get dst_dict key)
    else dict.get acc key.
Proof.
  revert acc. induction keys as [|k keys IH]; intros acc.
  - cbn [fold_left]. destruct (decide _) as [[?%elem_of_nil _]|]; done.
  - cbn [fold_left]. rewrite IH. clear IH.
    destruct (decide (key ∈ keys ∧ dump_get src_dict key ≠ dump_get dst_dict key))
      as [[Hin Hne]|Hn].
    + rewrite decide_True; [done|]. split; [by right|done].
    + destruct (decide (dump_get src_dict k ≠ dump_get dst_dict k)) as [Hk|Hk].
      * destruct (decide (k = key)) as [->|Hkey].
        -- rewrite dict_get_set_eq. rewrite decide_True; [done|]. split; [left|done].
        -- rewrite dict_get_set_ne by done. rewrite decide_False; [done|].
           intros [[->|Hin]%elem_of_cons Hne]; [done|]. by apply Hn.
      * rewrite decide_False; [done|].
        intros [[->|Hin]%elem_of_cons Hne]; [done|]. by apply Hn.
Qed.

Lemma diff_loop_get (keys : list string) (src_dict dst_dict : dict.t Value) (key : string) :
  dict.get (diff_loop keys src_dict dst_dict) key
  = if decide (key ∈ keys ∧ dump_get src_dict key ≠ dump_get dst_dict key)
    then Some (dump_get dst_dict key)
    else None.
Proof. unfold diff_loop. by rewrite diff_loop_get_gen. Qed.

Lemma dump_get_not_key (d : dict.t Value) (key : string) :
  key ∉ dict.key_set d → dump_get d key = VNone.
Proof. intros Hn%dict_key_set_not_get. unfold dump_get. by rewrite Hn. Qed.

(** X7. The diff of an UPDATE operation on a user or on a group holds a
    field exactly when its dumped value differs between the current and the
    desired entity, and holds the desired value for it. *)
Theorem update_diff_holds_changed_fields (src_dict dst_dict : dict.t Value) (key : string) :
  dict.get
    (diff_loop (elements (dict.key_set src_dict ∪ dict.key_set dst_dict))
               src_dict dst_dict) key
  = if decide (dump_get src_dict key ≠ dump_get dst_dict key)
    then Some (dump_get dst_dict key)
    else None.
Proof.
  rewrite diff_loop_get.
  destruct (decide (dump_get src_dict key ≠ dump_get dst_dict key)) as [Hne|He].
  - rewrite decide_True; [done|]. split; [|done].
    apply elem_of_elements.
    destruct (decide (key ∈ dict.key_set src_dict)) as [?|Hs];
      [apply elem_of_union; by left|].
    destruct (decide (key ∈ dict.key_set dst_dict)) as [?|Hd];
      [apply elem_of_union; by right|].
    exfalso. apply Hne. by rewrite !dump_get_not_key.
  - rewrite decide_False; [done|]. by intros [_ ?].
Qed.

(** *** Groups *)

Lemma group_update_op_differ (src dst : dict.t LdapGroup.t) (name : string)
    (src_group dst_group : LdapGroup.t) :
  dict.get src name = Some src_group → dict.get dst name = Some dst_group →
  group_update_op src dst name
  = if decide (src_group = dst_group) then []
    else [LdapGroupOp.mk UPDATE src_group
            (diff_loop
               (elements (dict.key_set (LdapGroup.model_dump src_group)
                          ∪ dict.key_set (LdapGroup.model_dump dst_group)))
               (LdapGroup.model_dump src_group) (LdapGroup.model_dump dst_group))].
Proof.
  intros Hs Hd. unfold group_update_op. rewrite Hs, Hd. cbv zeta.
  destruct (decide (src_group = dst_group)) as [->|Hne].
  - by rewrite dict_eqb_refl.
  - destruct (dict.eqb _ _) eqn:Heq; [|done].
    by apply group_dump_eqb_true in Heq.
Qed.

(** X8. The group comparison never fails.  Its result holds the DISABLE
    operation on the current group for every name only in the current
    state, the CREATE operation carrying the desired group for every name
    only in the desired state, the UPDATE operation on the current group for
    every common name whose two groups differ, and nothing else; and it holds
    as many operations as there are such names. *)
Theorem compare_ldap_groups_operations (src dst : SystemState.t) :
  ∃ ops,
    TargetStateComparison._compare_ldap_groups (TargetStateComparison.mk src dst) = inr ops
    ∧ (∀ op, op ∈ ops ↔
         (∃ name group,
            dict.get (SystemState.ldap_groups src) name = Some group
            ∧ dict.get (SystemState.ldap_groups dst) name = None
            ∧ op = LdapGroupOp.mk DISABLE group dict.empty)
         ∨ (∃ name group,
              dict.get (SystemState.ldap_groups src) name = None
              ∧ dict.get (SystemState.ldap_groups dst) name = Some group
              ∧ op = LdapGroupOp.mk CREATE group dict.empty)
         ∨ (∃ name src_group dst_group,
              dict.get (SystemState.ldap_groups src) name = Some src_group
              ∧ dict.get (SystemState.ldap_groups dst) name = Some dst_group
              ∧ src_group ≠ dst_group
              ∧ op = LdapGroupOp.mk UPDATE src_group
                       (diff_loop
                          (elements (dict.key_set (LdapGroup.model_dump src_group)
                                     ∪ dict.key_set (LdapGroup.model_dump dst_group)))
                          (LdapGroup.model_dump src_group)
                          (LdapGroup.model_dump dst_group))))
    ∧ length ops
      = (size (dict.key_set (SystemState.ldap_groups src)
               ∖ dict.key_set (SystemState.ldap_groups dst))
         + size (dict.key_set (SystemState.ldap_groups dst)
                 ∖ dict.key_set (SystemState.ldap_groups src))
         + length (filter (λ name, dict.get (SystemState.ldap_groups src) name
                                   ≠ dict.get (SystemState.ldap_groups dst) name)
                          (elements (dict.key_set (SystemState.ldap_groups src)
                                     ∩ dict.key_set (SystemState.ldap_groups dst)))))%nat.
Proof.
  eexists. split; [apply compare_ldap_groups_eq|].
  set (S := SystemState.ldap_groups src). set (D := SystemState.ldap_groups dst).
  split.
  - intros op. rewrite !elem_of_app, !elem_of_elements_bind. split.
    + intros [(k & Hk & Hop) | [(k & Hk & Hop) | (k & Hk & Hop)]].
      * apply elem_of_difference in Hk as [[g Hg]%dict_key_set_get Hd%dict_key_set_not_get].
        unfold group_disable_op in Hop. rewrite Hg in Hop.
        apply list_elem_of_singleton in Hop as ->. left. by exists k, g.
      * apply elem_of_difference in Hk as [[g Hg]%dict_key_set_get Hs%dict_key_set_not_get].
        unfold group_create_op in Hop. rewrite Hg in Hop.
        apply list_elem_of_singleton in Hop as ->. right; left. by exists k, g.
      * apply elem_of_intersection in Hk as [[s Hs]%dict_key_set_get [d Hd]%dict_key_set_get].
        rewrite (group_update_op_differ _ _ _ _ _ Hs Hd) in Hop.
        destruct (decide (s = d)) as [|Hne]; [by apply elem_of_nil in Hop|].
        apply list_elem_of_singleton in Hop as ->. right; right. by exists k, s, d.
    + intros [(k & g & Hs & Hd & ->) | [(k & g & Hs & Hd & ->) | (k & s & d & Hs & Hd & Hne & ->)]].
      * left. exists k. split.
        -- apply elem_of_difference. split; [apply dict_key_set_get; by eexists|].
           by apply dict_key_set_not_get.
        -- unfold group_disable_op. fold S. rewrite Hs. left.
      * right; left. exists k. split.
        -- apply elem_of_difference. split; [apply dict_key_set_get; by eexists|].
           by apply dict_key_set_not_get.
        -- unfold group_create_op. fold D. rewrite Hd. left.
      * right; right. exists k. split.
        -- apply elem_of_intersection. split; apply dict_key_set_get; by eexists.
        -- rewrite (group_update_op_differ _ _ _ _ _ Hs Hd).
           rewrite decide_False by done. left.
  - rewrite !length_app, <- !elements_gset_length.
    rewrite (bind_length_ones (group_disable_op S)).
    2:{ intros k [[g Hg]%dict_key_set_get _]%elem_of_elements%elem_of_difference.
        unfold group_disable_op. by rewrite Hg. }
    rewrite (bind_length_ones (group_create_op D)).
    2:{ intros k [[g Hg]%dict_key_set_get _]%elem_of_elements%elem_of_difference.
        unfold group_create_op. by rewrite Hg. }
    rewrite (bind_length_filter (λ name, dict.get S name ≠ dict.get D name)
               (group_update_op S D)).
    2:{ intros k [[s Hs]%dict_key_set_get [d Hd]%dict_key_set_get]
                 %elem_of_elements%elem_of_intersection.
        rewrite (group_update_op_differ _ _ _ _ _ Hs Hd). rewrite Hs, Hd.
        destruct (decide (s = d)) as [->|Hne].
        - by rewrite decide_False by (intros Hn; by apply Hn).
        - rewrite decide_True; [done|]. congruence. }
    lia.
Qed.

(** *** Directories *)

Lemma fs_update_op_differ (src dst : dict.t FsDirectory.t) (path : string)
    (src_directory dst_directory : FsDirectory.t) :
  dict.get src path = Some src_directory → dict.get dst path = Some dst_directory →
  fs_update_op src dst path
  = if decide (src_directory = dst_directory) then []
    else [FsDirectoryOp.mk UPDATE src_directory
            (diff_loop fs_diff_keys (FsDirectory.model_dump src_directory)
                       (FsDirectory.model_dump dst_directory))].
Proof.
  intros Hs Hd. unfold fs_update_op. rewrite Hs, Hd. cbv zeta.
  destruct (decide (src_directory = dst_directory)) as [->|Hne].
  - by rewrite dict_eqb_refl.
  - destruct (dict.eqb _ _) eqn:Heq; [|done].
    by apply fs_dump_eqb_true in Heq.
Qed.

(** X9. The directory comparison never fails.  Its result holds the
    DISABLE operation on the current directory for every path only in the
    current state, the CREATE operation carrying the desired directory for
    every path only in the desired state, the UPDATE operation on the
    current directory for every common path whose two directories differ,
    and nothing else.  The diff of an UPDATE holds the desired owner uid,
    permissions, byte quota and file quota, each when it differs from the
    current one, in this order, and no other field. *)
Theorem compare_fs_directories_operations (src dst : SystemState.t) :
  ∃ ops,
    TargetStateComparison._compare_fs_directories (TargetStateComparison.mk src dst)
    = inr ops
    ∧ (∀ op, op ∈ ops ↔
         (∃ path directory,
            dict.get (SystemState.fs_directories src) path = Some directory
            ∧ dict.get (SystemState.fs_directories dst) path = None
            ∧ op = FsDirectoryOp.mk DISABLE directory dict.empty)
         ∨ (∃ path directory,
              dict.get (SystemState.fs_directories src) path = None
              ∧ dict.get (SystemState.fs_directories dst) path = Some directory
              ∧ op = FsDirectoryOp.mk CREATE directory dict.empty)
         ∨ (∃ path s d,
              dict.get (SystemState.fs_directories src) path = Some s
              ∧ dict.get (SystemState.fs_directories dst) path = Some d
              ∧ s ≠ d
              ∧ op = FsDirectoryOp.mk UPDATE s
                       ((if decide (FsDirectory.owner_uid s = FsDirectory.owner_uid d)
                         then [] else [("owner_uid", VInt (FsDirectory.owner_uid d))])
                        ++ (if decide (FsDirectory.perms s = FsDirectory.perms d)
                            then [] else [("perms", VStr (FsDirectory.perms d))])
                        ++ (if decide (FsDirectory.quota_bytes s = FsDirectory.quota_bytes d)
                            then []
                            else [("quota_bytes", VOptInt (FsDirectory.quota_bytes d))])
                        ++ (if decide (FsDirectory.quota_files s = FsDirectory.quota_files d)
                            then []
                            else [("quota_files", VOptInt (FsDirectory.quota_files d))]))))
    ∧ length ops
      = (size (dict.key_set (SystemState.fs_directories src)
               ∖ dict.key_set (SystemState.fs_directories dst))
         + size (dict.key_set (SystemState.fs_directories dst)
                 ∖ dict.key_set (SystemState.fs_directories src))
         + length (filter (λ path, dict.get (SystemState.fs_directories src) path
                                   ≠ dict.get (SystemState.fs_directories dst) path)
                          (elements (dict.key_set (SystemState.fs_directories src)
                                     ∩ dict.key_set (SystemState.fs_directories dst)))))%nat.
Proof.
  eexists. split; [apply compare_fs_directories_eq|].
  set (S := SystemState.fs_directories src). set (D := SystemState.fs_directories dst).
  split.
  - intros op. rewrite !elem_of_app, !elem_of_elements_bind. split.
    + intros [(k & Hk & Hop) | [(k & Hk & Hop) | (k & Hk & Hop)]].
      * apply elem_of_difference in Hk as [[g Hg]%dict_key_set_get Hd%dict_key_set_not_get].
        unfold fs_disable_op in Hop. rewrite Hg in Hop.
        apply list_elem_of_singleton in Hop as ->. left. by exists k, g.
      * apply elem_of_difference in Hk as [[g Hg]%dict_key_set_get Hs%dict_key_set_not_get].
        unfold fs_create_op in Hop. rewrite Hg in Hop.
        apply list_elem_of_singleton in Hop as ->. right; left. by exists k, g.
      * apply elem_of_intersection in Hk as [[s Hs]%dict_key_set_get [d Hd]%dict_key_set_get].
        rewrite (fs_update_op_differ _ _ _ _ _ Hs Hd) in Hop.
        destruct (decide (s = d)) as [|Hne]; [by apply elem_of_nil in Hop|].
        apply list_elem_of_singleton in Hop as ->. right; right.
        exists k, s, d. rewrite fs_diff_closed_form.
        split_and!; [done|done|done|reflexivity].
    + intros [(k & g & Hs & Hd & ->) | [(k & g & Hs & Hd & ->) | (k & s & d & Hs & Hd & Hne & ->)]].
      * left. exists k. split.
        -- apply elem_of_difference. split; [apply dict_key_set_get; by eexists|].
           by apply dict_key_set_not_get.
        -- unfold fs_disable_op. fold S. rewrite Hs. left.
      * right; left. exists k. split.
        -- apply elem_of_difference. split; [apply dict_key_set_get; by eexists|].
           by apply dict_key_set_not_get.
        -- unfold fs_create_op. fold D. rewrite Hd. left.
      * right; right. exists k. split.
        -- apply elem_of_intersection. split; apply dict_key_set_get; by eexists.
        -- rewrite (fs_update_op_differ _ _ _ _ _ Hs Hd).
           destruct (decide (s = d)) as [|_]; [done|].
           rewrite fs_diff_closed_form. left.
  - rewrite !length_app, <- !elements_gset_length.
    rewrite (bind_length_ones (fs_disable_op S)).
    2:{ intros k [[g Hg]%dict_key_set_get _]%elem_of_elements%elem_of_difference.
        unfold fs_disable_op. by rewrite Hg. }
    rewrite (bind_length_ones (fs_create_op D)).
    2:{ intros k [[g Hg]%dict_key_set_get _]%elem_of_elements%elem_of_difference.
        unfold fs_create_op. by rewrite Hg. }
    rewrite (bind_length_filter (λ path, dict.get S path ≠ dict.get D path)
               (fs_update_op S D)).
    2:{ intros k [[s Hs]%dict_key_set_get [d Hd]%dict_key_set_get]
                 %elem_of_elements%elem_of_intersection.
        rewrite (fs_update_op_differ _ _ _ _ _ Hs Hd). rewrite Hs, Hd.
        destruct (decide (s = d)) as [->|Hne].
        - by rewrite decide_False by (intros Hn; by apply Hn).
        - rewrite decide_True; [done|]. congruence. }
    lia.
Qed.

(** *** Users *)

Lemma user_update_op_differ (src dst : dict.t LdapUser.t) (username : string)
    (src_user dst_user : LdapUser.t) :
  dict.get src username = Some src_user → dict.get dst username = Some dst_user →
  user_update_op src dst username
  = if decide (src_user = dst_user) then []
    else [LdapUserOp.mk UPDATE src_user
            (diff_loop
               (elements (dict.key_set (LdapUser.model_dump src_user)
                          ∪ dict.key_set (LdapUser.model_dump dst_user)))
               (LdapUser.model_dump src_user) (LdapUser.model_dump dst_user))].
Proof.
  intros Hs Hd. unfold user_update_op. rewrite Hs, Hd. cbv zeta.
  destruct (decide (src_user = dst_user)) as [->|Hne].
  - by rewrite dict_eqb_refl.
  - destruct (dict.eqb _ _) eqn:Heq; [|done].
    by apply user_dump_eqb_true in Heq.
Qed.

Lemma compare_ldap_users_eq (src dst : SystemState.t) :
  dict.key_set (SystemState.ldap_users dst) ⊆ dict.key_set (SystemState.ldap_users src) →
  TargetStateComparison._compare_ldap_users (TargetStateComparison.mk src dst)
  = inr ((elements (dict.key_set (SystemState.ldap_users src)
                    ∖ dict.key_set (SystemState.ldap_users dst))
            ≫= user_disable_op (SystemState.ldap_users src))
         ++ (elements (dict.key_set (SystemState.ldap_users src)
                       ∩ dict.key_set (SystemState.ldap_users dst))
               ≫= user_update_op (SystemState.ldap_users src)
                                 (SystemState.ldap_users dst))).
Proof.
  intros Hsub.
  unfold TargetStateComparison._compare_ldap_users. simpl.
  rewrite (for_in_append _ _ (user_disable_op (SystemState.ldap_users src))).
  2:{ intros k acc [[v [Hg Hv]]%dict_getitem_key_set _]%elem_of_elements%elem_of_difference.
      rewrite Hv. unfold user_disable_op. by rewrite Hg. }
  simpl.
  assert (elements (dict.key_set (SystemState.ldap_users dst)
                    ∖ dict.key_set (SystemState.ldap_users src)) = []) as ->.
  { apply elements_empty_iff. apply elem_of_equiv_empty.
    intros k [Hd Hs]%elem_of_difference. by apply Hs, Hsub. }
  simpl.
  rewrite (for_in_append _ _ (user_update_op (SystemState.ldap_users src)
                                             (SystemState.ldap_users dst))).
  2:{ intros k acc [[v [Hg Hv]]%dict_getitem_key_set
                    [w [Hg' Hw]]%dict_getitem_key_set]%elem_of_elements%elem_of_intersection.
      rewrite Hv. simpl. rewrite Hw. simpl. unfold user_update_op. rewrite Hg, Hg'. simpl.
      destruct (dict.eqb _ _); simpl; [by rewrite app_nil_r|done]. }
  done.
Qed.

(** X10. The user comparison returns exactly when every desired username
    is a current one; otherwise it raises [KeyError] for a username that is
    only desired.  When it returns, its result holds the DISABLE operation on
    the current user for every username that is only current, the UPDATE
    operation on the current user for every common username whose two users
    differ, and nothing else: no CREATE operation is ever returned. *)
Theorem compare_ldap_users_operations (src dst : SystemState.t) :
  (dict.key_set (SystemState.ldap_users dst) ⊈ dict.key_set (SystemState.ldap_users src) →
   ∃ username,
     dict.get (SystemState.ldap_users src) username = None
     ∧ is_Some (dict.get (SystemState.ldap_users dst) username)
     ∧ TargetStateComparison._compare_ldap_users (TargetStateComparison.mk src dst)
       = inl (KeyError username))
  ∧ (dict.key_set (SystemState.ldap_users dst) ⊆ dict.key_set (SystemState.ldap_users src) →
     ∃ ops,
       TargetStateComparison._compare_ldap_users (TargetStateComparison.mk src dst)
       = inr ops
       ∧ ∀ op, op ∈ ops ↔
           (∃ username user,
              dict.get (SystemState.ldap_users src) username = Some user
              ∧ dict.get (SystemState.ldap_users dst) username = None
              ∧ op = LdapUserOp.mk DISABLE user dict.empty)
           ∨ (∃ username src_user dst_user,
                dict.get (SystemState.ldap_users src) username = Some src_user
                ∧ dict.get (SystemState.ldap_users dst) username = Some dst_user
                ∧ src_user ≠ dst_user
                ∧ op = LdapUserOp.mk UPDATE src_user
                         (diff_loop
                            (elements (dict.key_set (LdapUser.model_dump src_user)
                                       ∪ dict.key_set (LdapUser.model_dump dst_user)))
                            (LdapUser.model_dump src_user)
                            (LdapUser.model_dump dst_user))))
  ∧ (∀ ops op,
       TargetStateComparison._compare_ldap_users (TargetStateComparison.mk src dst)
       = inr ops →
       op ∈ ops → LdapUserOp.operation op ≠ CREATE).
Proof.
  set (S := SystemState.ldap_users src). set (D := SystemState.ldap_users dst).
  assert (Hops : dict.key_set D ⊆ dict.key_set S →
     ∃ ops,
       TargetStateComparison._compare_ldap_users (TargetStateComparison.mk src dst)
       = inr ops
       ∧ ∀ op, op ∈ ops ↔
           (∃ username user,
              dict.get S username = Some user ∧ dict.get D username = None
              ∧ op = LdapUserOp.mk DISABLE user dict.empty)
           ∨ (∃ username src_user dst_user,
                dict.get S username = Some src_user
                ∧ dict.get D username = Some dst_user
                ∧ src_user ≠ dst_user
                ∧ op = LdapUserOp.mk UPDATE src_user
                         (diff_loop
                            (elements (dict.key_set (LdapUser.model_dump src_user)
                                       ∪ dict.key_set (LdapUser.model_dump dst_user)))
                            (LdapUser.model_dump src_user)
                            (LdapUser.model_dump dst_user)))).
  { intros Hsub. eexists. split; [by apply compare_ldap_users_eq|].
    fold S D. intros op. rewrite !elem_of_app, !elem_of_elements_bind. split.
    - intros [(k & Hk & Hop) | (k & Hk & Hop)].
      + apply elem_of_difference in Hk as [[g Hg]%dict_key_set_get Hd%dict_key_set_not_get].
        unfold user_disable_op in Hop. rewrite Hg in Hop.
        apply list_elem_of_singleton in Hop as ->. left. by exists k, g.
      + apply elem_of_intersection in Hk as [[s Hs]%dict_key_set_get [d Hd]%dict_key_set_get].
        rewrite (user_update_op_differ _ _ _ _ _ Hs Hd) in Hop.
        destruct (decide (s = d)) as [|Hne]; [by apply elem_of_nil in Hop|].
        apply list_elem_of_singleton in Hop as ->. right. by exists k, s, d.
    - intros [(k & g & Hs & Hd & ->) | (k & s & d & Hs & Hd & Hne & ->)].
      + left. exists k. split.
        * apply elem_of_difference. split; [apply dict_key_set_get; by eexists|].
          by apply dict_key_set_not_get.
        * unfold user_disable_op. rewrite Hs. left.
      + right. exists k. split.
        * apply elem_of_intersection. split; apply dict_key_set_get; by eexists.
        * rewrite (user_update_op_differ _ _ _ _ _ Hs Hd).
          rewrite decide_False by done. left. }
  split_and!.
  - intros Hsub. destruct (compare_ldap_users_raises src dst Hsub)
      as (username & Hd & Hs & Hraise).
    exists username. split_and!; [by apply dict_key_set_not_get|by apply dict_key_set_get|done].
  - exact Hops.
  - intros ops op Hrun Hop.
    destruct (decide (dict.key_set D ⊆ dict.key_set S)) as [Hsub|Hsub].
    + destruct (Hops Hsub) as (ops' & Hrun' & Hmem). rewrite Hrun in Hrun'.
      injection Hrun' as <-.
      apply Hmem in Hop as [(? & ? & _ & _ & ->) | (? & ? & ? & _ & _ & _ & ->)]; done.
    + destruct (compare_ldap_users_raises src dst Hsub) as (? & _ & _ & Hraise).
      fold S D in Hraise. congruence.
Qed.

(** ** Executors *)

(** *** File system *)

Lemma check_call_dry_run (argv : list string) : FsResourceManager.check_call true argv = [].
Proof. reflexivity. Qed.

Lemma fs_op_update_dry_run (directory : FsDirectory.t) (diff : dict.t Value)
    (issued : list (list string)) :
  FsResourceManager._fs_op_update directory diff true = inr issued → issued = [].
Proof.
  unfold FsResourceManager._fs_op_update.
  apply (for_in_invariant (λ issued, issued = [])); [|done].
  intros [key value] t t' _ Hstep ->. revert Hstep.
  repeat case_decide; repeat case_bool_decide;
    rewrite ?check_call_dry_run; cbv [mret result_ret raise];
    intros Hstep; by simplify_eq.
Qed.

(** X11. Under a dry run no operation on a directory passes a command to
    [check_call], whatever the operation and its diff. *)
Theorem apply_fs_op_dry_run (fs_op : FsDirectoryOp.t) (issued : list (list string)) :
  FsResourceManager.apply_fs_op fs_op true = inr issued → issued = [].
Proof.
  rewrite apply_fs_op_dispatches.
  destruct (FsDirectoryOp.operation fs_op).
  - by intros [= <-].
  - apply fs_op_update_dry_run.
  - by intros [= <-].
Qed.

Lemma apply_fs_op_dry_run_witness : @nil (list string) = [].
Proof.
  apply (apply_fs_op_dry_run
           (FsDirectoryOp.mk UPDATE (Scenario.work_foo 1000 None)
              [("perms", VStr "drwxrwx---"); ("quota_bytes", VNone)])).
  vm_compute. reflexivity.
Defined.


(** What [_fs_op_update] passes to [check_call] for the diff of two
    directories, as the comparison computes it. *)
Lemma fs_op_update_comparison (s d : FsDirectory.t) (dry_run : bool) :
  FsResourceManager._fs_op_update s
    (diff_loop fs_diff_keys (FsDirectory.model_dump s) (FsDirectory.model_dump d)) dry_run
  = inr ((if decide (FsDirectory.owner_uid s = FsDirectory.owner_uid d) then []
          else FsResourceManager.check_call dry_run
                 ["chown"; "-c"; pretty (FsDirectory.owner_uid d); FsDirectory.path s])
         ++ (if decide (FsDirectory.perms s = FsDirectory.perms d) then []
             else FsResourceManager.check_call dry_run
                    ["chmod"; "-c"; _transform_perms (FsDirectory.perms s);
                     FsDirectory.path s])
         ++ (if decide (FsDirectory.quota_bytes s = FsDirectory.quota_bytes d) then []
             else FsResourceManager.check_call dry_run
                    (quota_command "ceph-quota.max_bytes" (FsDirectory.quota_bytes d)
                       (FsDirectory.path s)))
         ++ (if decide (FsDirectory.quota_files s = FsDirectory.quota_files d) then []
             else FsResourceManager.check_call dry_run
                    (quota_command "ceph-quota.max_files" (FsDirectory.quota_files d)
                       (FsDirectory.path s)))).
Proof.
  rewrite fs_diff_closed_form.
  destruct (decide (FsDirectory.owner_uid s = FsDirectory.owner_uid d)),
           (decide (FsDirectory.perms s = FsDirectory.perms d)),
           (decide (FsDirectory.quota_bytes s = FsDirectory.quota_bytes d)),
           (decide (FsDirectory.quota_files s = FsDirectory.quota_files d));
    destruct (FsDirectory.quota_bytes d), (FsDirectory.quota_files d), dry_run;
    reflexivity.
Qed.

(** X12. The commands that a run without dry run issues for the UPDATE
    operation of the comparison on a changed directory: [chown] with the
    desired owner uid, [chmod] with the mode of the current permissions,
    [setfattr] for the desired byte and file quotas, each only when the field
    differs, in this order and all on the path of the current directory. *)
Theorem fs_update_commands (s d : FsDirectory.t) :
  FsResourceManager.apply_fs_op
    (FsDirectoryOp.mk UPDATE s
       (diff_loop fs_diff_keys (FsDirectory.model_dump s) (FsDirectory.model_dump d)))
    false
  = inr ((if decide (FsDirectory.owner_uid s = FsDirectory.owner_uid d) then []
          else [["chown"; "-c"; pretty (FsDirectory.owner_uid d); FsDirectory.path s]])
         ++ (if decide (FsDirectory.perms s = FsDirectory.perms d) then []
             else [["chmod"; "-c"; _transform_perms (FsDirectory.perms s);
                    FsDirectory.path s]])
         ++ (if decide (FsDirectory.quota_bytes s = FsDirectory.quota_bytes d) then []
             else [quota_command "ceph-quota.max_bytes" (FsDirectory.quota_bytes d)
                     (FsDirectory.path s)])
         ++ (if decide (FsDirectory.quota_files s = FsDirectory.quota_files d) then []
             else [quota_command "ceph-quota.max_files" (FsDirectory.quota_files d)
                     (FsDirectory.path s)])).
Proof.
  rewrite apply_fs_op_dispatches. cbn [FsDirectoryOp.operation FsDirectoryOp.directory
                                       FsDirectoryOp.diff].
  apply fs_op_update_comparison.
Qed.

Lemma compare_fs_directories_op_shape (src dst : SystemState.t)
    (ops : list FsDirectoryOp.t) (op : FsDirectoryOp.t) :
  TargetStateComparison._compare_fs_directories (TargetStateComparison.mk src dst)
  = inr ops →
  op ∈ ops →
  FsDirectoryOp.operation op = DISABLE
  ∨ FsDirectoryOp.operation op = CREATE
  ∨ ∃ s d, op = FsDirectoryOp.mk UPDATE s
                  (diff_loop fs_diff_keys (FsDirectory.model_dump s)
                             (FsDirectory.model_dump d)).
Proof.
  rewrite compare_fs_directories_eq. intros [= <-].
  rewrite !elem_of_app, !elem_of_elements_bind.
  intros [(k & _ & Hop) | [(k & _ & Hop) | (k & _ & Hop)]].
  - left. unfold fs_disable_op in Hop.
    destruct (dict.get _ k); [|by apply elem_of_nil in Hop].
    by apply list_elem_of_singleton in Hop as ->.
  - right; left. unfold fs_create_op in Hop.
    destruct (dict.get _ k); [|by apply elem_of_nil in Hop].
    by apply list_elem_of_singleton in Hop as ->.
  - right; right. unfold fs_update_op in Hop.
    destruct (dict.get (SystemState.fs_directories src) k) as [s|];
      [|by apply elem_of_nil in Hop].
    destruct (dict.get (SystemState.fs_directories dst) k) as [d|];
      [|by apply elem_of_nil in Hop].
    cbv zeta in Hop. destruct (negb _); [|by apply elem_of_nil in Hop].
    apply list_elem_of_singleton in Hop as ->. by exists s, d.
Qed.

(** X13. The executor accepts every operation that the directory
    comparison returns: applying it never raises, dry run or not. *)
Theorem compared_fs_op_is_applied (src dst : SystemState.t)
    (ops : list FsDirectoryOp.t) (op : FsDirectoryOp.t) (dry_run : bool) :
  TargetStateComparison._compare_fs_directories (TargetStateComparison.mk src dst)
  = inr ops →
  op ∈ ops →
  ∃ issued, FsResourceManager.apply_fs_op op dry_run = inr issued.
Proof.
  intros Hrun Hop.
  destruct (compare_fs_directories_op_shape _ _ _ _ Hrun Hop)
    as [Hdis | [Hcre | (s & d & ->)]].
  - rewrite apply_fs_op_dispatches, Hdis. by eexists.
  - rewrite apply_fs_op_dispatches, Hcre. by eexists.
  - rewrite apply_fs_op_dispatches.
    cbn [FsDirectoryOp.operation FsDirectoryOp.directory FsDirectoryOp.diff].
    rewrite fs_op_update_comparison. by eexists.
Qed.

Lemma compared_fs_op_is_applied_witness :
  ∃ issued,
    FsResourceManager.apply_fs_op
      (FsDirectoryOp.mk UPDATE (Scenario.work_foo 1000 (Some 4096)) dict.empty) false
    = inr issued.
Proof.
  apply (compared_fs_op_is_applied
           (Scenario.state_of_directory (Scenario.work_foo 1000 (Some 4096)))
           (Scenario.state_of_directory (Scenario.work_foo 1000 None))
           [FsDirectoryOp.mk UPDATE (Scenario.work_foo 1000 (Some 4096)) dict.empty]).
  - vm_compute. reflexivity.
  - left.
Defined.

(** *** Directory service *)

Lemma apply_user_op_dry_run {S : Type} `{LdapServer S}
    (self self' : LdapConnection.t S) (op : LdapUserOp.t) :
  LdapConnection.apply_user_op self op true = inr self' → self' = self.
Proof.
  rewrite apply_user_op_dispatches.
  destruct (LdapUserOp.operation op).
  - unfold LdapConnection._user_op_create. simpl. by intros [= <-].
  - unfold LdapConnection._user_op_update.
    destruct (ldap_paged_search _ _ _); [done|]. simpl. by intros [= <-].
  - unfold LdapConnection._user_op_disable.
    destruct (ldap_paged_search _ _ _); [done|]. simpl. by intros [= <-].
Qed.

(** X14. A dry run of [state-sync] that returns leaves the directory
    server as it was and passes no command to [check_call]. *)
Theorem sync_data_dry_run {S : Type} `{LdapServer S}
    (loaded : Settings.t) (readers : SystemReaders.t) (server server' : S)
    (ldap_user_ops ldap_group_ops fs_ops : list StateOperation)
    (issued : list (list string)) :
  sync_data loaded readers server ldap_user_ops ldap_group_ops fs_ops true
  = inr (server', issued) →
  server' = server ∧ issued = [].
Proof.
  unfold sync_data. intros Hrun.
  apply bind_inr_inv in Hrun as [[builder dst_state] [_ Hrun]].
  apply bind_inr_inv in Hrun as [operations [_ Hrun]].
  apply bind_inr_inv in Hrun as [connection1 [Hgroups Hrun]].
  apply bind_inr_inv in Hrun as [connection2 [Husers Hrun]].
  apply bind_inr_inv in Hrun as [issued' [Hfs Hrun]].
  cbv [mret result_ret] in Hrun. injection Hrun as <- <-.
  set (connection0 := LdapConnection.mk (Settings.ldap_hpc loaded) server) in *.
  assert (connection1 = connection0) as ->.
  { revert Hgroups. apply (for_in_invariant (λ c, c = connection0)); [|done].
    intros op t t' _ Hstep ->. rewrite apply_group_op_skips in Hstep. congruence. }
  assert (connection2 = connection0) as ->.
  { revert Husers. apply (for_in_invariant (λ c, c = connection0)); [|done].
    intros op t t' _ Hstep ->. by apply apply_user_op_dry_run in Hstep. }
  split; [done|].
  revert Hfs. apply (for_in_invariant (λ issued, issued = [])); [|done].
  intros op t t' _ Hstep ->.
  apply bind_inr_inv in Hstep as [commands [Hop Hstep]].
  assert (commands = []) as ->.
  { rewrite apply_fs_op_dispatches in Hop.
    destruct (FsDirectoryOp.operation op);
      [by injection Hop as <- | by apply fs_op_update_dry_run in Hop
      | by injection Hop as <-]. }
  cbv [mret result_ret] in Hstep. by injection Hstep as <-.
Qed.

Lemma sync_data_dry_run_witness :
  Scenario2.server = Scenario2.server ∧ @nil (list string) = [].
Proof.
  apply (sync_data_dry_run Scenario2.loaded Scenario2.readers Scenario2.server
           Scenario2.server [] [] [] []).
  vm_compute. reflexivity.
Defined.

(** X15. When the registry holds an account whose username the directory
    service does not know, [state-sync] raises [KeyError] for such a
    username once the desired state is built: the comparison fails, and no
    operation of the run is applied. *)
Theorem sync_data_fails_on_new_account {S : Type} `{LdapServer S}
    (loaded : Settings.t) (readers : SystemReaders.t) (server : S)
    (ldap_user_ops ldap_group_ops fs_ops : list StateOperation) (dry_run : bool)
    (builder : TargetStateBuilder.t) (dst_state : SystemState.t) :
  TargetStateBuilder.run
    (TargetStateBuilder.init (Settings.hpc_access loaded) (gather_system_state readers))
  = inr (builder, dst_state) →
  dict.key_set (SystemState.ldap_users dst_state)
    ⊈ dict.key_set (SystemState.ldap_users (gather_system_state readers)) →
  ∃ username,
    dict.get (SystemState.ldap_users (gather_system_state readers)) username = None
    ∧ is_Some (dict.get (SystemState.ldap_users dst_state) username)
    ∧ sync_data loaded readers server ldap_user_ops ldap_group_ops fs_ops dry_run
      = inl (KeyError username).
Proof.
  intros Hbuild Hsub.
  destruct (compare_ldap_users_raises (gather_system_state readers) dst_state Hsub)
    as (username & Hd & Hs & Hraise).
  exists username. split_and!.
  - by apply dict_key_set_not_get.
  - by apply dict_key_set_get.
  - unfold sync_data. cbn [Settings.hpc_access Settings.ldap_hpc].
    rewrite Hbuild. cbn [mbind result_bind].
    unfold TargetStateComparison.run. rewrite Hraise. reflexivity.
Qed.

Lemma sync_data_fails_on_new_account_witness :
  ∃ username,
    dict.get (SystemState.ldap_users
                (gather_system_state (SystemReaders.mk [] [] []))) username = None
    ∧ is_Some (dict.get
                 (dict.set dict.empty "ada"
                    (LdapUser.mk "Ada Example"
                       "cn=Ada Example,ou=Charite,ou=Users,dc=hpc,dc=bihealth,dc=org"
                       "ada" None None None 5000 (Some HPC_ALUMNIS_GID)
                       "/data/cephfs-1/home/users/ada" "/usr/bin/bash"
                       (Some (Gecos.mk (Some "Ada Example") None None None None)) []))
                 username)
    ∧ sync_data
        (Settings.with_defaults "dc=hpc,dc=bihealth,dc=org"
           (HpcaccessClient.mk [Scenario3.ada] [] []))
        (SystemReaders.mk [] [] []) Scenario2.server [] [] [] false
      = inl (KeyError username).
Proof.
  apply (sync_data_fails_on_new_account
           (Settings.with_defaults "dc=hpc,dc=bihealth,dc=org"
              (HpcaccessClient.mk [Scenario3.ada] [] []))
           (SystemReaders.mk [] [] []) Scenario2.server [] [] [] false
           (TargetStateBuilder.mk (HpcaccessClient.mk [Scenario3.ada] [] [])
              (gather_system_state (SystemReaders.mk [] [] [])) 1000)
           (SystemState.mk
              (dict.set dict.empty "ada"
                 (LdapUser.mk "Ada Example"
                    "cn=Ada Example,ou=Charite,ou=Users,dc=hpc,dc=bihealth,dc=org"
                    "ada" None None None 5000 (Some HPC_ALUMNIS_GID)
                    "/data/cephfs-1/home/users/ada" "/usr/bin/bash"
                    (Some (Gecos.mk (Some "Ada Example") None None None None)) []))
              (dict.set dict.empty "hpc-users"
                 (LdapGroup.mk "hpc-users"
                    "cn=hpc-users,ou=Groups,dc=hpc,dc=bihealth,dc=org"
                    HPC_USERS_GID
                    (Some "users allowed to login (active+have group)") None [] []))
              (dict.set dict.empty "/data/cephfs-1/home/users/ada"
                 (FsDirectory.mk "/data/cephfs-1/home/users/ada" "ada" 5000 "hpc-alumnis"
                    1030001 "drwx--S---" None None (Some QUOTA_HOME_BYTES) None)))).
  - vm_compute. reflexivity.
  - intros Hsub. specialize (Hsub "ada"). vm_compute in Hsub.
    by specialize (Hsub eq_refl).
Defined.

(** ** Target state builder: groups *)





Lemma dict_get_set_Some {V : Type} (d : dict.t V) (k k' : string) (v : V) :
  is_Some (dict.get d k') → is_Some (dict.get (dict.set d k v) k').
Proof.
  intros Hsome. destruct (decide (k = k')) as [->|Hne].
  - rewrite dict_get_set_eq. by eexists.
  - by rewrite dict_get_set_ne.
Qed.

Lemma dict_get_set_inv {V : Type} (d : dict.t V) (k k' : string) (v v' : V) :
  dict.get (dict.set d k v) k' = Some v' →
  (k' = k ∧ v' = v) ∨ (k' ≠ k ∧ dict.get d k' = Some v').
Proof.
  destruct (decide (k = k')) as [->|Hne].
  - rewrite dict_get_set_eq. intros [= ->]. by left.
  - rewrite dict_get_set_ne by done. intros Hget. right. split; [congruence|done].
Qed.






(** ** Target state builder: accounts *)

(** An invariant that may mention the elements that a loop has consumed. *)
Lemma for_in_invariant_seen {A S : Type} (P : list A → S → Prop) (xs : list A)
    (body : A → S → outcome S) (s s' : S) :
  (∀ seen x t t', body x t = inr t' → P seen t → P (seen ++ [x]) t') →
  P [] s → for_in xs body s = inr s' → P xs s'.
Proof.
  intros Hstep.
  assert (Hgen : ∀ rest seen t, P seen t → for_in rest body t = inr s' → P (seen ++ rest) s').
  { induction rest as [|x rest IH]; intros seen t Hseen Hrun.
    - simpl in Hrun. injection Hrun as <-. by rewrite app_nil_r.
    - simpl in Hrun. apply bind_inr_inv in Hrun as [t' [Hx Hrest]].
      replace (seen ++ x :: rest) with ((seen ++ [x]) ++ rest)
        by (by rewrite <- app_assoc).
      eapply IH; [|exact Hrest]. by eapply Hstep. }
  intros Hs Hrun. by apply (Hgen xs [] s).
Qed.

Lemma gid_or_alumnis_nonzero (gid : option Z) : gid_or_alumnis gid ≠ 0.
Proof.
  unfold gid_or_alumnis. destruct gid as [z|]; simpl; [|done].
  case_bool_decide; simpl; [done|done].
Qed.

(** The account that [_build_ldap_users] writes for a user with the
    primary group id [gid]. *)
Lemma build_ldap_users_step (hpc_groups : dict.t HpcGroup.t) (user : HpcUser.t)
    (result result' : dict.t LdapUser.t) :
  (let gecos := Gecos.mk (Some (HpcUser.full_name user)) None
                         (HpcUser.phone_number user) None None in
   group_gid ← match HpcUser.primary_group user with
               | Some g =>
                   hpc_group ← dict.getitem hpc_groups g;
                   mret (gid_or_alumnis (HpcGroup.gid hpc_group))
               | None => mret HPC_ALUMNIS_GID
               end;
   mret (dict.set result (HpcUser.username user)
           (LdapUser.mk
              (HpcUser.full_name user)
              (user_dn user)
              (HpcUser.username user)
              (HpcUser.email user)
              (HpcUser.last_name user)
              (HpcUser.first_name user)
              (HpcUser.uid user)
              (Some group_gid)
              (BASE_PATH_TIER1 +:+ "/home/users/" +:+ HpcUser.username user)
              "/usr/bin/bash"
              (Some gecos)
              []))) = inr result' →
  ∃ gid,
    gid ≠ 0
    ∧ match HpcUser.primary_group user with
      | Some g =>
          ∃ hpc_group, dict.get hpc_groups g = Some hpc_group
                       ∧ gid = gid_or_alumnis (HpcGroup.gid hpc_group)
      | None => gid = HPC_ALUMNIS_GID
      end
    ∧ result'
      = dict.set result (HpcUser.username user)
          (LdapUser.mk (HpcUser.full_name user) (user_dn user) (HpcUser.username user)
             (HpcUser.email user) (HpcUser.last_name user) (HpcUser.first_name user)
             (HpcUser.uid user) (Some gid)
             (BASE_PATH_TIER1 +:+ "/home/users/" +:+ HpcUser.username user)
             "/usr/bin/bash"
             (Some (Gecos.mk (Some (HpcUser.full_name user)) None
                             (HpcUser.phone_number user) None None))
             []).
Proof.
  cbv zeta. intros Hstep.
  apply bind_inr_inv in Hstep as [gid [Hgid Hstep]].
  cbv [mret result_ret] in Hstep. injection Hstep as <-.
  exists gid. destruct (HpcUser.primary_group user) as [g|].
  - apply bind_inr_inv in Hgid as [hpc_group [Hgroup%dict_getitem_inr Hgid]].
    cbv [mret result_ret] in Hgid. injection Hgid as <-.
    split_and!; [apply gid_or_alumnis_nonzero|by exists hpc_group|done].
  - cbv [mret result_ret] in Hgid. injection Hgid as <-. by split_and!.
Qed.

(** X18. Every account of the desired state that [_build_ldap_users]
    returns is built from a user of the registry state and held under its
    username: it has the user's names, mail address and uid, the home
    directory of that username on tier 1, the login shell [/usr/bin/bash]
    whatever the status of the user, no SSH key, and a primary group id
    other than zero, which is the id of the user's primary group or, for
    want of one, the id of the alumni group.  Every user of the registry
    state has an account under its username. *)
Theorem build_ldap_users_accounts (hpcaccess_state : HpcaccessState.t)
    (result : dict.t LdapUser.t) :
  TargetStateBuilder._build_ldap_users hpcaccess_state = inr result →
  (∀ username account, dict.get result username = Some account →
     ∃ user gid,
       user ∈ dict.values (HpcaccessState.hpc_users hpcaccess_state)
       ∧ HpcUser.username user = username
       ∧ gid ≠ 0
       ∧ match HpcUser.primary_group user with
         | Some g =>
             ∃ hpc_group,
               dict.get (HpcaccessState.hpc_groups hpcaccess_state) g = Some hpc_group
               ∧ gid = gid_or_alumnis (HpcGroup.gid hpc_group)
         | None => gid = HPC_ALUMNIS_GID
         end
       ∧ account
         = LdapUser.mk (HpcUser.full_name user) (user_dn user) (HpcUser.username user)
             (HpcUser.email user) (HpcUser.last_name user) (HpcUser.first_name user)
             (HpcUser.uid user) (Some gid)
             (BASE_PATH_TIER1 +:+ "/home/users/" +:+ HpcUser.username user)
             "/usr/bin/bash"
             (Some (Gecos.mk (Some (HpcUser.full_name user)) None
                             (HpcUser.phone_number user) None None))
             [])
  ∧ (∀ user, user ∈ dict.values (HpcaccessState.hpc_users hpcaccess_state) →
       is_Some (dict.get result (HpcUser.username user))).
Proof.
  unfold TargetStateBuilder._build_ldap_users.
  set (groups := HpcaccessState.hpc_groups hpcaccess_state).
  generalize (dict.values (HpcaccessState.hpc_users hpcaccess_state)). intros users.
  apply (for_in_invariant_seen
           (λ seen result,
              (∀ username account, dict.get result username = Some account →
                 ∃ user gid,
                   user ∈ seen
                   ∧ HpcUser.username user = username
                   ∧ gid ≠ 0
                   ∧ match HpcUser.primary_group user with
                     | Some g =>
                         ∃ hpc_group,
                           dict.get groups g = Some hpc_group
                           ∧ gid = gid_or_alumnis (HpcGroup.gid hpc_group)
                     | None => gid = HPC_ALUMNIS_GID
                     end
                   ∧ account
                     = LdapUser.mk (HpcUser.full_name user) (user_dn user)
                         (HpcUser.username user)
                         (HpcUser.email user) (HpcUser.last_name user)
                         (HpcUser.first_name user)
                         (HpcUser.uid user) (Some gid)
                         (BASE_PATH_TIER1 +:+ "/home/users/" +:+ HpcUser.username user)
                         "/usr/bin/bash"
                         (Some (Gecos.mk (Some (HpcUser.full_name user)) None
                                         (HpcUser.phone_number user) None None))
                         [])
              ∧ (∀ user, user ∈ seen → is_Some (dict.get result (HpcUser.username user))))).
  - intros seen user t t' Hstep [Hentries Hall].
    apply build_ldap_users_step in Hstep as (gid & Hgid & Hgroup & ->). split.
    + intros username account [[-> ->]|[Hne Hget]]%dict_get_set_inv.
      * exists user, gid. split_and!; try done. apply elem_of_app. right. left.
      * destruct (Hentries _ _ Hget) as (u & g & Hin & Hrest).
        exists u, g. split; [|done]. apply elem_of_app. by left.
    + intros u [Hin | ->%list_elem_of_singleton]%elem_of_app.
      * by apply dict_get_set_Some, Hall.
      * rewrite dict_get_set_eq. by eexists.
  - split; [done|]. by intros u ?%elem_of_nil.
Qed.

Lemma build_ldap_users_accounts_witness :
  TargetStateBuilder._build_ldap_users Scenario3.state_after
  = inr [("ada",
          LdapUser.mk "Ada Example"
            "cn=Ada Example,ou=Charite,ou=Users,dc=hpc,dc=bihealth,dc=org"
            "ada" None None None 5000 (Some HPC_ALUMNIS_GID)
            "/data/cephfs-1/home/users/ada" "/usr/bin/bash"
            (Some (Gecos.mk (Some "Ada Example") None None None None)) [])]
  ∧ (∀ user, user ∈ dict.values (HpcaccessState.hpc_users Scenario3.state_after) →
       is_Some (dict.get
                  [("ada",
                    LdapUser.mk "Ada Example"
                      "cn=Ada Example,ou=Charite,ou=Users,dc=hpc,dc=bihealth,dc=org"
                      "ada" None None None 5000 (Some HPC_ALUMNIS_GID)
                      "/data/cephfs-1/home/users/ada" "/usr/bin/bash"
                      (Some (Gecos.mk (Some "Ada Example") None None None None)) [])]
                  (HpcUser.username user))).
Proof.
  split; [vm_compute; reflexivity|].
  apply (build_ldap_users_accounts Scenario3.state_after).
  vm_compute. reflexivity.
Defined.

Lemma build_ldap_users_loop_returns (hpc_groups : dict.t HpcGroup.t)
    (body : HpcUser.t → dict.t LdapUser.t → outcome (dict.t LdapUser.t))
    (users : list HpcUser.t) (acc : dict.t LdapUser.t) :
  (∀ user t, user ∈ users →
     (∀ g, HpcUser.primary_group user = Some g → is_Some (dict.get hpc_groups g)) →
     ∃ t', body user t = inr t') →
  (∀ user g, user ∈ users → HpcUser.primary_group user = Some g →
             is_Some (dict.get hpc_groups g)) →
  ∃ result, for_in users body acc = inr result.
Proof.
  revert acc. induction users as [|user users IH]; intros acc Hbody Hknown.
  - by eexists.
  - simpl. destruct (Hbody user acc) as [t' ->]; [left|..].
    + intros g Hg. eapply Hknown; [left|done].
    + simpl. apply IH.
      * intros u t Hu. apply Hbody. by right.
      * intros u g Hu. apply Hknown. by right.
Qed.

(** X19. [_build_ldap_users] returns when the primary group of every user
    of the registry state is a group of that state; when it raises, it
    raises [KeyError] for the primary group of a user that is none. *)
Theorem build_ldap_users_raises_on_unknown_group (hpcaccess_state : HpcaccessState.t) :
  ((∀ user g, user ∈ dict.values (HpcaccessState.hpc_users hpcaccess_state) →
              HpcUser.primary_group user = Some g →
              is_Some (dict.get (HpcaccessState.hpc_groups hpcaccess_state) g)) →
   ∃ result, TargetStateBuilder._build_ldap_users hpcaccess_state = inr result)
  ∧ (∀ e, TargetStateBuilder._build_ldap_users hpcaccess_state = inl e →
          ∃ user g,
            user ∈ dict.values (HpcaccessState.hpc_users hpcaccess_state)
            ∧ HpcUser.primary_group user = Some g
            ∧ dict.get (HpcaccessState.hpc_groups hpcaccess_state) g = None
            ∧ e = KeyError g).
Proof.
  unfold TargetStateBuilder._build_ldap_users.
  set (groups := HpcaccessState.hpc_groups hpcaccess_state).
  generalize (dict.values (HpcaccessState.hpc_users hpcaccess_state)). intros users.
  split.
  - apply (build_ldap_users_loop_returns groups).
    intros user t _ Hknown. cbv zeta.
    destruct (HpcUser.primary_group user) as [g|]; [|by eexists].
    destruct (Hknown g eq_refl) as [hpc_group Hget].
    rewrite (dict_getitem_Some _ _ _ Hget). by eexists.
  - generalize (@dict.empty LdapUser.t). induction users as [|user users IH]; intros acc e.
    + done.
    + simpl. destruct (HpcUser.primary_group user) as [g|] eqn:Hprimary.
      * unfold dict.getitem.
        destruct (dict.get groups g) as [hpc_group|] eqn:Hget; simpl.
        -- intros Hrest. destruct (IH _ _ Hrest) as (u & g' & Hin & Hrest').
           exists u, g'. split; [by right|done].
        -- intros [= <-]. exists user, g. split_and!; [left|done..].
      * simpl. intros Hrest. destruct (IH _ _ Hrest) as (u & g' & Hin & Hrest').
        exists u, g'. split; [by right|done].
Qed.

Lemma build_ldap_users_shell (hpcaccess_state : HpcaccessState.t)
    (result : dict.t LdapUser.t) :
  TargetStateBuilder._build_ldap_users hpcaccess_state = inr result →
  ∀ account, account ∈ dict.values result →
             LdapUser.login_shell account = "/usr/bin/bash".
Proof.
  unfold TargetStateBuilder._build_ldap_users.
  apply (for_in_invariant
           (λ result, ∀ account, account ∈ dict.values result →
                                 LdapUser.login_shell account = "/usr/bin/bash")).
  - intros user t t' _ Hstep Hall account Hin.
    apply build_ldap_users_step in Hstep as (gid & _ & _ & ->).
    apply dict_values_elem in Hin as [k Hin].
    apply dict_set_elem in Hin as [[= -> ->]|Hin]; [done|].
    apply Hall. by apply (list_elem_of_fmap_2 snd) in Hin.
  - by intros account ?%elem_of_nil.
Qed.

(** X20. The desired state that [_build] returns holds the group
    [hpc-users] with the fixed group id.  Its members are the usernames of
    the desired accounts whose primary group is not the alumni group, in the
    order of the accounts; the test on the login shell excludes nobody, since
    every desired account has the shell [/usr/bin/bash]. *)
Theorem build_hpc_users_group (self self' : TargetStateBuilder.t)
    (hpcaccess_state : HpcaccessState.t) (system_state : SystemState.t) :
  TargetStateBuilder._build self hpcaccess_state = inr (self', system_state) →
  dict.get (SystemState.ldap_groups system_state) "hpc-users"
  = Some (LdapGroup.mk "hpc-users" "cn=hpc-users,ou=Groups,dc=hpc,dc=bihealth,dc=org"
            HPC_USERS_GID (Some "users allowed to login (active+have group)") None []
            (LdapUser.uid
               <$> filter (λ u, LdapUser.gid_number u ≠ Some HPC_ALUMNIS_GID)
                          (dict.values (SystemState.ldap_users system_state)))).
Proof.
  unfold TargetStateBuilder._build. intros Hrun.
  apply bind_inr_inv in Hrun as [[[builder state'] ldap_groups] [_ Hrun]].
  apply bind_inr_inv in Hrun as [ldap_users [Husers Hrun]].
  apply bind_inr_inv in Hrun as [fs_directories [_ Hrun]].
  cbv [mret result_ret] in Hrun. injection Hrun as <- <-.
  cbn [SystemState.ldap_groups SystemState.ldap_users].
  rewrite dict_get_set_eq. do 3 f_equal.
  pose proof (build_ldap_users_shell _ _ Husers) as Hshell.
  induction (dict.values ldap_users) as [|u us IH]; [done|].
  rewrite !filter_cons.
  assert (Hu : Str.contains "nologin" (LdapUser.login_shell u) = false).
  { rewrite (Hshell u) by left. reflexivity. }
  rewrite IH by (intros a Ha; apply Hshell; by right).
  destruct (decide (LdapUser.gid_number u ≠ Some HPC_ALUMNIS_GID)) as [Hgid|Hgid].
  - by rewrite decide_True.
  - rewrite decide_False; [done|]. by intros [? _].
Qed.

Lemma build_hpc_users_group_witness :
  dict.get
    [ ("hpc-ag-foo", Scenario3.desired_group "foo" 2000);
      ("hpc-users",
       LdapGroup.mk "hpc-users" "cn=hpc-users,ou=Groups,dc=hpc,dc=bihealth,dc=org"
         HPC_USERS_GID (Some "users allowed to login (active+have group)") None [] []) ]
    "hpc-users"
  = Some (LdapGroup.mk "hpc-users" "cn=hpc-users,ou=Groups,dc=hpc,dc=bihealth,dc=org"
            HPC_USERS_GID (Some "users allowed to login (active+have group)") None []
            (LdapUser.uid
               <$> filter (λ u, LdapUser.gid_number u ≠ Some HPC_ALUMNIS_GID)
                     (dict.values
                        [("ada",
                          LdapUser.mk "Ada Example"
                            "cn=Ada Example,ou=Charite,ou=Users,dc=hpc,dc=bihealth,dc=org"
                            "ada" None None None 5000 (Some HPC_ALUMNIS_GID)
                            "/data/cephfs-1/home/users/ada" "/usr/bin/bash"
                            (Some (Gecos.mk (Some "Ada Example") None None None None))
                            [])]))).
Proof.
  apply (build_hpc_users_group
           (TargetStateBuilder.init Scenario3.registry_foo Scenario.empty_state)
           (TargetStateBuilder.init Scenario3.registry_foo Scenario.empty_state)
           (gather_hpcaccess_state Scenario3.registry_foo)
           (SystemState.mk
              [("ada",
                LdapUser.mk "Ada Example"
                  "cn=Ada Example,ou=Charite,ou=Users,dc=hpc,dc=bihealth,dc=org"
                  "ada" None None None 5000 (Some HPC_ALUMNIS_GID)
                  "/data/cephfs-1/home/users/ada" "/usr/bin/bash"
                  (Some (Gecos.mk (Some "Ada Example") None None None None)) [])]
              [ ("hpc-ag-foo", Scenario3.desired_group "foo" 2000);
                ("hpc-users",
                 LdapGroup.mk "hpc-users" "cn=hpc-users,ou=Groups,dc=hpc,dc=bihealth,dc=org"
                   HPC_USERS_GID (Some "users allowed to login (active+have group)")
                   None [] []) ]
              Scenario3.directories_foo)).
  vm_compute. reflexivity.
Defined.

(** ** Target state builder: directories *)

Lemma desired_directory_set (result : dict.t FsDirectory.t) (path : string)
    (d : FsDirectory.t) :
  (∀ path' d', dict.get result path' = Some d' → desired_directory path' d') →
  desired_directory path d →
  ∀ path' d', dict.get (dict.set result path d) path' = Some d' →
              desired_directory path' d'.
Proof.
  intros Hall Hd path' d' [[-> ->]|[_ Hget]]%dict_get_set_inv; [done|by apply Hall].
Qed.

Lemma desired_directory_shared (path owner_name : string) (owner_uid : Z)
    (group_name : string) (group_gid quota_bytes : Z) :
  desired_directory path
    (TargetStateBuilder.shared_directory path owner_name owner_uid group_name group_gid
       quota_bytes).
Proof.
  unfold desired_directory. simpl.
  split_and!; try done; first [by eexists | by right].
Qed.

Lemma tier1_loop_desired (kind : string) (owner : HpcUser.t) (name : string) (gid : Z)
    (quota_scratch quota_work : float) (result result' : dict.t FsDirectory.t) :
  (∀ path d, dict.get result path = Some d → desired_directory path d) →
  TargetStateBuilder.tier1_loop kind owner name gid quota_scratch quota_work result
  = inr result' →
  ∀ path d, dict.get result' path = Some d → desired_directory path d.
Proof.
  intros Hall Hrun.
  apply tier1_loop_inv in Hrun as (bytes_scratch & bytes_work & _ & _ & ->).
  repeat apply desired_directory_set; try done; apply desired_directory_shared.
Qed.

Lemma tier2_loop_desired (kind : string) (owner : HpcUser.t) (name : string) (gid : Z)
    (resources_requested : option ResourceData.t)
    (result result' : dict.t FsDirectory.t) :
  (∀ path d, dict.get result path = Some d → desired_directory path d) →
  TargetStateBuilder.tier2_loop kind owner name gid resources_requested result
  = inr result' →
  ∀ path d, dict.get result' path = Some d → desired_directory path d.
Proof.
  intros Hall. unfold TargetStateBuilder.tier2_loop.
  apply (for_in_invariant
           (λ result, ∀ path d, dict.get result path = Some d → desired_directory path d));
    [|done].
  intros variant t t' _ Hstep Ht.
  apply bind_inr_inv in Hstep as [quota [_ Hstep]].
  destruct (negb (Float.truthy quota)).
  - cbv [mret result_ret] in Hstep. by injection Hstep as <-.
  - apply bind_inr_inv in Hstep as [quota_bytes [_ Hstep]].
    cbv [mret result_ret] in Hstep. injection Hstep as <-.
    apply desired_directory_set; [done|apply desired_directory_shared].
Qed.

Lemma group_directories_step_desired (hpc_users : dict.t HpcUser.t) (group : HpcGroup.t)
    (loop loop' : dict.t FsDirectory.t * option HpcGroup.t) :
  (∀ path d, dict.get loop.1 path = Some d → desired_directory path d) →
  TargetStateBuilder.group_directories_step hpc_users group loop = inr loop' →
  ∀ path d, dict.get loop'.1 path = Some d → desired_directory path d.
Proof.
  intros Hall. unfold TargetStateBuilder.group_directories_step. cbv zeta.
  destruct (negb (gid_truthy (HpcGroup.gid group))); [by intros [= <-]|].
  intros Hstep.
  apply bind_inr_inv in Hstep as [owner [_ Hstep]].
  apply bind_inr_inv in Hstep as [quota_work [_ Hstep]].
  destruct (negb (Float.truthy quota_work)); [by injection Hstep as <-|].
  apply bind_inr_inv in Hstep as [quota_scratch [_ Hstep]].
  destruct (negb (Float.truthy quota_scratch)); [by injection Hstep as <-|].
  apply bind_inr_inv in Hstep as [result1 [Htier1 Hstep]].
  apply bind_inr_inv in Hstep as [result2 [Htier2 Hstep]].
  cbv [mret result_ret] in Hstep. injection Hstep as <-. cbn [fst].
  eapply tier2_loop_desired; [|exact Htier2].
  eapply tier1_loop_desired; [|exact Htier1]. done.
Qed.

Lemma project_directories_step_desired (hpc_users : dict.t HpcUser.t)
    (hpc_groups : dict.t HpcGroup.t) (last_group : option HpcGroup.t)
    (project : HpcProject.t) (result result' : dict.t FsDirectory.t) :
  (∀ path d, dict.get result path = Some d → desired_directory path d) →
  TargetStateBuilder.project_directories_step hpc_users hpc_groups last_group project result
  = inr result' →
  ∀ path d, dict.get result' path = Some d → desired_directory path d.
Proof.
  intros Hall. unfold TargetStateBuilder.project_directories_step. cbv zeta.
  destruct (negb (gid_truthy (HpcProject.gid project))); [by intros [= <-]|].
  destruct (HpcProject.group project) as [project_group|]; [|by intros [= <-]].
  intros Hstep.
  apply bind_inr_inv in Hstep as [owning_group [_ Hstep]].
  apply bind_inr_inv in Hstep as [owner [_ Hstep]].
  apply bind_inr_inv in Hstep as [group [_ Hstep]].
  apply bind_inr_inv in Hstep as [quota_work [_ Hstep]].
  destruct (negb (Float.truthy quota_work)); [by injection Hstep as <-|].
  apply bind_inr_inv in Hstep as [quota_scratch [_ Hstep]].
  destruct (negb (Float.truthy quota_scratch)); [by injection Hstep as <-|].
  apply bind_inr_inv in Hstep as [result1 [Htier1 Htier2]].
  eapply tier2_loop_desired; [|exact Htier2].
  eapply tier1_loop_desired; [|exact Htier1]. done.
Qed.

Lemma build_fs_directories_desired (hpcaccess_state : HpcaccessState.t)
    (result : dict.t FsDirectory.t) :
  TargetStateBuilder._build_fs_directories hpcaccess_state = inr result →
  ∀ path d, dict.get result path = Some d → desired_directory path d.
Proof.
  unfold TargetStateBuilder._build_fs_directories. intros Hrun.
  apply bind_inr_inv in Hrun as [result1 [Husers Hrun]].
  apply bind_inr_inv in Hrun as [[result2 group] [Hgroups Hprojects]].
  assert (H1 : ∀ path d, dict.get result1 path = Some d → desired_directory path d).
  { revert Husers.
    apply (for_in_invariant
             (λ result, ∀ path d, dict.get result path = Some d → desired_directory path d));
      [|done].
    intros user t t' _ Hstep Ht. unfold TargetStateBuilder.user_directory_step in Hstep.
    apply bind_inr_inv in Hstep as [[group_name group_gid] [_ Hstep]].
    cbv [mret result_ret] in Hstep. injection Hstep as <-.
    apply desired_directory_set; [done|].
    unfold desired_directory. simpl.
    split_and!; try done; first [by eexists | by left]. }
  assert (H2 : ∀ path d, dict.get result2 path = Some d → desired_directory path d).
  { change result2 with (result2, group).1. revert Hgroups.
    apply (for_in_invariant
             (λ loop : dict.t FsDirectory.t * option HpcGroup.t,
                ∀ path d, dict.get loop.1 path = Some d → desired_directory path d));
      [|done].
    intros g t t' _ Hstep Ht. by eapply group_directories_step_desired. }
  revert Hprojects.
  apply (for_in_invariant
           (λ result, ∀ path d, dict.get result path = Some d → desired_directory path d));
    [|done].
  intros p t t' _ Hstep Ht. by eapply project_directories_step_desired.
Qed.

(** X21. Every directory of the desired state that
    [_build_fs_directories] returns is held under its own path, carries no
    observed size and no observed file count, has a byte quota and no file
    quota, and has the permissions [drwx--S---] or [drwxrwS---]. *)
Theorem build_fs_directories_entries (hpcaccess_state : HpcaccessState.t)
    (result : dict.t FsDirectory.t) :
  TargetStateBuilder._build_fs_directories hpcaccess_state = inr result →
  Forall (λ entry : string * FsDirectory.t,
            FsDirectory.path entry.2 = entry.1
            ∧ FsDirectory.rbytes entry.2 = None
            ∧ FsDirectory.rfiles entry.2 = None
            ∧ FsDirectory.quota_files entry.2 = None
            ∧ is_Some (FsDirectory.quota_bytes entry.2)
            ∧ (FsDirectory.perms entry.2 = "drwx--S---"
               ∨ FsDirectory.perms entry.2 = "drwxrwS---"))
         result.
Proof.
  intros Hrun. pose proof (build_fs_directories_desired _ _ Hrun) as Hall.
  assert (Hnodup : NoDup (dict.keys result)).
  { revert Hrun. unfold TargetStateBuilder._build_fs_directories. intros Hrun.
    apply bind_inr_inv in Hrun as [result1 [Husers Hrun]].
    apply bind_inr_inv in Hrun as [[result2 group] [Hgroups Hprojects]].
    assert (H1 : NoDup (dict.keys result1)).
    { revert Husers. apply (for_in_invariant (λ result, NoDup (dict.keys result)));
        [|apply NoDup_nil_2].
      intros user t t' _ Hstep Ht. unfold TargetStateBuilder.user_directory_step in Hstep.
      apply bind_inr_inv in Hstep as [[group_name group_gid] [_ Hstep]].
      cbv [mret result_ret] in Hstep. injection Hstep as <-. by apply dict_set_nodup. }
    assert (Htier1 : ∀ kind owner name gid qs qw (r r' : dict.t FsDirectory.t),
              NoDup (dict.keys r) →
              TargetStateBuilder.tier1_loop kind owner name gid qs qw r = inr r' →
              NoDup (dict.keys r')).
    { intros kind owner name gid qs qw r r' Hr Hloop.
      apply tier1_loop_inv in Hloop as (? & ? & _ & _ & ->).
      by repeat apply dict_set_nodup. }
    assert (Htier2 : ∀ kind owner name gid rr (r r' : dict.t FsDirectory.t),
              NoDup (dict.keys r) →
              TargetStateBuilder.tier2_loop kind owner name gid rr r = inr r' →
              NoDup (dict.keys r')).
    { intros kind owner name gid rr r r' Hr. unfold TargetStateBuilder.tier2_loop.
      apply (for_in_invariant (λ result, NoDup (dict.keys result))); [|done].
      intros variant t t' _ Hstep Ht.
      apply bind_inr_inv in Hstep as [quota [_ Hstep]].
      destruct (negb (Float.truthy quota)).
      - cbv [mret result_ret] in Hstep. by injection Hstep as <-.
      - apply bind_inr_inv in Hstep as [quota_bytes [_ Hstep]].
        cbv [mret result_ret] in Hstep. injection Hstep as <-. by apply dict_set_nodup. }
    assert (H2 : NoDup (dict.keys result2)).
    { change result2 with (result2, group).1. revert Hgroups.
      apply (for_in_invariant
               (λ loop : dict.t FsDirectory.t * option HpcGroup.t,
                  NoDup (dict.keys loop.1))); [|done].
      intros g t t' _ Hstep Ht. revert Hstep.
      unfold TargetStateBuilder.group_directories_step. cbv zeta.
      destruct (negb (gid_truthy (HpcGroup.gid g))); [by intros [= <-]|].
      intros Hstep.
      apply bind_inr_inv in Hstep as [owner [_ Hstep]].
      apply bind_inr_inv in Hstep as [quota_work [_ Hstep]].
      destruct (negb (Float.truthy quota_work)); [by injection Hstep as <-|].
      apply bind_inr_inv in Hstep as [quota_scratch [_ Hstep]].
      destruct (negb (Float.truthy quota_scratch)); [by injection Hstep as <-|].
      apply bind_inr_inv in Hstep as [r1 [Ht1 Hstep]].
      apply bind_inr_inv in Hstep as [r2 [Ht2 Hstep]].
      cbv [mret result_ret] in Hstep. injection Hstep as <-. cbn [fst].
      eapply Htier2; [|exact Ht2]. eapply Htier1; [|exact Ht1]. done. }
    revert Hprojects. apply (for_in_invariant (λ result, NoDup (dict.keys result))); [|done].
    intros p t t' _ Hstep Ht. revert Hstep.
    unfold TargetStateBuilder.project_directories_step. cbv zeta.
    destruct (negb (gid_truthy (HpcProject.gid p))); [by intros [= <-]|].
    destruct (HpcProject.group p) as [project_group|]; [|by intros [= <-]].
    intros Hstep.
    apply bind_inr_inv in Hstep as [owning_group [_ Hstep]].
    apply bind_inr_inv in Hstep as [owner [_ Hstep]].
    apply bind_inr_inv in Hstep as [g [_ Hstep]].
    apply bind_inr_inv in Hstep as [quota_work [_ Hstep]].
    destruct (negb (Float.truthy quota_work)); [by injection Hstep as <-|].
    apply bind_inr_inv in Hstep as [quota_scratch [_ Hstep]].
    destruct (negb (Float.truthy quota_scratch)); [by injection Hstep as <-|].
    apply bind_inr_inv in Hstep as [r1 [Ht1 Ht2]].
    eapply Htier2; [|exact Ht2]. eapply Htier1; [|exact Ht1]. done. }
  apply Forall_forall. intros [path d] Hin. cbn [fst snd].
  apply (Hall path d). by apply dict_nodup_get.
Qed.

Lemma build_fs_directories_entries_witness :
  Forall (λ entry : string * FsDirectory.t,
            FsDirectory.path entry.2 = entry.1
            ∧ FsDirectory.rbytes entry.2 = None
            ∧ FsDirectory.rfiles entry.2 = None
            ∧ FsDirectory.quota_files entry.2 = None
            ∧ is_Some (FsDirectory.quota_bytes entry.2)
            ∧ (FsDirectory.perms entry.2 = "drwx--S---"
               ∨ FsDirectory.perms entry.2 = "drwxrwS---"))
         Scenario3.directories_foo.
Proof.
  apply (build_fs_directories_entries (gather_hpcaccess_state Scenario3.registry_foo)).
  vm_compute. reflexivity.
Defined.

(** X22. A directory that the file system holds with an observed size
    and that the desired state of [_build_fs_directories] holds under the same
    path is never equal to the desired one, so the comparison returns an
    UPDATE operation on it in every run, whether or not a field that an
    update can change differs. *)
Theorem built_directory_is_always_updated (hpcaccess_state : HpcaccessState.t)
    (src dst : SystemState.t) (path : string) (s d : FsDirectory.t) :
  TargetStateBuilder._build_fs_directories hpcaccess_state
  = inr (SystemState.fs_directories dst) →
  dict.get (SystemState.fs_directories src) path = Some s →
  dict.get (SystemState.fs_directories dst) path = Some d →
  is_Some (FsDirectory.rbytes s) →
  ∃ ops,
    TargetStateComparison._compare_fs_directories (TargetStateComparison.mk src dst)
    = inr ops
    ∧ FsDirectoryOp.mk UPDATE s
        (diff_loop fs_diff_keys (FsDirectory.model_dump s) (FsDirectory.model_dump d))
      ∈ ops.
Proof.
  intros Hbuild Hs Hd Hrbytes.
  eexists. split; [apply compare_fs_directories_eq|].
  rewrite !elem_of_app, !elem_of_elements_bind. right; right.
  exists path. split.
  - apply elem_of_intersection. split; apply dict_key_set_get; by eexists.
  - rewrite (fs_update_op_differ _ _ _ _ _ Hs Hd).
    destruct (decide (s = d)) as [->|_]; [|left].
    destruct (build_fs_directories_desired _ _ Hbuild _ _ Hd) as (_ & Hnone & _).
    rewrite Hnone in Hrbytes. by destruct Hrbytes.
Qed.

Lemma built_directory_is_always_updated_witness :
  ∃ ops,
    TargetStateComparison._compare_fs_directories
      (TargetStateComparison.mk
         (Scenario.state_of_directory (Scenario.work_foo 2000 (Some 4096)))
         (SystemState.mk [] [] Scenario3.directories_foo))
    = inr ops
    ∧ FsDirectoryOp.mk UPDATE (Scenario.work_foo 2000 (Some 4096))
        (diff_loop fs_diff_keys
           (FsDirectory.model_dump (Scenario.work_foo 2000 (Some 4096)))
           (FsDirectory.model_dump
              (TargetStateBuilder.shared_directory "/data/cephfs-1/work/groups/ag-foo"
                 "ada" 5000 "foo" 2000 (2 * 1024 ^ 4))))
      ∈ ops.
Proof.
  apply (built_directory_is_always_updated
           (gather_hpcaccess_state Scenario3.registry_foo)
           (Scenario.state_of_directory (Scenario.work_foo 2000 (Some 4096)))
           (SystemState.mk [] [] Scenario3.directories_foo)
           "/data/cephfs-1/work/groups/ag-foo").
  - vm_compute. reflexivity.
  - reflexivity.
  - reflexivity.
  - by eexists.
Defined.

(** ** Usage synchronisation: the requests *)

Lemma used_payload_nonempty {M : Type} (default_dump payload : dict.t float)
    (used : Used M) :
  default_dump ≠ [] → used_payload default_dump used = inr payload → payload ≠ [].
Proof.
  intros Hdefault. destruct used as [|m|[|e d]]; simpl; try done.
  - by intros [= <-].
  - by intros [= <-].
  - by intros [= <-].
Qed.

(** One of the three loops of [deploy_hpcaccess_state]. *)
Lemma deploy_loop {R M : Type} (default_dump : dict.t float) (used : R → Used M)
    (url : R → string) (records : list R) (sent sent' : list request) :
  default_dump ≠ [] →
  for_in records
    (λ r sent,
       payload ← used_payload default_dump (used r);
       mret (sent ++ [PATCH (url r) payload]))
    sent = inr sent' →
  request_url <$> sent' = (request_url <$> sent) ++ (url <$> records)
  ∧ (Forall (λ r, request_payload r ≠ []) sent →
     Forall (λ r, request_payload r ≠ []) sent').
Proof.
  intros Hdefault. revert sent. induction records as [|r records IH]; intros sent Hrun.
  - simpl in Hrun. injection Hrun as <-. by rewrite app_nil_r.
  - simpl in Hrun. apply bind_inr_inv in Hrun as [sent1 [Hstep Hrest]].
    apply bind_inr_inv in Hstep as [payload [Hpayload Hstep]].
    cbv [mret result_ret] in Hstep. injection Hstep as <-.
    destruct (IH _ Hrest) as [Hurls Hall]. split.
    + rewrite Hurls, fmap_app. simpl. by rewrite <- app_assoc.
    + intros Hsent. apply Hall. apply Forall_app. split; [done|].
      constructor; [|constructor]. simpl. by eapply used_payload_nonempty.
Qed.

(** X23. When the deployment of a registry state returns, it has sent
    one PATCH request for each record, to the address of the record: for the
    users first, then the groups, then the projects, each in the order of the
    state.  No request carries an empty usage: a record without usage figures
    is sent the defaults of its model. *)
Theorem deploy_sends_one_request_per_record (state : HpcaccessState.t)
    (sent : list request) :
  deploy_hpcaccess_state state = inr sent →
  request_url <$> sent
  = ((λ u, "adminsec/api/hpcuser/" +:+ HpcUser.uuid u +:+ "/")
       <$> dict.values (HpcaccessState.hpc_users state))
    ++ ((λ g, "adminsec/api/hpcgroup/" +:+ HpcGroup.uuid g +:+ "/")
          <$> dict.values (HpcaccessState.hpc_groups state))
    ++ ((λ p, "adminsec/api/hpcproject/" +:+ HpcProject.uuid p +:+ "/")
          <$> dict.values (HpcaccessState.hpc_projects state))
  ∧ Forall (λ r, request_payload r ≠ []) sent.
Proof.
  unfold deploy_hpcaccess_state. intros Hrun.
  apply bind_inr_inv in Hrun as [sent1 [Husers Hrun]].
  apply bind_inr_inv in Hrun as [sent2 [Hgroups Hprojects]].
  apply (deploy_loop _ HpcUser.resources_used
           (λ u, "adminsec/api/hpcuser/" +:+ HpcUser.uuid u +:+ "/")) in Husers
    as [Hu1 Hu2]; [|done].
  apply (deploy_loop _ HpcGroup.resources_used
           (λ g, "adminsec/api/hpcgroup/" +:+ HpcGroup.uuid g +:+ "/")) in Hgroups
    as [Hg1 Hg2]; [|done].
  apply (deploy_loop _ HpcProject.resources_used
           (λ p, "adminsec/api/hpcproject/" +:+ HpcProject.uuid p +:+ "/")) in Hprojects
    as [Hp1 Hp2]; [|done].
  split.
  - rewrite Hp1, Hg1, Hu1. simpl. by rewrite <- app_assoc.
  - apply Hp2, Hg2, Hu2. constructor.
Qed.

Lemma deploy_sends_one_request_per_record_witness :
  request_url
    <$> [ PATCH "adminsec/api/hpcuser/u-ada/" [("tier1_home", S754_zero false)];
          PATCH "adminsec/api/hpcgroup/g-agfoo/" [("tier1_scratch", Float.of_Z 5)] ]
  = ((λ u, "adminsec/api/hpcuser/" +:+ HpcUser.uuid u +:+ "/")
       <$> dict.values (HpcaccessState.hpc_users Scenario4.state_after))
    ++ ((λ g, "adminsec/api/hpcgroup/" +:+ HpcGroup.uuid g +:+ "/")
          <$> dict.values (HpcaccessState.hpc_groups Scenario4.state_after))
    ++ ((λ p, "adminsec/api/hpcproject/" +:+ HpcProject.uuid p +:+ "/")
          <$> dict.values (HpcaccessState.hpc_projects Scenario4.state_after))
  ∧ Forall (λ r, request_payload r ≠ [])
      [ PATCH "adminsec/api/hpcuser/u-ada/" [("tier1_home", S754_zero false)];
        PATCH "adminsec/api/hpcgroup/g-agfoo/" [("tier1_scratch", Float.of_Z 5)] ].
Proof.
  apply (deploy_sends_one_request_per_record Scenario4.state_after).
  vm_compute. reflexivity.
Defined.

(** ** Usage synchronisation: the fold *)

Lemma fs_validation_cases (fs : FsDirectory.t) :
  (∃ msg, fs_validation fs = inl (ValueError msg)) ∨ (∃ r, fs_validation fs = inr r).
Proof.
  destruct (fs_validation fs) as [e|r] eqn:Hvalid; [left|right; by eexists].
  revert Hvalid. unfold fs_validation.
  destruct (re_search_RE_PATH (FsDirectory.path fs)) as [[[[tier subdir] entity'] folder]|];
    [|intros [= <-]; by eexists].
  case_bool_decide as Hentity; [|intros [= <-]; by eexists]. simpl.
  unfold ENTITIES in Hentity.
  assert (Hcases : entity' = "users" ∨ entity' = "groups" ∨ entity' = "projects").
  { apply elem_of_cons in Hentity as [->|Hentity]; [by left|].
    apply elem_of_cons in Hentity as [->|Hentity]; [right; by left|].
    apply list_elem_of_singleton in Hentity as ->. right; by right. }
  destruct Hcases as [-> | [-> | ->]]; simpl;
    (case_bool_decide; [|intros [= <-]; by eexists]); simpl;
    (destruct (tier_mapping_get _) as [r|]; [|intros [= <-]; by eexists]);
    (destruct (Str.truthy r); [done|intros [= <-]; by eexists]).
Qed.

(** X24. The fold of a directory into the registry state leaves the state
    as it is, and does not fail, when the directory does not pass the
    validation of its path, and when it passes but the registry has no record
    of that kind and name. *)
Theorem fold_directory_skips (hpcaccess : dict.t (dict.t string))
    (fs_data : FsDirectory.t) (dst_state : HpcaccessState.t) :
  (∀ e, fs_validation fs_data = inl e →
        fold_directory hpcaccess fs_data dst_state = inr dst_state)
  ∧ (∀ entity name resource,
       fs_validation fs_data = inr (entity, name, resource) →
       dict.get (default dict.empty (dict.get hpcaccess entity)) name = None →
       fold_directory hpcaccess fs_data dst_state = inr dst_state).
Proof.
  split.
  - intros e Hvalid. unfold fold_directory.
    destruct (fs_validation_cases fs_data) as [[msg Hmsg]|[r Hr]].
    + by rewrite Hmsg.
    + congruence.
  - intros entity name resource Hvalid Hnone. unfold fold_directory.
    by rewrite Hvalid, Hnone.
Qed.

(** ** Usage synchronisation: what a run changes *)

Lemma dict_fmap_set_same {V W : Type} (f : V → W) (d : dict.t V) (k : string) (v v' : V) :
  dict.get d k = Some v → f v' = f v →
  prod_map id f <$> dict.set d k v' = prod_map id f <$> d.
Proof.
  intros Hget Hf. induction d as [|[k0 v0] d IH]; [done|].
  simpl in Hget |- *. destruct (decide (k0 = k)) as [->|Hne].
  - injection Hget as ->. simpl. unfold prod_map. simpl. by rewrite Hf.
  - simpl. f_equal. by apply IH.
Qed.

Lemma dict_values_set {V : Type} (P : V → Prop) (d : dict.t V) (k : string) (v : V) :
  Forall P (dict.values d) → P v → Forall P (dict.values (dict.set d k v)).
Proof.
  intros Hall Hv. apply Forall_forall. intros x [k' Hin]%dict_values_elem.
  apply dict_set_elem in Hin as [[= -> ->]|Hin]; [done|].
  rewrite Forall_forall in Hall. apply Hall.
  by apply (list_elem_of_fmap_2 snd) in Hin.
Qed.

Lemma store_usage_inv {R M : Type} (resources_used : R → Used M)
    (set_resources_used : Used M → R → R)
    (d d' : dict.t R) (uuid resource : string) (value : float) :
  (∀ x r, resources_used (set_resources_used x r) = x) →
  (∀ x y r, set_resources_used x (set_resources_used y r) = set_resources_used x r) →
  store_usage resources_used set_resources_used d uuid resource value = inr d' →
  prod_map id (set_resources_used (UsedDict dict.empty)) <$> d'
  = prod_map id (set_resources_used (UsedDict dict.empty)) <$> d
  ∧ (Forall (λ r, ∃ usage, resources_used r = UsedDict usage) (dict.values d) →
     Forall (λ r, ∃ usage, resources_used r = UsedDict usage) (dict.values d')).
Proof.
  intros Hget Hset. unfold store_usage. intros Hrun.
  apply bind_inr_inv in Hrun as [record [Hrecord%dict_getitem_inr Hrun]].
  apply bind_inr_inv in Hrun as [used [Hused Hrun]].
  cbv [mret result_ret] in Hrun. injection Hrun as <-.
  split.
  - eapply dict_fmap_set_same; [exact Hrecord|]. by rewrite Hset.
  - intros Hall. apply dict_values_set; [done|].
    rewrite Hget. destruct (resources_used record); try done.
    simpl in Hused. injection Hused as <-. by eexists.
Qed.

(** The registry state with every usage attribute emptied, and the
    property that every usage attribute is a dictionary. *)
Lemma reset_usage_idempotent (state : HpcaccessState.t) :
  (reset_usage (reset_usage state).1).1 = (reset_usage state).1.
Proof.
  unfold reset_usage. cbn [fst HpcaccessState.hpc_users HpcaccessState.hpc_groups
                           HpcaccessState.hpc_projects].
  f_equal; rewrite <- list_fmap_compose; apply list_fmap_ext; by intros _ [k []] _.
Qed.

Lemma fold_directory_inv (hpcaccess : dict.t (dict.t string)) (fs_data : FsDirectory.t)
    (st st' : HpcaccessState.t) :
  fold_directory hpcaccess fs_data st = inr st' →
  (reset_usage st').1 = (reset_usage st).1
  ∧ (Forall (λ u, ∃ usage, HpcUser.resources_used u = UsedDict usage)
            (dict.values (HpcaccessState.hpc_users st))
     ∧ Forall (λ g, ∃ usage, HpcGroup.resources_used g = UsedDict usage)
              (dict.values (HpcaccessState.hpc_groups st))
     ∧ Forall (λ p, ∃ usage, HpcProject.resources_used p = UsedDict usage)
              (dict.values (HpcaccessState.hpc_projects st)) →
     Forall (λ u, ∃ usage, HpcUser.resources_used u = UsedDict usage)
            (dict.values (HpcaccessState.hpc_users st'))
     ∧ Forall (λ g, ∃ usage, HpcGroup.resources_used g = UsedDict usage)
              (dict.values (HpcaccessState.hpc_groups st'))
     ∧ Forall (λ p, ∃ usage, HpcProject.resources_used p = UsedDict usage)
              (dict.values (HpcaccessState.hpc_projects st'))).
Proof.
  unfold fold_directory.
  destruct (fs_validation fs_data) as [e|[[entity name] resource]].
  { destruct e; try done. by intros [= <-]. }
  destruct (dict.get _ name) as [uuid|]; [|by intros [= <-]].
  intros Hrun. apply bind_inr_inv in Hrun as [value [_ Hrun]].
  destruct (decide (entity = "users")).
  { apply bind_inr_inv in Hrun as [d [Hstore Hrun]].
    cbv [mret result_ret] in Hrun. injection Hrun as <-.
    apply store_usage_inv in Hstore as [Herase Hdict]; [|done|by intros ? ? []].
    split.
    - unfold reset_usage. cbn [fst HpcaccessState.hpc_users HpcaccessState.hpc_groups
                               HpcaccessState.hpc_projects]. by rewrite Herase.
    - intros (Hu & Hg & Hp). cbn [HpcaccessState.hpc_users HpcaccessState.hpc_groups
                                  HpcaccessState.hpc_projects]. split_and!; auto. }
  destruct (decide (entity = "groups")).
  { apply bind_inr_inv in Hrun as [d [Hstore Hrun]].
    cbv [mret result_ret] in Hrun. injection Hrun as <-.
    apply store_usage_inv in Hstore as [Herase Hdict]; [|done|by intros ? ? []].
    split.
    - unfold reset_usage. cbn [fst HpcaccessState.hpc_users HpcaccessState.hpc_groups
                               HpcaccessState.hpc_projects]. by rewrite Herase.
    - intros (Hu & Hg & Hp). cbn [HpcaccessState.hpc_users HpcaccessState.hpc_groups
                                  HpcaccessState.hpc_projects]. split_and!; auto. }
  destruct (decide (entity = "projects")); [|done].
  apply bind_inr_inv in Hrun as [d [Hstore Hrun]].
  cbv [mret result_ret] in Hrun. injection Hrun as <-.
  apply store_usage_inv in Hstore as [Herase Hdict]; [|done|by intros ? ? []].
  split.
  - unfold reset_usage. cbn [fst HpcaccessState.hpc_users HpcaccessState.hpc_groups
                             HpcaccessState.hpc_projects]. by rewrite Herase.
  - intros (Hu & Hg & Hp). cbn [HpcaccessState.hpc_users HpcaccessState.hpc_groups
                                HpcaccessState.hpc_projects]. split_and!; auto.
Qed.

Lemma deploy_loop_returns {R M : Type} (default_dump : dict.t float) (used : R → Used M)
    (url : R → string) (records : list R) (sent : list request) :
  Forall (λ r, ∃ usage, used r = UsedDict usage) records →
  ∃ sent',
    for_in records
      (λ r sent,
         payload ← used_payload default_dump (used r);
         mret (sent ++ [PATCH (url r) payload]))
      sent = inr sent'.
Proof.
  revert sent. induction records as [|r records IH]; intros sent Hall; [by eexists|].
  apply Forall_cons in Hall as [[usage Hr] Hall]. simpl. rewrite Hr.
  destruct usage as [|e usage]; simpl; by apply IH.
Qed.

(** X25. A run of [storage-usage-sync] that returns changes nothing of a
    registry record but its usage attribute: with all usage attributes
    emptied, the state it returns is the state as read from the registry,
    record by record and in the same order.  Every usage attribute of the
    state it returns is a dictionary, so that the deployment of that state
    returns; under a dry run no request is sent. *)
Theorem sync_storage_usage_changes_usage_only (readers : SystemReaders.t)
    (rest_client : HpcaccessClient.t) (dry_run : bool)
    (state : HpcaccessState.t) (sent : list request) :
  sync_storage_usage readers rest_client dry_run = inr (state, sent) →
  (reset_usage state).1 = (reset_usage (gather_hpcaccess_state rest_client)).1
  ∧ (∃ sent', deploy_hpcaccess_state state = inr sent')
  ∧ (dry_run = true → sent = [])
  ∧ (dry_run = false → deploy_hpcaccess_state state = inr sent).
Proof.
  unfold sync_storage_usage.
  destruct (reset_usage (gather_hpcaccess_state rest_client)) as [state1 hpcaccess] eqn:Hreset.
  intros Hrun.
  apply bind_inr_inv in Hrun as [state2 [Hfold Hrun]].
  apply bind_inr_inv in Hrun as [sent2 [Hdeploy Hrun]].
  cbv [mret result_ret] in Hrun. injection Hrun as <- <-.
  assert (Hstate1 : state1 = (reset_usage (gather_hpcaccess_state rest_client)).1)
    by (by rewrite Hreset).
  assert (Hinv : (reset_usage state2).1 = (reset_usage state1).1
                 ∧ Forall (λ u, ∃ usage, HpcUser.resources_used u = UsedDict usage)
                          (dict.values (HpcaccessState.hpc_users state2))
                 ∧ Forall (λ g, ∃ usage, HpcGroup.resources_used g = UsedDict usage)
                          (dict.values (HpcaccessState.hpc_groups state2))
                 ∧ Forall (λ p, ∃ usage, HpcProject.resources_used p = UsedDict usage)
                          (dict.values (HpcaccessState.hpc_projects state2))).
  { revert Hfold.
    apply (for_in_invariant
             (λ st, (reset_usage st).1 = (reset_usage state1).1
                    ∧ Forall (λ u, ∃ usage, HpcUser.resources_used u = UsedDict usage)
                             (dict.values (HpcaccessState.hpc_users st))
                    ∧ Forall (λ g, ∃ usage, HpcGroup.resources_used g = UsedDict usage)
                             (dict.values (HpcaccessState.hpc_groups st))
                    ∧ Forall (λ p, ∃ usage, HpcProject.resources_used p = UsedDict usage)
                             (dict.values (HpcaccessState.hpc_projects st)))).
    - intros fs t t' _ Hstep [Herase Hdict].
      apply fold_directory_inv in Hstep as [Herase' Hdict'].
      split; [by rewrite Herase'|by apply Hdict'].
    - split; [done|]. rewrite Hstate1. unfold reset_usage.
      cbn [fst HpcaccessState.hpc_users HpcaccessState.hpc_groups
           HpcaccessState.hpc_projects].
      rewrite !dict_values_fmap.
      split_and!; apply Forall_fmap, Forall_forall; intros x _; by eexists. }
  destruct Hinv as (Herase & Hu & Hg & Hp).
  assert (Hreturns : ∃ sent', deploy_hpcaccess_state state2 = inr sent').
  { unfold deploy_hpcaccess_state.
    destruct (deploy_loop_returns
                (ResourceDataUser.model_dump ResourceDataUser.default)
                HpcUser.resources_used
                (λ u, "adminsec/api/hpcuser/" +:+ HpcUser.uuid u +:+ "/") _ [] Hu)
      as [sent_u ->].
    cbn [mbind result_bind].
    destruct (deploy_loop_returns
                (ResourceData.model_dump ResourceData.default)
                HpcGroup.resources_used
                (λ g, "adminsec/api/hpcgroup/" +:+ HpcGroup.uuid g +:+ "/") _ sent_u Hg)
      as [sent_g ->].
    cbn [mbind result_bind].
    apply (deploy_loop_returns
             (ResourceData.model_dump ResourceData.default)
             HpcProject.resources_used
             (λ p, "adminsec/api/hpcproject/" +:+ HpcProject.uuid p +:+ "/") _ sent_g Hp). }
  split_and!.
  - rewrite Herase, Hstate1. apply reset_usage_idempotent.
  - exact Hreturns.
  - intros ->. simpl in Hdeploy. cbv [mret result_ret] in Hdeploy. by injection Hdeploy as <-.
  - intros ->. exact Hdeploy.
Qed.

Lemma sync_storage_usage_changes_usage_only_witness :
  (reset_usage Scenario4.state_after).1
  = (reset_usage (gather_hpcaccess_state Scenario4.registry)).1
  ∧ (∃ sent', deploy_hpcaccess_state Scenario4.state_after = inr sent')
  ∧ (false = true → [ PATCH "adminsec/api/hpcuser/u-ada/" [("tier1_home", S754_zero false)];
                      PATCH "adminsec/api/hpcgroup/g-agfoo/"
                        [("tier1_scratch", Float.of_Z 5)] ] = [])
  ∧ (false = false →
     deploy_hpcaccess_state Scenario4.state_after
     = inr [ PATCH "adminsec/api/hpcuser/u-ada/" [("tier1_home", S754_zero false)];
             PATCH "adminsec/api/hpcgroup/g-agfoo/" [("tier1_scratch", Float.of_Z 5)] ]).
Proof.
  apply (sync_storage_usage_changes_usage_only Scenario4.readers Scenario4.registry false).
  vm_compute. reflexivity.
Defined.

(** ** State gathering: dictionaries keyed by a field *)

(** In a dictionary built by comprehension, a key is bound to the value of
    the last element that has this key. *)
Lemma of_list_get_last {A V : Type} (key : A → string) (val : A → V)
    (before after : list A) (x : A) :
  (∀ y, y ∈ after → key y ≠ key x) →
  dict.get (dict.of_list key val (before ++ x :: after)) (key x) = Some (val x).
Proof.
  induction after as [|y after IH] using rev_ind; intros Hafter.
  - rewrite of_list_snoc. apply dict_get_set_eq.
  - replace (before ++ x :: after ++ [y]) with ((before ++ x :: after) ++ [y])
      by (by rewrite <- app_assoc).
    rewrite of_list_snoc, dict_get_set_ne.
    + apply IH. intros z Hz. apply Hafter, elem_of_app. by left.
    + apply Hafter, elem_of_app. right. left.
Qed.

Lemma of_list_get_is_Some {A V : Type} (key : A → string) (val : A → V)
    (xs : list A) (x : A) :
  x ∈ xs → is_Some (dict.get (dict.of_list key val xs) (key x)).
Proof.
  induction xs as [|y xs IH] using rev_ind; [by intros ?%elem_of_nil|].
  rewrite of_list_snoc. intros [Hin | ->%list_elem_of_singleton]%elem_of_app.
  - by apply dict_get_set_Some, IH.
  - rewrite dict_get_set_eq. by eexists.
Qed.

(** X26. The state that [gather_system_state] returns holds the
    directories that the file system reports by their paths: every entry is a
    reported directory under its own path, every reported directory has an
    entry under its path, and where several are reported with one path the
    last of them is the entry.  The users are held in the same way by their
    uid and the groups by their common name. *)
Theorem gather_system_state_keys (readers : SystemReaders.t) :
  (∀ path d,
     dict.get (SystemState.fs_directories (gather_system_state readers)) path = Some d →
     FsDirectory.path d = path ∧ d ∈ SystemReaders.load_directories readers)
  ∧ (∀ before d after,
       SystemReaders.load_directories readers = before ++ d :: after →
       (∀ d', d' ∈ after → FsDirectory.path d' ≠ FsDirectory.path d) →
       dict.get (SystemState.fs_directories (gather_system_state readers))
                (FsDirectory.path d) = Some d)
  ∧ (∀ d, d ∈ SystemReaders.load_directories readers →
          is_Some (dict.get (SystemState.fs_directories (gather_system_state readers))
                            (FsDirectory.path d)))
  ∧ (∀ uid u,
       dict.get (SystemState.ldap_users (gather_system_state readers)) uid = Some u →
       LdapUser.uid u = uid ∧ u ∈ SystemReaders.load_users readers)
  ∧ (∀ u, u ∈ SystemReaders.load_users readers →
          is_Some (dict.get (SystemState.ldap_users (gather_system_state readers))
                            (LdapUser.uid u)))
  ∧ (∀ cn g,
       dict.get (SystemState.ldap_groups (gather_system_state readers)) cn = Some g →
       LdapGroup.cn g = cn ∧ g ∈ SystemReaders.load_groups readers)
  ∧ (∀ g, g ∈ SystemReaders.load_groups readers →
          is_Some (dict.get (SystemState.ldap_groups (gather_system_state readers))
                            (LdapGroup.cn g))).
Proof.
  unfold gather_system_state.
  cbn [SystemState.fs_directories SystemState.ldap_users SystemState.ldap_groups].
  split_and!.
  - intros path d (x & Hx & <- & <-)%of_list_get_elem. by split.
  - intros before d after -> Hafter.
    by apply (of_list_get_last FsDirectory.path id).
  - intros d Hd. by apply (of_list_get_is_Some FsDirectory.path id).
  - intros uid u (x & Hx & <- & <-)%of_list_get_elem. by split.
  - intros u Hu. by apply (of_list_get_is_Some LdapUser.uid id).
  - intros cn g (x & Hx & <- & <-)%of_list_get_elem. by split.
  - intros g Hg. by apply (of_list_get_is_Some LdapGroup.cn id).
Qed.
